(** * Heat: the v1 ReST layer and the Instance / HARestarter resources

    A shallow embedding of
      - heat/api/openstack/v1/stacks.py     (module [Stacks]),
      - heat/api/openstack/v1/resources.py  (module [Resources]),
      - heat/engine/resources/instance.py   (modules [Engine], [Restarter]
        and [Instance]),
    together with the properties of these programs that the design
    document states.  Calls on the logger are left out: they change
    nothing that the properties speak of. *)

From stdpp Require Import gmap strings list fin_maps.

Set Warnings "-register-all,-notation-for-abbreviation".
Local Open Scope string_scope.
Local Open Scope list_scope.

(** ** Python data *)

(** JSON-like Python values.  A dictionary nested in a value is kept as the
    sequence of its items; its keys are pairwise distinct. *)
Inductive value : Type :=
  | VNone
  | VBool (b : bool)
  | VInt (z : Z)
  | VStr (s : string)
  | VList (l : list value)
  | VDict (d : list (string * value)).

(** Exceptions raised by the modelled code and by its collaborators. *)
Inductive exn : Type :=
  | HTTPBadRequest (explanation : value)
  | HTTPCreated (location : string)
  | HTTPAccepted
  | RemoteError (detail : string)
  | ValueError (msg : string)
  | KeyError (msg : string)
  | IOError (msg : string)
  | IndexError
  | UnboundLocalError (var : string)
  | NotImplementedError
  | TypeError
  | NotFound
  | UserKeyPairMissing (key_name : value)
  | ImageNotFound (image_name : value)
  | Error (msg : string)
  | InvalidTemplateAttribute (resource : string) (key : string)
  | Cancelled
  | OtherException (cls : string).

Module Py.

(** [d.get(k)] on the items of a dictionary. *)
Fixpoint items_get (k : string) (d : list (string * value)) : option value :=
  match d with
  | [] => None
  | (k', v) :: d' => if String.eqb k k' then Some v else items_get k d'
  end.

(** [a == b]: numbers and booleans compare by number, sequences pointwise,
    dictionaries key by key whatever the order of their items. *)
Fixpoint eqb (a b : value) {struct a} : bool :=
  match a, b with
  | VNone, VNone => true
  | VBool x, VBool y => Bool.eqb x y
  | VBool x, VInt y => Z.eqb (Z.b2z x) y
  | VInt x, VBool y => Z.eqb x (Z.b2z y)
  | VInt x, VInt y => Z.eqb x y
  | VStr x, VStr y => String.eqb x y
  | VList x, VList y =>
      (fix go (x y : list value) {struct x} : bool :=
         match x, y with
         | [], [] => true
         | a' :: x', b' :: y' => eqb a' b' && go x' y'
         | _, _ => false
         end) x y
  | VDict x, VDict y =>
      Nat.eqb (length x) (length y) &&
      (fix all (d : list (string * value)) {struct d} : bool :=
         match d with
         | [] => true
         | (k, v) :: d' =>
             match items_get k y with
             | Some w => eqb v w
             | None => false
             end && all d'
         end) x
  | _, _ => false
  end.

(** [bool(v)]. *)
Definition truthy (v : value) : bool :=
  match v with
  | VNone => false
  | VBool b => b
  | VInt z => negb (Z.eqb z 0)
  | VStr s => negb (String.eqb s "")
  | VList l => match l with [] => false | _ => true end
  | VDict d => match d with [] => false | _ => true end
  end.

(** [isinstance(v, dict)]. *)
Definition is_dict (v : value) : bool :=
  match v with VDict _ => true | _ => false end.

(** [dict(pairs)]: a later pair overrides an earlier one with the same key. *)
Definition dict_of_pairs (l : list (string * value)) : gmap string value :=
  foldl (fun m kv => <[kv.1 := kv.2]> m) ∅ l.

End Py.

(** ** heat/api/openstack/v1/stacks.py *)

Module Stacks.

Definition PARAM_STACK_NAME : string := "stack_name".
Definition PARAM_TEMPLATE : string := "template".
Definition PARAM_TEMPLATE_URL : string := "template_url".
Definition PARAM_USER_PARAMS : string := "parameters".
Definition PARAMS : list string :=
  [PARAM_STACK_NAME; PARAM_TEMPLATE; PARAM_TEMPLATE_URL; PARAM_USER_PARAMS].

(** The calls the controller makes on the engine, with their arguments. *)
Inductive engine_call : Type :=
  | create_stack (stack_name template params : value) (args : gmap string value)
  | update_stack (identity template params : value) (args : gmap string value)
  | validate_template_call (template : value).

Section InstantiationData.

(** [heat.common.template_format.parse] and [heat.common.urlfetch.get]. *)
Variable template_format_parse : value -> exn + value.
Variable urlfetch_get : value -> exn + value.

(** [str(ex)] for the exception caught around the fetch. *)
Definition str_exn (e : exn) : string :=
  match e with
  | IOError msg => msg
  | ValueError msg => msg
  | KeyError msg => msg
  | RemoteError msg => msg
  | Error msg => msg
  | _ => ""
  end.

Definition format_parse (data : value) (data_type : string) : exn + value :=
  match template_format_parse data with
  | inl (ValueError _) =>
      inl (HTTPBadRequest (VStr (data_type +:+ " not in valid format")))
  | r => r
  end.

Definition stack_name (data : gmap string value) : exn + value :=
  match data !! PARAM_STACK_NAME with
  | None => inl (HTTPBadRequest (VStr "No stack name specified"))
  | Some n => inr n
  end.

Definition template (data : gmap string value) : exn + value :=
  match data !! PARAM_TEMPLATE with
  | Some template_data =>
      if Py.is_dict template_data then inr template_data
      else format_parse template_data "Template"
  | None =>
      match data !! PARAM_TEMPLATE_URL with
      | Some url =>
          match urlfetch_get url with
          | inl (IOError msg) =>
              inl (HTTPBadRequest
                     (VStr ("Could not retrieve template: "
                              +:+ str_exn (IOError msg))))
          | inl e => inl e
          | inr template_data => format_parse template_data "Template"
          end
      | None => inl (HTTPBadRequest (VStr "No template specified"))
      end
  end.

Definition user_params (data : gmap string value) : value :=
  default (VDict []) (data !! PARAM_USER_PARAMS).

Definition args (data : gmap string value) : gmap string value :=
  filter (fun kv => kv.1 ∉ PARAMS) data.

(** *** StackController *)

(** The engine behind the RPC client, [util.remote_error] and
    [util.make_url]. *)
Variable engine : engine_call -> exn + list (string * value).
Variable remote_error : exn -> exn + value.
Variable make_url : list (string * value) -> string.

(** A controller action yields the engine calls it made, in order, and
    then returns a body or raises. *)
Definition action : Type := (list engine_call * (exn + value))%type.

(** [except rpc_common.RemoteError as ex: return util.remote_error(ex)],
    around a [try] block that gave [r]. *)
Definition except_remote_error {A} (r : exn + A) (orelse : A -> exn + value)
    : exn + value :=
  match r with
  | inl (RemoteError d) => remote_error (RemoteError d)
  | inl e => inl e
  | inr a => orelse a
  end.

(** The [try] block of [create]: the arguments are evaluated from left to
    right, then the engine is called. *)
Definition create_attempt (body : gmap string value)
    : list engine_call * (exn + list (string * value)) :=
  match stack_name body with
  | inl e => ([], inl e)
  | inr name =>
      match template body with
      | inl e => ([], inl e)
      | inr tmpl =>
          let call := create_stack name tmpl (user_params body) (args body) in
          ([call], engine call)
      end
  end.

Definition create (body : gmap string value) : action :=
  ((create_attempt body).1,
   except_remote_error (create_attempt body).2
     (fun result =>
        match Py.items_get "Description" result with
        | Some d => inl (HTTPBadRequest d)
        | None => inl (HTTPCreated (make_url result))
        end)).

Definition update_attempt (identity : value) (body : gmap string value)
    : list engine_call * (exn + list (string * value)) :=
  match template body with
  | inl e => ([], inl e)
  | inr tmpl =>
      let call := update_stack identity tmpl (user_params body) (args body) in
      ([call], engine call)
  end.

Definition update (identity : value) (body : gmap string value) : action :=
  ((update_attempt identity body).1,
   except_remote_error (update_attempt identity body).2
     (fun res =>
        match Py.items_get "Description" res with
        | Some d => inl (HTTPBadRequest d)
        | None => inl HTTPAccepted
        end)).

Definition validate_template_attempt (body : gmap string value)
    : list engine_call * (exn + list (string * value)) :=
  match template body with
  | inl e => ([], inl e)
  | inr tmpl =>
      let call := validate_template_call tmpl in
      ([call], engine call)
  end.

Definition validate_template (body : gmap string value) : action :=
  ((validate_template_attempt body).1,
   except_remote_error (validate_template_attempt body).2
     (fun result =>
        match Py.items_get "Error" result with
        | Some d => inl (HTTPBadRequest d)
        | None => inr (VDict result)
        end)).

End InstantiationData.

End Stacks.

(** ** heat/api/openstack/v1/resources.py *)

Module Resources.

Section format_resource.

(** The keys of a resource record, [engine_api.RES_ID] and the like
    (heat/rpc/api.py). *)
Variables RES_ID RES_STACK_NAME RES_STACK_ID RES_METADATA : string.

(** The request, the constructor [identifier.ResourceIdentifier] applied
    to the keyword arguments held in the value, its method
    [stack()], which gives the identifier of the owning stack, and
    [util.make_link(req, identity, relationship)]; [None] stands for
    the default relationship. *)
Variable Request : Type.
Variable Identifier : Type.
Variable ResourceIdentifier : value -> exn + Identifier.
Variable identity_stack : Identifier -> Identifier.
Variable make_link : Request -> Identifier -> option string -> value.

Definition include_key (keys : list string) (k : string) : bool :=
  match keys with
  | [] => true
  | _ => bool_decide (k ∈ keys)
  end.

(** The pairs the generator [transform] yields for one item. *)
Definition transform (req : Request) (keys : list string)
    (key : string) (v : value) : exn + list (string * value) :=
  if negb (include_key keys key) then inr []
  else if String.eqb key RES_ID then
    match ResourceIdentifier v with
    | inl e => inl e
    | inr identity =>
        inr [("links",
              VList [make_link req identity None;
                     make_link req (identity_stack identity) (Some "stack")])]
    end
  else if String.eqb key RES_STACK_NAME || String.eqb key RES_STACK_ID
  then inr []
  else if String.eqb key RES_METADATA then inr []
  else inr [(key, v)].

(** [itertools.chain.from_iterable(transform(k, v) for k, v in items)]. *)
Fixpoint chain_transform (req : Request) (keys : list string)
    (items : list (string * value)) : exn + list (string * value) :=
  match items with
  | [] => inr []
  | (k, v) :: rest =>
      match transform req keys k v with
      | inl e => inl e
      | inr ps =>
          match chain_transform req keys rest with
          | inl e => inl e
          | inr qs => inr (ps ++ qs)
          end
      end
  end.

(** [format_resource] on the items of the record, in the order in which
    [stack.items()] gives them. *)
Definition format_resource_items (req : Request)
    (items : list (string * value)) (keys : list string)
    : exn + gmap string value :=
  match chain_transform req keys items with
  | inl e => inl e
  | inr ps => inr (Py.dict_of_pairs ps)
  end.

Definition format_resource (req : Request) (stack : gmap string value)
    (keys : list string) : exn + gmap string value :=
  format_resource_items req (map_to_list stack) keys.

End format_resource.

End Resources.

(** ** heat/engine/resources/instance.py *)

(** The objects of the nova client, with the attributes the code reads. *)
Module Keypair.
Record t : Type := { name : string }.
End Keypair.

Module Image.
Record t : Type := { name : string; id : string }.
End Image.

Module Flavor.
Record t : Type := { name : string; id : string }.
End Flavor.

Module Server.
Record t : Type :=
  { id : string; status : string; networks : list (string * list string) }.
End Server.

Module Engine.

(** A resource object: the attributes of [resource.Resource] and of
    [Instance] that the handlers read or assign. *)
Record resource : Type := Resource {
  name : string;
  t : list (string * value);
  resource_id : option string;
  metadata : value;
  ipaddress : option string;
  mime_string : option string
}.

Definition with_resource_id (r : resource) (i : option string) : resource :=
  {| name := name r; t := t r; resource_id := i; metadata := metadata r;
     ipaddress := ipaddress r; mime_string := mime_string r |}.

Definition with_metadata (r : resource) (m : value) : resource :=
  {| name := name r; t := t r; resource_id := resource_id r; metadata := m;
     ipaddress := ipaddress r; mime_string := mime_string r |}.

Definition with_ipaddress (r : resource) (a : option string) : resource :=
  {| name := name r; t := t r; resource_id := resource_id r;
     metadata := metadata r; ipaddress := a; mime_string := mime_string r |}.

Definition with_mime_string (r : resource) (m : option string) : resource :=
  {| name := name r; t := t r; resource_id := resource_id r;
     metadata := metadata r; ipaddress := ipaddress r; mime_string := m |}.

(** The keyword arguments of [servers.create]. *)
Record create_args : Type := {
  arg_name : string;
  arg_image : string;
  arg_flavor : string;
  arg_key_name : value;
  arg_security_groups : option (list string);
  arg_userdata : string;
  arg_meta : option (list (value * value));
  arg_scheduler_hints : option (list (value * value))
}.

(** Calls that leave the resource object: on the nova client, on
    [eventlet] and on the stack. *)
Inductive call : Type :=
  | keypairs_list_call
  | images_list_call
  | flavors_list_call
  | servers_create_call (args : create_args)
  | servers_get_call (server_id : option string)
  | server_delete_call (server_id : string)
  | server_get_call (server_id : string)
  | sleep_call (milliseconds : nat)
  | restart_resource_call (resource_name : string).

(** A call that changes what the provider holds. *)
Definition mutating (c : call) : bool :=
  match c with
  | servers_create_call _ | server_delete_call _ | restart_resource_call _ => true
  | _ => false
  end.

Definition provider_call (c : call) : bool :=
  match c with
  | sleep_call _ | restart_resource_call _ => false
  | _ => true
  end.

(** The world outside the resource object.  Every operation may raise and
    may change the world; [server_get] is [server.get()], which refreshes
    the server object, and [server_delete] is [server.delete()]. *)
Class World (W : Type) : Type := {
  keypairs_list : W -> (exn + list Keypair.t) * W;
  images_list : W -> (exn + list Image.t) * W;
  flavors_list : W -> (exn + list Flavor.t) * W;
  servers_create : create_args -> W -> (exn + Server.t) * W;
  servers_get : option string -> W -> (exn + Server.t) * W;
  server_delete : Server.t -> W -> (exn + unit) * W;
  server_get : Server.t -> W -> (exn + Server.t) * W;
  eventlet_sleep : nat -> W -> (exn + unit) * W;
  restart_resource : string -> W -> (exn + unit) * W
}.

(** What the handlers inherit from [resource.Resource] and import:
    [self.properties[key]], [physical_resource_name()],
    [physical_resource_name_find(name)], the inherited [validate()],
    [update_template_diff(json_snippet)], the MIME blob that
    [_build_userdata] assembles, and the builtin [unicode]. *)
Class Base : Type := {
  properties : resource -> string -> exn + value;
  physical_resource_name : resource -> string;
  physical_resource_name_find : resource -> value -> exn + string;
  super_validate : resource -> value;
  update_template_diff :
    resource -> list (string * value) -> exn + list (string * value);
  mime_blob : resource -> value -> string;
  unicode : value -> string
}.

(** How a handler ends: it returns, it raises, or it is still in a
    waiting loop when the fuel is spent. *)
Inductive outcome (A : Type) : Type :=
  | Return (a : A)
  | Raise (e : exn)
  | OutOfFuel.
Arguments Return {A} a.
Arguments Raise {A} e.
Arguments OutOfFuel {A}.

Record ctx (W : Type) : Type := Ctx {
  self : resource;
  world : W;
  calls : list call
}.
Arguments Ctx {W} _ _ _.
Arguments self {W} _.
Arguments world {W} _.
Arguments calls {W} _.

(** Handlers thread the context; what was assigned before an exception
    stays assigned. *)
Definition M (W A : Type) : Type := ctx W -> outcome A * ctx W.

#[export] Instance M_ret {W} : MRet (M W) := fun A a c => (Return a, c).

#[export] Instance M_bind {W} : MBind (M W) := fun A B f m c =>
  match m c with
  | (Return a, c') => f a c'
  | (Raise e, c') => (Raise e, c')
  | (OutOfFuel, c') => (OutOfFuel, c')
  end.

Definition raise {W A} (e : exn) : M W A := fun c => (Raise e, c).
Definition out_of_fuel {W A} : M W A := fun c => (OutOfFuel, c).
Definition get_self {W} : M W resource := fun c => (Return (self c), c).
Definition put_self {W} (r : resource) : M W unit :=
  fun c => (Return tt, Ctx r (world c) (calls c)).
Definition lift {W A} (r : exn + A) : M W A :=
  match r with inl e => raise e | inr a => mret a end.

(** [try: body / except E: handler / else: orelse]. *)
Definition try_except_else {W A B} (body : M W A) (caught : exn -> bool)
    (handler : M W B) (orelse : A -> M W B) : M W B := fun c =>
  match body c with
  | (Return a, c') => orelse a c'
  | (Raise e, c') => if caught e then handler c' else (Raise e, c')
  | (OutOfFuel, c') => (OutOfFuel, c')
  end.

(** [x = None / try: x = body / finally: final(x)]. *)
Definition try_finally {W A} (body : M W A) (final : option A -> M W unit)
    : M W A := fun c =>
  match body c with
  | (Return a, c') =>
      match final (Some a) c' with
      | (Return _, c'') => (Return a, c'')
      | (Raise e, c'') => (Raise e, c'')
      | (OutOfFuel, c'') => (OutOfFuel, c'')
      end
  | (Raise e, c') =>
      match final None c' with
      | (Return _, c'') => (Raise e, c'')
      | (Raise e', c'') => (Raise e', c'')
      | (OutOfFuel, c'') => (OutOfFuel, c'')
      end
  | (OutOfFuel, c') => (OutOfFuel, c')
  end.

Definition is_NotFound (e : exn) : bool :=
  match e with NotFound => true | _ => false end.
Definition is_ValueError (e : exn) : bool :=
  match e with ValueError _ => true | _ => false end.

Section Calls.
Context {W : Type} `{World W}.

(** A call on the world: it is logged, and its answer is returned or
    raised. *)
Definition perform {A} (c : call) (op : W -> (exn + A) * W) : M W A :=
  fun x =>
    let '(r, w) := op (world x) in
    (match r with inl e => Raise e | inr a => Return a end,
     Ctx (self x) w (calls x ++ [c])).

Definition nova_keypairs_list : M W (list Keypair.t) :=
  perform keypairs_list_call keypairs_list.
Definition nova_images_list : M W (list Image.t) :=
  perform images_list_call images_list.
Definition nova_flavors_list : M W (list Flavor.t) :=
  perform flavors_list_call flavors_list.
Definition nova_servers_create (a : create_args) : M W Server.t :=
  perform (servers_create_call a) (servers_create a).
Definition nova_servers_get (i : option string) : M W Server.t :=
  perform (servers_get_call i) (servers_get i).
Definition nova_server_delete (s : Server.t) : M W unit :=
  perform (server_delete_call (Server.id s)) (server_delete s).
Definition nova_server_get (s : Server.t) : M W Server.t :=
  perform (server_get_call (Server.id s)) (server_get s).
Definition sleep (ms : nat) : M W unit :=
  perform (sleep_call ms) (eventlet_sleep ms).
Definition stack_restart_resource (n : string) : M W unit :=
  perform (restart_resource_call n) (restart_resource n).
End Calls.

(** Modelled from the spec: [resource_id_set] of the base class, which is
    not among the sources.  "As soon as a provider_id is returned it is
    recorded": the id becomes the resource's [resource_id]. *)
Definition resource_id_set {W} (inst : string) : M W unit :=
  self ← get_self; put_self (with_resource_id self (Some inst)).

(** [self.properties.get(key)]: the [get] of a mapping. *)
Definition properties_get `{Base} (self : resource) (key : string) : exn + value :=
  match properties self key with
  | inl (KeyError _) => inr VNone
  | r => r
  end.

End Engine.

Module Iter.

Fixpoint chars (s : string) : list value :=
  match s with
  | EmptyString => []
  | String c s' => VStr (String c EmptyString) :: chars s'
  end.

(** The elements a [for] loop or a comprehension draws from a value. *)
Definition iter (v : value) : exn + list value :=
  match v with
  | VList l => inr l
  | VStr s => inr (chars s)
  | VDict d => inr (map (fun kv => VStr kv.1) d)
  | _ => inl TypeError
  end.

(** [[f(x) for x in l]] where [f] may raise. *)
Fixpoint comprehension {A B} (f : A -> exn + B) (l : list A) : exn + list B :=
  match l with
  | [] => inr []
  | x :: l' =>
      match f x with
      | inl e => inl e
      | inr y =>
          match comprehension f l' with
          | inl e => inl e
          | inr ys => inr (y :: ys)
          end
      end
  end.

(** [tm[key]] for a string key. *)
Definition subscript (tm : value) (key : string) : exn + value :=
  match tm with
  | VDict d =>
      match Py.items_get key d with
      | Some v => inr v
      | None => inl (KeyError key)
      end
  | _ => inl TypeError
  end.

(** [d[k] = v] on a dictionary with arbitrary keys. *)
Fixpoint setitem (k v : value) (d : list (value * value)) : list (value * value) :=
  match d with
  | [] => [(k, v)]
  | (k', v') :: d' =>
      if Py.eqb k' k then (k', v) :: d' else (k', v') :: setitem k v d'
  end.

Definition hashable (k : value) : bool :=
  match k with VList _ | VDict _ => false | _ => true end.

(** [for tm in l: d[tm['Key']] = tm['Value']].  An assignment evaluates
    its right-hand side first: [tm['Value']] is read before [tm['Key']],
    and the key is hashed last, when the item is stored. *)
Fixpoint key_value_loop (l : list value) (d : list (value * value))
    : exn + list (value * value) :=
  match l with
  | [] => inr d
  | tm :: l' =>
      match subscript tm "Value" with
      | inl e => inl e
      | inr v =>
          match subscript tm "Key" with
          | inl e => inl e
          | inr k =>
              if hashable k then key_value_loop l' (setitem k v d)
              else inl TypeError
          end
      end
  end.

(** [d = {} / if p: for tm in p: ... / else: d = None]. *)
Definition key_value_dict (p : value) : exn + option (list (value * value)) :=
  if Py.truthy p then
    match iter p with
    | inl e => inl e
    | inr l =>
        match key_value_loop l [] with
        | inl e => inl e
        | inr d => inr (Some d)
        end
    end
  else inr None.

End Iter.

Module Restarter.
Import Engine.

Section Restarter.
Context {W : Type} `{World W} `{Base}.

(** A [resource_id] as a Python value. *)
Definition id_value (i : option string) : value :=
  match i with
  | None => VNone
  | Some s => VStr s
  end.

Fixpoint _find_resource (stack : list resource) (resource_id : value)
    : option resource :=
  match stack with
  | [] => None
  | resource :: rest =>
      if Py.eqb (id_value (Engine.resource_id resource)) resource_id
      then Some resource
      else _find_resource rest resource_id
  end.

(** [alarm], with the resources of [self.stack] in iteration order. *)
Definition alarm (stack : list resource) : M W unit :=
  self ← get_self;
  instance_id ← lift (properties self "InstanceId");
  match _find_resource stack instance_id with
  | None => mret tt
  | Some victim => stack_restart_resource (name victim)
  end.

End Restarter.
End Restarter.

Module Instance.
Import Engine.

Definition update_allowed_keys : list string := ["Metadata"].

(** The two results of [handle_update]. *)
Inductive update_result : Type :=
  | UPDATE_REPLACE
  | UPDATE_COMPLETE.

Definition declared_attributes : list string :=
  ["AvailabilityZone"; "PublicIp"; "PrivateIp"; "PublicDnsName"; "PrivateDnsName"].

Section Instance.
Context {W : Type} `{World W} `{Base}.

Definition _set_ipaddress (networks : list (string * list string)) : M W unit :=
  match networks with
  | [] => mret tt
  | (n, addresses) :: _ =>
      match addresses with
      | [] => raise IndexError
      | a :: _ => self ← get_self; put_self (with_ipaddress self (Some a))
      end
  end.

Definition _ipaddress : M W string :=
  self ← get_self;
  match ipaddress self with
  | None =>
      try_except_else (nova_servers_get (resource_id self)) is_NotFound
        (mret tt)
        (fun server => _set_ipaddress (Server.networks server))
  | Some _ => mret tt
  end;;
  self ← get_self;
  mret (match ipaddress self with
        | Some a => if String.eqb a "" then "0.0.0.0" else a
        | None => "0.0.0.0"
        end).

Definition FnGetAtt (key : string) : M W string :=
  self ← get_self;
  res ← (if String.eqb key "AvailabilityZone"
         then lift (properties self "AvailabilityZone")
         else if String.eqb key "PublicIp" then a ← _ipaddress; mret (VStr a)
         else if String.eqb key "PrivateIp" then a ← _ipaddress; mret (VStr a)
         else if String.eqb key "PublicDnsName" then a ← _ipaddress; mret (VStr a)
         else if String.eqb key "PrivateDnsName" then a ← _ipaddress; mret (VStr a)
         else raise (InvalidTemplateAttribute (name self) key));
  mret (unicode res).

Definition _build_userdata (userdata : value) : M W string :=
  self ← get_self;
  match mime_string self with
  | Some m =>
      if negb (String.eqb m "") then mret m
      else
        let blob := mime_blob self userdata in
        put_self (with_mime_string self (Some blob));; mret blob
  | None =>
      let blob := mime_blob self userdata in
      put_self (with_mime_string self (Some blob));; mret blob
  end.

(** The id of the last object of the list that carries the name. *)
Definition id_by_name {A} (obj_name obj_id : A -> string) (wanted : value)
    (l : list A) : option string :=
  foldl (fun found o =>
           if Py.eqb (VStr (obj_name o)) wanted then Some (obj_id o) else found)
        None l.

(** [while server.status == 'BUILD': server.get(); eventlet.sleep(1)]. *)
Fixpoint wait_build (fuel : nat) (server : Server.t) : M W Server.t :=
  if String.eqb (Server.status server) "BUILD" then
    match fuel with
    | O => out_of_fuel
    | S fuel' =>
        server' ← nova_server_get server;
        sleep 1000;;
        wait_build fuel' server'
    end
  else mret server.

(** Everything [handle_create] does before it enters [try]: it yields the
    arguments of [servers.create], but for the flavor, which is unbound
    when no flavor carries the name. *)
Definition create_arguments : M W (create_args * option string) :=
  self ← get_self;
  sgs ← lift (properties_get self "SecurityGroups");
  security_groups ←
    match sgs with
    | VNone => mret None
    | _ =>
        l ← lift (Iter.iter sgs);
        names ← lift (Iter.comprehension (physical_resource_name_find self) l);
        mret (Some names)
    end;
  ud ← lift (properties self "UserData");
  let userdata := if Py.truthy ud then ud else VStr "" in
  flavor ← lift (properties self "InstanceType");
  key_name ← lift (properties self "KeyName");
  keypairs ← nova_keypairs_list;
  if negb (existsb (fun k => Py.eqb (VStr (Keypair.name k)) key_name) keypairs)
  then raise (UserKeyPairMissing key_name)
  else
    image_name ← lift (properties self "ImageId");
    image_list ← nova_images_list;
    match id_by_name Image.name Image.id image_name image_list with
    | None => raise (ImageNotFound image_name)
    | Some image_id =>
        flavor_list ← nova_flavors_list;
        let flavor_id := id_by_name Flavor.name Flavor.id flavor flavor_list in
        tags_p ← lift (properties self "Tags");
        tags ← lift (Iter.key_value_dict tags_p);
        hints_p ← lift (properties self "NovaSchedulerHints");
        scheduler_hints ← lift (Iter.key_value_dict hints_p);
        server_userdata ← _build_userdata userdata;
        self' ← get_self;
        mret ({| arg_name := physical_resource_name self';
                 arg_image := image_id;
                 arg_flavor := default "" flavor_id;
                 arg_key_name := key_name;
                 arg_security_groups := security_groups;
                 arg_userdata := server_userdata;
                 arg_meta := tags;
                 arg_scheduler_hints := scheduler_hints |}, flavor_id)
    end.

(** [server = None / try: server = servers.create(...) / finally: if server
    is not None: resource_id_set(server.id)]. *)
Definition create_server (args : create_args) (flavor_id : option string)
    : M W Server.t :=
  try_finally
    (match flavor_id with
     | None => raise (UnboundLocalError "flavor_id")
     | Some _ => nova_servers_create args
     end)
    (fun server =>
       match server with
       | Some s => resource_id_set (Server.id s)
       | None => mret tt
       end).

(** What follows the [try] statement. *)
Definition wait_active (fuel : nat) (server : Server.t) : M W unit :=
  server' ← wait_build fuel server;
  self ← get_self;
  if String.eqb (Server.status server') "ACTIVE"
  then _set_ipaddress (Server.networks server')
  else raise (Error ("nova reported unexpected instance[" +:+ name self
                       +:+ "] status[" +:+ Server.status server' +:+ "]")).

Definition handle_create (fuel : nat) : M W unit :=
  '(args, flavor_id) ← create_arguments;
  server ← create_server args flavor_id;
  wait_active fuel server.

(** [for k in tmpl_diff: ...] and the final [return status]. *)
Fixpoint update_loop (json_snippet : list (string * value))
    (keys : list string) (status : update_result) : M W update_result :=
  match keys with
  | [] => mret status
  | k :: rest =>
      if String.eqb k "Metadata" then
        self ← get_self;
        put_self (with_metadata self
                    (default (VDict []) (Py.items_get "Metadata" json_snippet)));;
        update_loop json_snippet rest UPDATE_COMPLETE
      else mret UPDATE_REPLACE
  end.

Definition handle_update (json_snippet : list (string * value))
    : M W update_result :=
  self ← get_self;
  match update_template_diff self json_snippet with
  | inl NotImplementedError => mret UPDATE_REPLACE
  | inl e => raise e
  | inr tmpl_diff => update_loop json_snippet (tmpl_diff.*1) UPDATE_REPLACE
  end.

Definition validate : M W value :=
  self ← get_self;
  let res := super_validate self in
  if Py.truthy res then mret res
  else
    try_except_else (lift (properties self "KeyName")) is_ValueError
      (mret VNone)
      (fun key_name =>
         keypairs ← nova_keypairs_list;
         if existsb (fun k => Py.eqb (VStr (Keypair.name k)) key_name) keypairs
         then mret VNone
         else mret (VDict [("Error",
                            VStr "Provided KeyName is not registered with nova")])).

(** [while True: try: server.get() / except NotFound: break /
    eventlet.sleep(0.2)]. *)
Fixpoint wait_deleted (fuel : nat) (server : Server.t) : M W unit :=
  match fuel with
  | O => out_of_fuel
  | S fuel' =>
      try_except_else (nova_server_get server) is_NotFound
        (mret tt)
        (fun server' => sleep 200;; wait_deleted fuel' server')
  end.

Definition handle_delete (fuel : nat) : M W unit :=
  self ← get_self;
  match resource_id self with
  | None => mret tt
  | Some _ =>
      try_except_else (nova_servers_get (resource_id self)) is_NotFound
        (mret tt)
        (fun server => nova_server_delete server;; wait_deleted fuel server);;
      self' ← get_self;
      put_self (with_resource_id self' None)
  end.

End Instance.
End Instance.

(** ** A base class and a cloud to run the handlers on *)

Module Sample.
Import Engine.

Definition option_eqb (a b : option value) : bool :=
  match a, b with
  | None, None => true
  | Some x, Some y => Py.eqb x y
  | _, _ => false
  end.

(** Modelled from the spec: the changed-key set of the update resolver,
    whose code ([update_template_diff] of the base class) is not among the
    sources.  "Compute the symmetric difference by deep equality per key
    (added, removed, or changed)". *)
Definition changed_keys (old new : list (string * value)) : list string :=
  List.filter (fun k => negb (option_eqb (Py.items_get k old) (Py.items_get k new)))
    (remove_dups (old.*1 ++ new.*1)).

(** Modelled from the spec: [update_template_diff], not among the sources.
    It yields the changed keys with their new values; a changed key outside
    the update-allowed key set is reported by [NotImplementedError], the
    exception that [handle_update] catches. *)
Definition update_template_diff_model (allowed : list string)
    (self : resource) (json_snippet : list (string * value))
    : exn + list (string * value) :=
  let changed := changed_keys (t self) json_snippet in
  if forallb (fun k => bool_decide (k ∈ allowed)) changed
  then inr (map (fun k => (k, default VNone (Py.items_get k json_snippet))) changed)
  else inl NotImplementedError.

(** The properties of the resource's template snippet, with the default and
    the required keys of [Instance.properties_schema] and of
    [Restarter.properties_schema]. *)
Definition snippet_properties (self : resource) (key : string) : exn + value :=
  let props :=
    match Py.items_get "Properties" (t self) with
    | Some (VDict d) => d
    | _ => []
    end in
  match Py.items_get key props with
  | Some v => inr v
  | None =>
      if String.eqb key "AvailabilityZone" then inr (VStr "nova")
      else if bool_decide (key ∈ ["ImageId"; "InstanceType"; "KeyName"; "InstanceId"])
      then inl (ValueError ("Property " +:+ key +:+ " not assigned"))
      else if bool_decide (key ∈ ["SecurityGroups"; "Tags"; "NovaSchedulerHints"; "UserData"])
      then inr VNone
      else inl (KeyError key)
  end.

Definition snippet_validate (self : resource) : value :=
  match snippet_properties self "ImageId" with
  | inl e => VStr ("Property ImageId not assigned")
  | inr _ => VNone
  end.

#[export] Instance base : Base := {|
  properties := snippet_properties;
  physical_resource_name := fun self => "teststack." +:+ name self;
  physical_resource_name_find := fun self n =>
    match n with
    | VStr s => inr ("teststack." +:+ s)
    | _ => inl IndexError
    end;
  super_validate := snippet_validate;
  update_template_diff := update_template_diff_model Instance.update_allowed_keys;
  mime_blob := fun self userdata =>
    match userdata with
    | VStr s => "Content-Type: multipart/mixed " +:+ s
    | _ => "Content-Type: multipart/mixed"
    end;
  unicode := fun v => match v with VStr s => s | _ => "None" end
|}.

(** A small cloud.  A server that was asked for is built, and one that was
    deleted disappears, after [countdown] further refreshes; [built_status]
    is the status a finished build ends in; during an [outage] every lookup
    of a server fails. *)
Record cloud : Type := Cloud {
  cloud_keypairs : list Keypair.t;
  cloud_images : list Image.t;
  cloud_flavors : list Flavor.t;
  cloud_servers : list Server.t;
  countdown : nat;
  built_status : string;
  outage : bool;
  restarted : list string
}.

Definition with_servers (w : cloud) (l : list Server.t) (n : nat) : cloud :=
  {| cloud_keypairs := cloud_keypairs w; cloud_images := cloud_images w;
     cloud_flavors := cloud_flavors w; cloud_servers := l; countdown := n;
     built_status := built_status w; outage := outage w;
     restarted := restarted w |}.

Definition find_server (i : string) (w : cloud) : option Server.t :=
  List.find (fun s => String.eqb (Server.id s) i) (cloud_servers w).

Definition replace_server (s : Server.t) (l : list Server.t) : list Server.t :=
  map (fun s' => if String.eqb (Server.id s') (Server.id s) then s else s') l.

Definition remove_server (i : string) (l : list Server.t) : list Server.t :=
  List.filter (fun s' => negb (String.eqb (Server.id s') i)) l.

Definition cloud_servers_get (i : option string) (w : cloud)
    : (exn + Server.t) * cloud :=
  if outage w then (inl (OtherException "ClientException"), w)
  else
    match i with
    | None => (inl NotFound, w)
    | Some i' =>
        match find_server i' w with
        | Some s => (inr s, w)
        | None => (inl NotFound, w)
        end
    end.

Definition cloud_server_get (s : Server.t) (w : cloud)
    : (exn + Server.t) * cloud :=
  match find_server (Server.id s) w with
  | None => (inl NotFound, w)
  | Some cur =>
      match countdown w with
      | S n => (inr cur, with_servers w (cloud_servers w) n)
      | O =>
          if String.eqb (Server.status cur) "DELETING" then
            (inl NotFound,
             with_servers w (remove_server (Server.id s) (cloud_servers w)) 0)
          else if String.eqb (Server.status cur) "BUILD" then
            let s' := {| Server.id := Server.id cur;
                         Server.status := built_status w;
                         Server.networks := [("private", ["10.0.0.2"])] |} in
            (inr s', with_servers w (replace_server s' (cloud_servers w)) 0)
          else (inr cur, w)
      end
  end.

Definition cloud_servers_create (a : create_args) (w : cloud)
    : (exn + Server.t) * cloud :=
  let s := {| Server.id := "srv-" +:+ arg_name a; Server.status := "BUILD";
              Server.networks := [] |} in
  (inr s, with_servers w (s :: cloud_servers w) (countdown w)).

Definition cloud_server_delete (s : Server.t) (w : cloud)
    : (exn + unit) * cloud :=
  match find_server (Server.id s) w with
  | None => (inl NotFound, w)
  | Some cur =>
      let s' := {| Server.id := Server.id cur; Server.status := "DELETING";
                   Server.networks := Server.networks cur |} in
      (inr tt, with_servers w (replace_server s' (cloud_servers w)) 2)
  end.

#[export] Instance cloud_world : World cloud := {|
  keypairs_list := fun w => (inr (cloud_keypairs w), w);
  images_list := fun w => (inr (cloud_images w), w);
  flavors_list := fun w => (inr (cloud_flavors w), w);
  servers_create := cloud_servers_create;
  servers_get := cloud_servers_get;
  server_delete := cloud_server_delete;
  server_get := cloud_server_get;
  eventlet_sleep := fun _ w => (inr tt, w);
  restart_resource := fun n w =>
    (inr tt,
     {| cloud_keypairs := cloud_keypairs w; cloud_images := cloud_images w;
        cloud_flavors := cloud_flavors w; cloud_servers := cloud_servers w;
        countdown := countdown w; built_status := built_status w;
        outage := outage w; restarted := restarted w ++ [n] |})
|}.

Definition empty_cloud : cloud :=
  {| cloud_keypairs := [ {| Keypair.name := "mykey" |} ];
     cloud_images := [ {| Image.name := "F17-x86_64"; Image.id := "img-1" |} ];
     cloud_flavors := [ {| Flavor.name := "m1.small"; Flavor.id := "2" |} ];
     cloud_servers := []; countdown := 2; built_status := "ACTIVE";
     outage := false; restarted := [] |}.

(** The same cloud, where builds end in [ERROR]. *)
Definition failing_cloud : cloud :=
  {| cloud_keypairs := cloud_keypairs empty_cloud;
     cloud_images := cloud_images empty_cloud;
     cloud_flavors := cloud_flavors empty_cloud;
     cloud_servers := []; countdown := 1; built_status := "ERROR";
     outage := false; restarted := [] |}.

Definition webserver_snippet : list (string * value) :=
  [("Type", VStr "AWS::EC2::Instance");
   ("Metadata", VDict [("a", VInt 1)]);
   ("Properties", VDict [("ImageId", VStr "F17-x86_64");
                         ("InstanceType", VStr "m1.small");
                         ("KeyName", VStr "mykey")])].

(** A resource before creation. *)
Definition webserver : resource :=
  {| name := "WebServer"; t := webserver_snippet; resource_id := None;
     metadata := VDict [("a", VInt 1)]; ipaddress := None;
     mime_string := None |}.

Definition start (r : resource) (w : cloud) : ctx cloud := Ctx r w [].

(** A cloud that holds one active server, and the resource that owns it. *)
Definition active_server : Server.t :=
  {| Server.id := "srv-1"; Server.status := "ACTIVE";
     Server.networks := [("private", ["10.0.0.2"])] |}.

Definition running_cloud : cloud := with_servers empty_cloud [active_server] 0.

Definition running_webserver : resource := with_resource_id webserver (Some "srv-1").

(** The running cloud during an outage. *)
Definition unreachable_cloud : cloud :=
  {| cloud_keypairs := cloud_keypairs running_cloud;
     cloud_images := cloud_images running_cloud;
     cloud_flavors := cloud_flavors running_cloud;
     cloud_servers := cloud_servers running_cloud; countdown := 0;
     built_status := "ACTIVE"; outage := true; restarted := [] |}.

(** A restarter that watches an instance id no resource carries. *)
Definition restarter : resource :=
  {| name := "Restarter";
     t := [("Type", VStr "OS::Heat::HARestarter");
           ("Properties", VDict [("InstanceId", VStr "srv-gone")])];
     resource_id := None; metadata := VNone; ipaddress := None;
     mime_string := None |}.

(** Collaborators of the ReST layer: a template parser that accepts the
    text of an empty template only, and a fetcher that knows one URL. *)
Definition parse (data : value) : exn + value :=
  match data with
  | VStr "{}" => inr (VDict [])
  | VStr _ => inl (ValueError "malformed")
  | _ => inl TypeError
  end.

Definition fetch (url : value) : exn + value :=
  match url with
  | VStr "http://example.com/empty.template" => inr (VStr "{}")
  | _ => inl (IOError "unreachable")
  end.

Definition engine (c : Stacks.engine_call) : exn + list (string * value) :=
  inr [("stack_name", VStr "wordpress"); ("stack_id", VStr "1")].

Definition remote_error (e : exn) : exn + value := inl e.

Definition make_url (identity : list (string * value)) : string := "/stacks/wordpress/1".

(** Modelled from the spec: the identity of a resource, "(tenant,
    stack_name, stack_id, optional resource_name)"; the code of
    [heat.common.identifier] is not among the sources.  [stack_of] "strips
    the resource_name component, yielding the owning stack's identity". *)
Record identity : Type := Identity {
  tenant : string;
  stack_name : string;
  stack_id : string;
  resource_name : option string
}.

Definition stack_of (i : identity) : identity :=
  {| tenant := tenant i; stack_name := stack_name i; stack_id := stack_id i;
     resource_name := None |}.

Definition resource_identifier (v : value) : exn + identity :=
  match v with
  | VDict d =>
      match Py.items_get "tenant" d, Py.items_get "stack_name" d,
            Py.items_get "stack_id" d, Py.items_get "resource_name" d with
      | Some (VStr a), Some (VStr b), Some (VStr c), Some (VStr r) =>
          inr {| tenant := a; stack_name := b; stack_id := c;
                 resource_name := Some r |}
      | _, _, _, _ => inl TypeError
      end
  | _ => inl TypeError
  end.

Definition url_path (i : identity) : string :=
  "/" +:+ tenant i +:+ "/stacks/" +:+ stack_name i +:+ "/" +:+ stack_id i
  +:+ match resource_name i with
      | Some r => "/resources/" +:+ r
      | None => ""
      end.

Definition link (req : unit) (i : identity) (relationship : option string) : value :=
  VDict [("href", VStr (url_path i));
         ("rel", VStr (default "self" relationship))].

(** A resource record as the engine describes it. *)
Definition webserver_record : gmap string value :=
  {[ "resource_identity" :=
       VDict [("tenant", VStr "t1"); ("stack_name", VStr "wordpress");
              ("stack_id", VStr "1"); ("resource_name", VStr "WebServer")];
     "stack_name" := VStr "wordpress";
     "stack_identity" := VDict [("stack_id", VStr "1")];
     "metadata" := VDict [("a", VInt 1)];
     "logical_resource_id" := VStr "WebServer";
     "resource_status" := VStr "CREATE_COMPLETE" ]}.

(** Request bodies: one with both template members, one with neither. *)
Definition both_body : gmap string value :=
  {[ "stack_name" := VStr "wordpress";
     "template" := VDict [("Resources", VDict [])];
     "template_url" := VStr "http://example.com/other.template" ]}.

Definition bare_body : gmap string value :=
  {[ "stack_name" := VStr "wordpress" ]}.

(** The snippet of the web server with other metadata, and with another
    image. *)
Definition metadata_changed_snippet : list (string * value) :=
  [("Type", VStr "AWS::EC2::Instance");
   ("Metadata", VDict [("a", VInt 2)]);
   ("Properties", VDict [("ImageId", VStr "F17-x86_64");
                         ("InstanceType", VStr "m1.small");
                         ("KeyName", VStr "mykey")])].

Definition image_changed_snippet : list (string * value) :=
  [("Type", VStr "AWS::EC2::Instance");
   ("Metadata", VDict [("a", VInt 1)]);
   ("Properties", VDict [("ImageId", VStr "F18-x86_64");
                         ("InstanceType", VStr "m1.small");
                         ("KeyName", VStr "mykey")])].

(** A resource whose key pair nova does not know, and one that names no
    image. *)
Definition stranger : resource :=
  {| name := "Stranger";
     t := [("Type", VStr "AWS::EC2::Instance");
           ("Properties", VDict [("ImageId", VStr "F17-x86_64");
                                 ("InstanceType", VStr "m1.small");
                                 ("KeyName", VStr "nokey")])];
     resource_id := None; metadata := VNone; ipaddress := None;
     mime_string := None |}.

Definition imageless : resource :=
  {| name := "Imageless";
     t := [("Type", VStr "AWS::EC2::Instance");
           ("Properties", VDict [("InstanceType", VStr "m1.small");
                                 ("KeyName", VStr "mykey")])];
     resource_id := None; metadata := VNone; ipaddress := None;
     mime_string := None |}.

End Sample.

(** ** heat/api/openstack/v1/resources.py: the controller *)

Module ResourceController.

(** A dict as a value. *)
Definition dict_value (m : gmap string value) : value := VDict (map_to_list m).

(** The calls of the controller on the engine. *)
Inductive engine_call : Type :=
  | list_stack_resources (identity : value)
  | describe_stack_resource (identity : value) (resource_name : value).

Section ResourceController.
Variables RES_ID RES_STACK_NAME RES_STACK_ID RES_METADATA : string.
Variables Request Identifier : Type.
Variable ResourceIdentifier : value -> exn + Identifier.
Variable identity_stack : Identifier -> Identifier.
Variable make_link : Request -> Identifier -> option string -> value.

(** The two methods of the engine client, and [util.remote_error]. *)
Variable engine_list_stack_resources : value -> exn + list (gmap string value).
Variable engine_describe_stack_resource : value -> value -> exn + gmap string value.
Variable remote_error : exn -> exn + value.

Definition format_resource (req : Request) (res : gmap string value)
    : exn + gmap string value :=
  Resources.format_resource RES_ID RES_STACK_NAME RES_STACK_ID RES_METADATA
    Request Identifier ResourceIdentifier identity_stack make_link req res [].

(** [[format_resource(req, res) for res in res_list]]. *)
Definition format_all (req : Request) (res_list : list (gmap string value))
    : exn + list (gmap string value) :=
  Iter.comprehension (format_resource req) res_list.

Definition index (req : Request) (identity : value)
    : list engine_call * (exn + value) :=
  ([list_stack_resources identity],
   match engine_list_stack_resources identity with
   | inl (RemoteError d) => remote_error (RemoteError d)
   | inl e => inl e
   | inr res_list =>
       match format_all req res_list with
       | inl e => inl e
       | inr views => inr (VDict [("resources", VList (map dict_value views))])
       end
   end).

Definition show (req : Request) (identity resource_name : value)
    : list engine_call * (exn + value) :=
  ([describe_stack_resource identity resource_name],
   match engine_describe_stack_resource identity resource_name with
   | inl (RemoteError d) => remote_error (RemoteError d)
   | inl e => inl e
   | inr res =>
       match format_resource req res with
       | inl e => inl e
       | inr view => inr (VDict [("resource", dict_value view)])
       end
   end).

Definition metadata (req : Request) (identity resource_name : value)
    : list engine_call * (exn + value) :=
  ([describe_stack_resource identity resource_name],
   match engine_describe_stack_resource identity resource_name with
   | inl (RemoteError d) => remote_error (RemoteError d)
   | inl e => inl e
   | inr res =>
       match res !! RES_METADATA with
       | Some m => inr (VDict [(RES_METADATA, m)])
       | None => inl (KeyError RES_METADATA)
       end
   end).

End ResourceController.
End ResourceController.

(** ** heat/api/openstack/v1/stacks.py: the stack view and the other actions *)

Module StackController.

(** What the actions raise: an exception of [exn], or one of the further
    responses of [webob.exc]. *)
Inductive raised : Type :=
  | Exn (e : exn)
  | HTTPNotFound
  | HTTPFound (location : string)
  | HTTPInternalServerError (explanation : option string)
  | HTTPNoContent.

Inductive engine_call : Type :=
  | list_stacks
  | identify_stack (stack_name : value)
  | show_stack (identity : value)
  | get_template (identity : value)
  | delete_stack (identity : value)
  | list_resource_types_call.

Section format_stack.
Variable STACK_ID : string.
Variable Request : Type.
Variable make_link : Request -> value -> option string -> value.

Definition include_key (keys : list string) (k : string) : bool :=
  match keys with
  | [] => true
  | _ => bool_decide (k ∈ keys)
  end.

(** The pairs the generator [transform] yields for one item. *)
Definition transform (req : Request) (keys : list string)
    (key : string) (v : value) : exn + list (string * value) :=
  if negb (include_key keys key) then inr []
  else if String.eqb key STACK_ID then
    match Iter.subscript v "stack_id" with
    | inl e => inl e
    | inr i => inr [("id", i); ("links", VList [make_link req v None])]
    end
  else inr [(key, v)].

Fixpoint chain_transform (req : Request) (keys : list string)
    (items : list (string * value)) : exn + list (string * value) :=
  match items with
  | [] => inr []
  | (k, v) :: rest =>
      match transform req keys k v with
      | inl e => inl e
      | inr ps =>
          match chain_transform req keys rest with
          | inl e => inl e
          | inr qs => inr (ps ++ qs)
          end
      end
  end.

Definition format_stack (req : Request) (stack : gmap string value)
    (keys : list string) : exn + gmap string value :=
  match chain_transform req keys (map_to_list stack) with
  | inl e => inl e
  | inr ps => inr (Py.dict_of_pairs ps)
  end.

End format_stack.

Section StackController.
Variables STACK_ID STACK_NAME STACK_DESCRIPTION STACK_STATUS STACK_STATUS_DATA
  STACK_CREATION_TIME STACK_DELETION_TIME STACK_UPDATED_TIME : string.
Variable Request : Type.
Variable make_link : Request -> value -> option string -> value.
Variable make_url : Request -> value -> string.
Variable remote_error : exn -> raised + value.

(** The methods of the engine client: [get_template] may answer [None],
    and [delete_stack] answers [None] or a dict that holds an error. *)
Variable engine_list_stacks : exn + list (gmap string value).
Variable engine_identify_stack : value -> exn + value.
Variable engine_show_stack : value -> exn + list (gmap string value).
Variable engine_get_template : value -> exn + option value.
Variable engine_delete_stack : value -> exn + option (list (string * value)).
Variable engine_list_resource_types : exn + value.

Definition action : Type := (list engine_call * (raised + value))%type.

Definition summary_keys : list string :=
  [STACK_ID; STACK_NAME; STACK_DESCRIPTION; STACK_STATUS; STACK_STATUS_DATA;
   STACK_CREATION_TIME; STACK_DELETION_TIME; STACK_UPDATED_TIME].

(** [[format_stack(req, s, summary_keys) for s in stacks]]. *)
Definition summaries (req : Request) (stacks : list (gmap string value))
    : exn + list (gmap string value) :=
  Iter.comprehension
    (fun s => format_stack STACK_ID Request make_link req s summary_keys) stacks.

Definition default : action := ([], inl HTTPNotFound).

Definition index (req : Request) : action :=
  ([list_stacks],
   match engine_list_stacks with
   | inl (RemoteError d) => remote_error (RemoteError d)
   | inl e => inl (Exn e)
   | inr stacks =>
       match summaries req stacks with
       | inl e => inl (Exn e)
       | inr views =>
           inr (VDict [("stacks",
                        VList (map ResourceController.dict_value views))])
       end
   end).

Definition lookup (req : Request) (stack_name : value) (path : string) : action :=
  ([identify_stack stack_name],
   match engine_identify_stack stack_name with
   | inl (RemoteError d) => remote_error (RemoteError d)
   | inl e => inl (Exn e)
   | inr identity =>
       let location := make_url req identity in
       inl (HTTPFound (if String.eqb path "" then location
                       else location +:+ "/" +:+ path))
   end).

Definition show (req : Request) (identity : value) : action :=
  ([show_stack identity],
   match engine_show_stack identity with
   | inl (RemoteError d) => remote_error (RemoteError d)
   | inl e => inl (Exn e)
   | inr [] => inl (HTTPInternalServerError None)
   | inr (stack :: _) =>
       match format_stack STACK_ID Request make_link req stack [] with
       | inl e => inl (Exn e)
       | inr view => inr (VDict [("stack", ResourceController.dict_value view)])
       end
   end).

Definition template (req : Request) (identity : value) : action :=
  ([get_template identity],
   match engine_get_template identity with
   | inl (RemoteError d) => remote_error (RemoteError d)
   | inl e => inl (Exn e)
   | inr None => inl HTTPNotFound
   | inr (Some templ) => inr templ
   end).

Definition delete (req : Request) (identity : value) : action :=
  ([delete_stack identity],
   match engine_delete_stack identity with
   | inl (RemoteError d) => remote_error (RemoteError d)
   | inl e => inl (Exn e)
   | inr (Some res) =>
       match Py.items_get "Error" res with
       | Some err => inl (Exn (HTTPBadRequest err))
       | None => inl (Exn (KeyError "Error"))
       end
   | inr None => inl HTTPNoContent
   end).

Definition list_resource_types (req : Request) : action :=
  ([list_resource_types_call],
   match engine_list_resource_types with
   | inl (RemoteError d) =>
       inl (HTTPInternalServerError (Some (Stacks.str_exn (RemoteError d))))
   | inl e => inl (Exn e)
   | inr types => inr (VDict [("resource_types", types)])
   end).

End StackController.
End StackController.

(** ** More records and answers to run the code on *)

Module Fixtures.
Import Engine.

(** A restarter that watches the running server, and a second resource
    that carries the same id. *)
Definition watchdog : resource :=
  {| name := "Watchdog";
     t := [("Type", VStr "OS::Heat::HARestarter");
           ("Properties", VDict [("InstanceId", VStr "srv-1")])];
     resource_id := None; metadata := VNone; ipaddress := None;
     mime_string := None |}.

Definition twin : resource :=
  {| name := "Twin"; t := Sample.webserver_snippet; resource_id := Some "srv-1";
     metadata := VNone; ipaddress := None; mime_string := None |}.

(** A web server that asks for a flavor nova does not have. *)
Definition oversized : resource :=
  {| name := "Oversized";
     t := [("Type", VStr "AWS::EC2::Instance");
           ("Properties", VDict [("ImageId", VStr "F17-x86_64");
                                 ("InstanceType", VStr "m1.huge");
                                 ("KeyName", VStr "mykey")])];
     resource_id := None; metadata := VNone; ipaddress := None;
     mime_string := None |}.

(** Two images of one name. *)
Definition two_images : list Image.t :=
  [ {| Image.name := "F17-x86_64"; Image.id := "img-1" |};
    {| Image.name := "F18-x86_64"; Image.id := "img-2" |};
    {| Image.name := "F17-x86_64"; Image.id := "img-3" |} ].

Definition tags : value :=
  VList [VDict [("Key", VStr "role"); ("Value", VStr "web")];
         VDict [("Key", VStr "tier"); ("Value", VStr "front")]].

Definition retagged : value :=
  VList [VDict [("Key", VStr "role"); ("Value", VStr "web")];
         VDict [("Key", VStr "role"); ("Value", VStr "db")];
         VDict [("Key", VStr "tier"); ("Value", VStr "front")]].

Definition broken_tags : list value :=
  [VDict [("Key", VStr "role"); ("Value", VStr "web")];
   VDict [("Value", VStr "front")]].

(** Tags of which the second has neither Key nor Value, is no map, or
    has a list as its key. *)
Definition empty_tag : list value :=
  [VDict [("Key", VStr "role"); ("Value", VStr "web")]; VDict []].

Definition text_tag : list value :=
  [VDict [("Key", VStr "role"); ("Value", VStr "web")]; VStr "tier=front"].

Definition list_keyed_tag : list value :=
  [VDict [("Key", VStr "role"); ("Value", VStr "web")];
   VDict [("Key", VList [VStr "tier"]); ("Value", VStr "front")]].

(** A web server whose only tag is an empty map. *)
Definition mistagged : resource :=
  {| name := "Mistagged";
     t := [("Type", VStr "AWS::EC2::Instance");
           ("Properties", VDict [("ImageId", VStr "F17-x86_64");
                                 ("InstanceType", VStr "m1.small");
                                 ("KeyName", VStr "mykey");
                                 ("Tags", VList [VDict []])])];
     resource_id := None; metadata := VNone; ipaddress := None;
     mime_string := None |}.

(** A cloud with other users: the server that a lookup has found is
    deleted by somebody else before the next request arrives. *)
Record shared_cloud : Type := Shared { own : Sample.cloud }.

Definition shared {A} (op : Sample.cloud -> (exn + A) * Sample.cloud)
    (w : shared_cloud) : (exn + A) * shared_cloud :=
  let (r, w') := op (own w) in (r, Shared w').

Definition shared_servers_get (i : option string) (w : shared_cloud)
    : (exn + Server.t) * shared_cloud :=
  match Sample.cloud_servers_get i (own w) with
  | (inr s, w') =>
      (inr s,
       Shared (Sample.with_servers w'
                 (Sample.remove_server (Server.id s) (Sample.cloud_servers w'))
                 (Sample.countdown w')))
  | (inl e, w') => (inl e, Shared w')
  end.

#[export] Instance shared_world : World shared_cloud := {|
  keypairs_list := shared (keypairs_list (World := Sample.cloud_world));
  images_list := shared (images_list (World := Sample.cloud_world));
  flavors_list := shared (flavors_list (World := Sample.cloud_world));
  servers_create := fun a => shared (Sample.cloud_servers_create a);
  servers_get := shared_servers_get;
  server_delete := fun s => shared (Sample.cloud_server_delete s);
  server_get := fun s => shared (Sample.cloud_server_get s);
  eventlet_sleep := fun n => shared (eventlet_sleep (World := Sample.cloud_world) n);
  restart_resource :=
    fun n => shared (restart_resource (World := Sample.cloud_world) n)
|}.

(** The running cloud as a shared one, and what is left of it once the
    server has been deleted. *)
Definition contended_cloud : shared_cloud := Shared Sample.running_cloud.

Definition vacated_cloud : shared_cloud :=
  Shared (Sample.with_servers Sample.running_cloud [] 0).

(** A stack record as the engine describes it, and the link of an
    identity. *)
Definition stack_identity : value :=
  VDict [("tenant", VStr "t1"); ("stack_name", VStr "wordpress");
         ("stack_id", VStr "1"); ("path", VStr "")].

Definition stack_record : gmap string value :=
  {[ "stack_identity" := stack_identity;
     "stack_name" := VStr "wordpress";
     "description" := VStr "A blog";
     "stack_status" := VStr "CREATE_COMPLETE";
     "parameters" := VDict [("KeyName", VStr "mykey")] ]}.

Definition stack_link (req : unit) (identity : value) (relationship : option string)
    : value :=
  VDict [("href",
          match Iter.subscript identity "stack_name",
                Iter.subscript identity "stack_id" with
          | inr (VStr n), inr (VStr i) => VStr ("/stacks/" +:+ n +:+ "/" +:+ i)
          | _, _ => VNone
          end);
         ("rel", VStr (default "self" relationship))].

Definition raise_remote (e : exn) : StackController.raised + value :=
  inl (StackController.Exn e).

(** A body with a template, parameters and a further argument. *)
Definition full_body : gmap string value :=
  {[ "stack_name" := VStr "wordpress";
     "template" := VDict [("Resources", VDict [])];
     "parameters" := VDict [("KeyName", VStr "mykey")];
     "timeout_mins" := VInt 30 ]}.

Definition nameless_body : gmap string value :=
  {[ "template_url" := VStr "http://example.com/empty.template" ]}.

End Fixtures.

(** ** Waiting for a server to be built *)

Module Building.
Import Engine.

(** [built_after server w cs server' w']: from the world [w], refreshing
    [server] and sleeping 1 s in turn, as long as the status is BUILD, ends
    after the calls [cs] with the server [server'], whose status is no
    longer BUILD, in the world [w']. *)
Inductive built_after {W : Type} `{World W}
    : Server.t -> W -> list call -> Server.t -> W -> Prop :=
  | built_now s w :
      Server.status s <> "BUILD" ->
      built_after s w [] s w
  | built_later s s1 w w1 w2 cs s' w' :
      Server.status s = "BUILD" ->
      server_get s w = (inr s1, w1) ->
      eventlet_sleep 1000 w1 = (inr tt, w2) ->
      built_after s1 w2 cs s' w' ->
      built_after s w (server_get_call (Server.id s) :: sleep_call 1000 :: cs) s' w'.

End Building.

(** ** Waiting for a server to disappear *)

Module Polling.
Import Engine.

(** [absent_after server w cs w']: from the world [w], refreshing [server]
    and sleeping 0.2 s in turn ends, after the calls [cs], with a refresh
    that answers "not found", in the world [w']. *)
Inductive absent_after {W : Type} `{World W}
    : Server.t -> W -> list call -> W -> Prop :=
  | absent_now s w w' :
      server_get s w = (inl NotFound, w') ->
      absent_after s w [server_get_call (Server.id s)] w'
  | absent_later s s' w w1 w2 cs w' :
      server_get s w = (inr s', w1) ->
      eventlet_sleep 200 w1 = (inr tt, w2) ->
      absent_after s' w2 cs w' ->
      absent_after s w (server_get_call (Server.id s) :: sleep_call 200 :: cs) w'.

End Polling.

(** * Properties *)

Import Engine.

Ltac run :=
  unfold mbind, M_bind, mret, M_ret, lift, raise, out_of_fuel, get_self,
    put_self, try_except_else, try_finally in *; simpl in *.

Ltac run_calls :=
  unfold nova_keypairs_list, nova_images_list, nova_flavors_list,
    nova_servers_create, nova_servers_get, nova_server_delete,
    nova_server_get, sleep, stack_restart_resource, perform in *; simpl in *.

(** ** Restarter *)

Section RestarterFacts.
Context {W : Type} `{World W} `{Base}.

Lemma find_resource_none (stack : list resource) (v : value) :
  (forall r, r ∈ stack -> Py.eqb (Restarter.id_value (resource_id r)) v = false) ->
  Restarter._find_resource stack v = None.
Proof.
  induction stack as [|r rest IH]; intros Hno; simpl; [reflexivity|].
  rewrite (Hno r) by apply list_elem_of_here.
  apply IH. intros r' Hr'. apply Hno. by apply list_elem_of_further.
Qed.

(** C10.  When no resource of the stack carries the configured InstanceId
    as its resource_id, [alarm] returns and leaves the context as it was:
    no call, on the stack or elsewhere, is made, so no resource is
    restarted. *)
Theorem alarm_unknown_instance (stack : list resource) (c : ctx W)
    (instance_id : value) :
  properties (self c) "InstanceId" = inr instance_id ->
  (forall r, r ∈ stack ->
     Py.eqb (Restarter.id_value (resource_id r)) instance_id = false) ->
  Restarter.alarm stack c = (Return tt, c).
Proof.
  intros Hprop Hno.
  unfold Restarter.alarm. run. rewrite Hprop. simpl.
  by rewrite (find_resource_none stack instance_id Hno).
Qed.

End RestarterFacts.

(** ** Instance: delete *)

Section DeleteFacts.
Context {W : Type} `{World W} `{Base}.
Import Polling.

(** Enough fuel lets the waiting loop see the server disappear. *)
Lemma wait_deleted_absent (s : Server.t) (w w' : W) (cs : list call) :
  absent_after s w cs w' ->
  forall (fuel : nat) (r : resource) (l : list call),
    length cs <= 2 * fuel ->
    Instance.wait_deleted fuel s (Ctx r w l) = (Return tt, Ctx r w' (l ++ cs)).
Proof.
  induction 1 as [s w w' Hget | s s' w w1 w2 cs w' Hget Hsleep Habs IH];
    intros fuel r l Hfuel; simpl in Hfuel.
  - destruct fuel as [|fuel]; [lia|]. simpl. run. run_calls.
    by rewrite Hget.
  - destruct fuel as [|fuel]; [lia|]. simpl. run. run_calls.
    rewrite Hget. simpl. rewrite Hsleep. simpl.
    rewrite IH by lia. by rewrite <- !app_assoc.
Qed.

(** The waiting loop returns only once a refresh has answered "not found". *)
Lemma wait_deleted_returns (fuel : nat) :
  forall (s : Server.t) (c c' : ctx W),
    Instance.wait_deleted fuel s c = (Return tt, c') ->
    self c' = self c /\
    exists cs, absent_after s (world c) cs (world c') /\ calls c' = calls c ++ cs.
Proof.
  induction fuel as [|fuel IH]; intros s c c' Hrun; simpl in Hrun.
  - run. discriminate.
  - run. run_calls.
    destruct (server_get s (world c)) as [[e|s'] w1] eqn:Hget; simpl in Hrun.
    + destruct e; simpl in Hrun; try discriminate.
      injection Hrun as <-. simpl. split; [reflexivity|].
      exists [server_get_call (Server.id s)]. split; [|reflexivity].
      by apply absent_now.
    + destruct (eventlet_sleep 200 w1) as [[e|[]] w2] eqn:Hsleep;
        simpl in Hrun; [discriminate|].
      apply IH in Hrun as [Hself (cs & Habs & Hcalls)]. simpl in *.
      split; [exact Hself|].
      exists (server_get_call (Server.id s) :: sleep_call 200 :: cs).
      split; [by eapply absent_later|].
      rewrite Hcalls. by rewrite <- !app_assoc.
Qed.

(** Whenever [handle_delete] returns, the resource_id is unset. *)
Lemma handle_delete_returns_cleared (fuel : nat) (c c' : ctx W) :
  Instance.handle_delete fuel c = (Return tt, c') ->
  resource_id (self c') = None.
Proof.
  unfold Instance.handle_delete. run.
  destruct (resource_id (self c)) as [rid|] eqn:Hid.
  - run_calls.
    destruct (servers_get (Some rid) (world c)) as [[e|server] w1]; simpl.
    + destruct e; simpl; try discriminate. by intros [= <-].
    + destruct (server_delete server w1) as [[e|[]] w2]; simpl; [discriminate|].
      destruct (Instance.wait_deleted fuel server _) as [[[]| |] c1];
        try discriminate.
      by intros [= <-].
  - by intros [= <-].
Qed.

(** C5.  With the resource_id unset, [handle_delete] returns at once and
    leaves the context as it was: no call is made and the resource is
    unchanged.  Hence a delete after a delete that returned (which left the
    resource_id unset) is such a no-op again. *)
Theorem handle_delete_unset_is_noop (c : ctx W) :
  (resource_id (self c) = None ->
   forall fuel, Instance.handle_delete fuel c = (Return tt, c))
  /\ (forall fuel c', Instance.handle_delete fuel c = (Return tt, c') ->
      forall fuel', Instance.handle_delete fuel' c' = (Return tt, c')).
Proof.
  assert (Hnoop : forall x : ctx W, resource_id (self x) = None ->
            forall fuel, Instance.handle_delete fuel x = (Return tt, x)).
  { intros x Hid fuel. unfold Instance.handle_delete. run. by rewrite Hid. }
  split; [apply Hnoop|].
  intros fuel c' Hrun fuel'. apply Hnoop.
  by eapply handle_delete_returns_cleared.
Qed.

(** X20.  With the resource_id set, [handle_delete] looks the server up.
    If the lookup answers "not found" the delete succeeds, without a
    deletion request, and the resource_id is unset.  If the server is found
    and nova accepts the request for its deletion, the server is refreshed
    until a refresh answers "not found"; then the delete succeeds and the
    resource_id is unset.  These are the only ways in which a delete
    returns. *)
Theorem handle_delete_set (c : ctx W) (rid : string) :
  resource_id (self c) = Some rid ->
  (forall w', servers_get (Some rid) (world c) = (inl NotFound, w') ->
     forall fuel,
       Instance.handle_delete fuel c
       = (Return tt, Ctx (with_resource_id (self c) None) w'
                         (calls c ++ [servers_get_call (Some rid)])))
  /\ (forall server w1 w2 cs w',
        servers_get (Some rid) (world c) = (inr server, w1) ->
        server_delete server w1 = (inr tt, w2) ->
        absent_after server w2 cs w' ->
        forall fuel, length cs <= 2 * fuel ->
          Instance.handle_delete fuel c
          = (Return tt, Ctx (with_resource_id (self c) None) w'
                            (calls c ++ servers_get_call (Some rid)
                               :: server_delete_call (Server.id server) :: cs)))
  /\ (forall fuel c', Instance.handle_delete fuel c = (Return tt, c') ->
        resource_id (self c') = None /\
        ((exists w', servers_get (Some rid) (world c) = (inl NotFound, w'))
         \/ (exists server w1 w2 cs,
               servers_get (Some rid) (world c) = (inr server, w1) /\
               server_delete server w1 = (inr tt, w2) /\
               absent_after server w2 cs (world c')))).
Proof.
  intros Hid. split; [|split].
  - intros w' Hget fuel. unfold Instance.handle_delete. run. rewrite Hid.
    run_calls. rewrite Hget. reflexivity.
  - intros server w1 w2 cs w' Hget Hdel Habs fuel Hfuel.
    unfold Instance.handle_delete. run. rewrite Hid. run_calls.
    rewrite Hget. simpl. rewrite Hdel. simpl.
    rewrite (wait_deleted_absent _ _ _ _ Habs) by exact Hfuel.
    simpl. by rewrite <- !app_assoc.
  - intros fuel c' Hrun.
    split; [by eapply handle_delete_returns_cleared|].
    revert Hrun. unfold Instance.handle_delete. run. rewrite Hid. run_calls.
    destruct (servers_get (Some rid) (world c)) as [[e|server] w1]; simpl.
    + destruct e; simpl; try discriminate. intros _. left. by eexists.
    + destruct (server_delete server w1) as [[e|[]] w2] eqn:Hdel; simpl;
        [discriminate|].
      destruct (Instance.wait_deleted fuel server _) as [[[]| |] c1] eqn:Hwait;
        try discriminate.
      intros [= <-]. right.
      apply wait_deleted_returns in Hwait as [_ (cs & Habs & _)].
      simpl in *. exists server, w1, w2, cs. by rewrite Hdel.
Qed.

(** What [handle_delete] does not absorb: an exception of the deletion
    request itself, "not found" included, ends the delete, and the
    resource_id stays set. *)
Lemma handle_delete_request_raises (c : ctx W) (rid : string)
    (server : Server.t) (w1 w2 : W) (e : exn) :
  resource_id (self c) = Some rid ->
  servers_get (Some rid) (world c) = (inr server, w1) ->
  server_delete server w1 = (inl e, w2) ->
  forall fuel,
    Instance.handle_delete fuel c
    = (Raise e, Ctx (self c) w2
                    (calls c ++ [servers_get_call (Some rid);
                                 server_delete_call (Server.id server)])).
Proof.
  intros Hid Hget Hdel fuel. unfold Instance.handle_delete. run.
  rewrite Hid. run_calls. rewrite Hget. simpl. rewrite Hdel. simpl.
  by rewrite <- app_assoc.
Qed.

End DeleteFacts.

(** ** Instance: create *)

Section CreateFacts.
Context {W : Type} `{World W} `{Base}.

Lemma perform_self {A} (k : call) (op : W -> (exn + A) * W) (c : ctx W) :
  self (perform k op c).2 = self c.
Proof. unfold perform. by destruct (op (world c)) as [[e|a] w]. Qed.

Lemma set_ipaddress_resource_id (networks : list (string * list string))
    (c : ctx W) :
  resource_id (self (Instance._set_ipaddress networks c).2) = resource_id (self c).
Proof.
  unfold Instance._set_ipaddress.
  destruct networks as [|[n [|a addresses]] rest]; reflexivity.
Qed.

(** The loop that waits for the build assigns nothing on the resource. *)
Lemma wait_build_self (fuel : nat) :
  forall (server : Server.t) (c : ctx W),
    self (Instance.wait_build fuel server c).2 = self c.
Proof.
  induction fuel as [|fuel IH]; intros server c; simpl;
    destruct (String.eqb (Server.status server) "BUILD"); try reflexivity.
  run. run_calls.
  destruct (server_get server (world c)) as [[e|server'] w1]; simpl;
    [reflexivity|].
  destruct (eventlet_sleep 1000 w1) as [[e|[]] w2]; simpl; [reflexivity|].
  by rewrite IH.
Qed.

Lemma wait_active_resource_id (fuel : nat) (server : Server.t) (c : ctx W) :
  resource_id (self (Instance.wait_active fuel server c).2) = resource_id (self c).
Proof.
  unfold Instance.wait_active. run.
  pose proof (wait_build_self fuel server c) as Hself.
  destruct (Instance.wait_build fuel server c) as [[server'| |] c1];
    simpl in *; try by rewrite Hself.
  destruct (String.eqb (Server.status server') "ACTIVE").
  - rewrite set_ipaddress_resource_id. by rewrite Hself.
  - unfold raise. simpl. by rewrite Hself.
Qed.

(** C3.  Once [handle_create] has reached the creation call and nova has
    answered it with a server, the id of that server is the resource's
    resource_id: it is recorded when the [try] statement is left, and it is
    still there when [handle_create] ends, whether the wait that follows
    returns, raises, or is still going on. *)
Theorem handle_create_records_id (fuel : nat) (c c1 : ctx W)
    (args : create_args) (flavor_id : string) (server : Server.t) (w2 : W) :
  Instance.create_arguments c = (Return (args, Some flavor_id), c1) ->
  servers_create args (world c1) = (inr server, w2) ->
  Instance.create_server args (Some flavor_id) c1
    = (Return server,
       Ctx (with_resource_id (self c1) (Some (Server.id server))) w2
           (calls c1 ++ [servers_create_call args]))
  /\ resource_id (self (Instance.handle_create fuel c).2)
     = Some (Server.id server).
Proof.
  intros Hargs Hcreate.
  assert (Hserver : Instance.create_server args (Some flavor_id) c1
    = (Return server,
       Ctx (with_resource_id (self c1) (Some (Server.id server))) w2
           (calls c1 ++ [servers_create_call args]))).
  { unfold Instance.create_server, resource_id_set. run. run_calls.
    by rewrite Hcreate. }
  split; [exact Hserver|].
  unfold Instance.handle_create.
  unfold mbind at 1. unfold M_bind at 1. rewrite Hargs.
  unfold mbind at 1. unfold M_bind at 1. rewrite Hserver.
  by rewrite wait_active_resource_id.
Qed.

End CreateFacts.

(** ** Instance: update *)

Section UpdateFacts.
Context {W : Type} `{World W} `{Base}.

(** A key other than Metadata makes the loop return UPDATE_REPLACE. *)
Lemma update_loop_other_key (json_snippet : list (string * value))
    (keys : list string) (k : string) :
  k ∈ keys -> k <> "Metadata" ->
  forall (status : Instance.update_result) (c : ctx W),
    (Instance.update_loop json_snippet keys status c).1
    = Return Instance.UPDATE_REPLACE.
Proof.
  intros Hin Hne. apply String.eqb_neq in Hne.
  induction keys as [|k' keys IH]; intros status c; simpl.
  - by apply not_elem_of_nil in Hin.
  - apply elem_of_cons in Hin as [<-|Hin]; [by rewrite Hne|].
    destruct (String.eqb k' "Metadata"); [|reflexivity].
    run. by apply IH.
Qed.

(** C2, as the code has it.  When the difference is empty [handle_update]
    changes nothing on the resource and returns UPDATE_REPLACE. *)
Theorem handle_update_empty_diff (c : ctx W)
    (json_snippet : list (string * value)) :
  update_template_diff (self c) json_snippet = inr [] ->
  Instance.handle_update json_snippet c = (Return Instance.UPDATE_REPLACE, c).
Proof.
  intros Hdiff. unfold Instance.handle_update. run. by rewrite Hdiff.
Qed.

(** C4.  The update-allowed keys of an Instance are exactly Metadata.  When
    the changed keys are exactly Metadata, [handle_update] stores the
    Metadata of the new snippet on the resource and returns
    UPDATE_COMPLETE: afterwards the resource's metadata is the new
    snippet's Metadata ([{}] when it has none), its other fields are as
    before, and no call was made.  When a key other than Metadata has
    changed, whether the difference contains it or the base class reports
    it by NotImplementedError, [handle_update] returns UPDATE_REPLACE. *)
Theorem handle_update_metadata_or_replace (c : ctx W)
    (json_snippet : list (string * value)) :
  Instance.update_allowed_keys = ["Metadata"]
  /\ (forall diff,
        update_template_diff (self c) json_snippet = inr diff ->
        diff.*1 = ["Metadata"] ->
        Instance.handle_update json_snippet c
        = (Return Instance.UPDATE_COMPLETE,
           Ctx (with_metadata (self c)
                  (default (VDict []) (Py.items_get "Metadata" json_snippet)))
               (world c) (calls c))
        /\ metadata (self (Instance.handle_update json_snippet c).2)
           = default (VDict []) (Py.items_get "Metadata" json_snippet)
        /\ (forall new_metadata,
              Py.items_get "Metadata" json_snippet = Some new_metadata ->
              metadata (self (Instance.handle_update json_snippet c).2)
              = new_metadata)
        /\ name (self (Instance.handle_update json_snippet c).2) = name (self c)
        /\ t (self (Instance.handle_update json_snippet c).2) = t (self c)
        /\ resource_id (self (Instance.handle_update json_snippet c).2)
           = resource_id (self c)
        /\ ipaddress (self (Instance.handle_update json_snippet c).2)
           = ipaddress (self c)
        /\ mime_string (self (Instance.handle_update json_snippet c).2)
           = mime_string (self c))
  /\ (forall diff k,
        update_template_diff (self c) json_snippet = inr diff ->
        k ∈ diff.*1 -> k <> "Metadata" ->
        (Instance.handle_update json_snippet c).1 = Return Instance.UPDATE_REPLACE)
  /\ (update_template_diff (self c) json_snippet = inl NotImplementedError ->
      Instance.handle_update json_snippet c = (Return Instance.UPDATE_REPLACE, c)).
Proof.
  split; [reflexivity|]. split; [|split].
  - intros diff Hdiff Hkeys.
    assert (Hrun : Instance.handle_update json_snippet c
      = (Return Instance.UPDATE_COMPLETE,
         Ctx (with_metadata (self c)
                (default (VDict []) (Py.items_get "Metadata" json_snippet)))
             (world c) (calls c))).
    { unfold Instance.handle_update. run. rewrite Hdiff, Hkeys. reflexivity. }
    rewrite Hrun. simpl. repeat split.
    intros new_metadata Hnew. by rewrite Hnew.
  - intros diff k Hdiff Hin Hne. unfold Instance.handle_update. run.
    rewrite Hdiff. by eapply update_loop_other_key.
  - intros Hdiff. unfold Instance.handle_update. run. by rewrite Hdiff.
Qed.

End UpdateFacts.

(** ** Instance: validate *)

Section ValidateFacts.
Context {W : Type} `{World W} `{Base}.

Lemma existsb_keypair_false (keypairs : list Keypair.t) (key_name : value) :
  (forall k, k ∈ keypairs -> Py.eqb (VStr (Keypair.name k)) key_name = false) ->
  existsb (fun k => Py.eqb (VStr (Keypair.name k)) key_name) keypairs = false.
Proof.
  induction keypairs as [|k rest IH]; intros Hno; simpl in *; [reflexivity|].
  rewrite (Hno k) by apply list_elem_of_here. simpl.
  apply IH. intros k' Hk'. apply Hno. by apply list_elem_of_further.
Qed.

(** C7.  An error of the schema validation is returned as it is, and the
    context stays as it was: the keypairs are not asked for.  When the
    schema validation passes and nova lists no keypair of the name that
    KeyName gives, the error "Provided KeyName is not registered with nova"
    is returned.  Whatever happens, [validate] assigns nothing on the
    resource and none of its calls is a mutating one. *)
Theorem validate_schema_then_keypair (c : ctx W) :
  (Py.truthy (super_validate (self c)) = true ->
   Instance.validate c = (Return (super_validate (self c)), c))
  /\ (Py.truthy (super_validate (self c)) = false ->
      forall key_name keypairs w',
        properties (self c) "KeyName" = inr key_name ->
        keypairs_list (world c) = (inr keypairs, w') ->
        (forall k, k ∈ keypairs ->
           Py.eqb (VStr (Keypair.name k)) key_name = false) ->
        Instance.validate c
        = (Return (VDict [("Error",
                           VStr "Provided KeyName is not registered with nova")]),
           Ctx (self c) w' (calls c ++ [keypairs_list_call])))
  /\ (self (Instance.validate c).2 = self c
      /\ exists cs, calls (Instance.validate c).2 = calls c ++ cs
                    /\ Forall (fun k => mutating k = false) cs).
Proof.
  split; [|split].
  - intros Herr. unfold Instance.validate. run. by rewrite Herr.
  - intros Hok key_name keypairs w' Hkey Hlist Hno.
    pose proof (existsb_keypair_false keypairs key_name Hno) as Hex.
    unfold Instance.validate. run. rewrite Hok, Hkey. simpl.
    run_calls. rewrite Hlist. simpl. by rewrite Hex.
  - unfold Instance.validate. run.
    destruct (Py.truthy (super_validate (self c))).
    { split; [reflexivity|]. exists []. by rewrite app_nil_r. }
    destruct (properties (self c) "KeyName") as [e|key_name]; simpl.
    { destruct (is_ValueError e); simpl;
        (split; [reflexivity|]; exists []; by rewrite app_nil_r). }
    run_calls.
    destruct (keypairs_list (world c)) as [[e|keypairs] w']; simpl.
    { split; [reflexivity|]. exists [keypairs_list_call].
      split; [reflexivity|]. by repeat constructor. }
    destruct (existsb _ keypairs); simpl;
      (split; [reflexivity|]; exists [keypairs_list_call];
       split; [reflexivity|]; by repeat constructor).
Qed.

End ValidateFacts.

(** ** Instance: attributes *)

Section AttributeFacts.
Context {W : Type} `{World W} `{Base}.

Lemma FnGetAtt_address (c : ctx W) (key : string) :
  key ∈ ["PublicIp"; "PrivateIp"; "PublicDnsName"; "PrivateDnsName"] ->
  Instance.FnGetAtt key c
  = match Instance._ipaddress c with
    | (Return a, c') => (Return (unicode (VStr a)), c')
    | (Raise e, c') => (Raise e, c')
    | (OutOfFuel, c') => (OutOfFuel, c')
    end.
Proof.
  intros Hkey. unfold Instance.FnGetAtt.
  repeat (apply elem_of_cons in Hkey as [->|Hkey]);
    [| | | | by apply not_elem_of_nil in Hkey];
    run; by destruct (Instance._ipaddress c) as [[a|e|] c'].
Qed.

Lemma FnGetAtt_unknown (c : ctx W) (key : string) :
  key ∉ Instance.declared_attributes ->
  Instance.FnGetAtt key c
  = (Raise (InvalidTemplateAttribute (name (self c)) key), c).
Proof.
  unfold Instance.declared_attributes. intros Hkey.
  repeat (apply not_elem_of_cons in Hkey as [?%String.eqb_neq Hkey]).
  unfold Instance.FnGetAtt. run.
  by repeat match goal with E : String.eqb key _ = false |- _ => rewrite E; clear E end.
Qed.

(** What [_ipaddress] does when no address is cached. *)
Lemma ipaddress_lookup (c : ctx W) :
  ipaddress (self c) = None ->
  Instance._ipaddress c
  = match servers_get (resource_id (self c)) (world c) with
    | (inl e, w') =>
        let c' := Ctx (self c) w'
                    (calls c ++ [servers_get_call (resource_id (self c))]) in
        if is_NotFound e then (Return "0.0.0.0", c') else (Raise e, c')
    | (inr server, w') =>
        let cs := calls c ++ [servers_get_call (resource_id (self c))] in
        match Server.networks server with
        | [] => (Return "0.0.0.0", Ctx (self c) w' cs)
        | (n, []) :: _ => (Raise IndexError, Ctx (self c) w' cs)
        | (n, a :: _) :: _ =>
            (Return (if String.eqb a "" then "0.0.0.0" else a),
             Ctx (with_ipaddress (self c) (Some a)) w' cs)
        end
    end.
Proof.
  intros Hip. unfold Instance._ipaddress. run. rewrite Hip. run_calls.
  destruct (servers_get (resource_id (self c)) (world c)) as [[e|server] w'];
    simpl.
  - destruct (is_NotFound e); simpl; [by rewrite Hip | reflexivity].
  - unfold Instance._set_ipaddress.
    destruct (Server.networks server) as [|[n [|a rest]] others]; simpl;
      [by rewrite Hip | reflexivity | reflexivity].
Qed.

(** C8, as the code has it.  For a key outside the five declared ones
    [FnGetAtt] raises the unknown-attribute error, which names the resource
    and the key, and touches nothing.  For AvailabilityZone it returns the
    value of the property when the property can be read.  For the four
    address keys it returns the cached address; without a cached address it
    looks the server up and returns its first address, or 0.0.0.0 when nova
    answers "not found" or the server has no network.  For a declared key
    it raises only what the property lookup raised, what the server lookup
    raised (other than "not found"), or an index error for a first network
    without an address. *)
Theorem FnGetAtt_declared_or_unknown (c : ctx W) (key : string) :
  (key ∉ Instance.declared_attributes ->
   Instance.FnGetAtt key c
   = (Raise (InvalidTemplateAttribute (name (self c)) key), c))
  /\ (key = "AvailabilityZone" ->
      forall v, properties (self c) "AvailabilityZone" = inr v ->
        Instance.FnGetAtt key c = (Return (unicode v), c))
  /\ (key ∈ ["PublicIp"; "PrivateIp"; "PublicDnsName"; "PrivateDnsName"] ->
      (forall a, ipaddress (self c) = Some a ->
         Instance.FnGetAtt key c
         = (Return (unicode (VStr (if String.eqb a "" then "0.0.0.0" else a))), c))
      /\ (ipaddress (self c) = None ->
          forall w', servers_get (resource_id (self c)) (world c)
                     = (inl NotFound, w') ->
            Instance.FnGetAtt key c
            = (Return (unicode (VStr "0.0.0.0")),
               Ctx (self c) w'
                   (calls c ++ [servers_get_call (resource_id (self c))])))
      /\ (ipaddress (self c) = None ->
          forall server w', servers_get (resource_id (self c)) (world c)
                            = (inr server, w') ->
            (Server.networks server = [] ->
             Instance.FnGetAtt key c
             = (Return (unicode (VStr "0.0.0.0")),
                Ctx (self c) w'
                    (calls c ++ [servers_get_call (resource_id (self c))])))
            /\ (forall n a rest others,
                  Server.networks server = (n, a :: rest) :: others ->
                  Instance.FnGetAtt key c
                  = (Return (unicode
                               (VStr (if String.eqb a "" then "0.0.0.0" else a))),
                     Ctx (with_ipaddress (self c) (Some a)) w'
                         (calls c ++ [servers_get_call (resource_id (self c))])))))
  /\ (key ∈ Instance.declared_attributes ->
      forall e c', Instance.FnGetAtt key c = (Raise e, c') ->
        (key = "AvailabilityZone"
         /\ properties (self c) "AvailabilityZone" = inl e)
        \/ (ipaddress (self c) = None /\ is_NotFound e = false
            /\ exists w', servers_get (resource_id (self c)) (world c)
                          = (inl e, w'))
        \/ (ipaddress (self c) = None /\ e = IndexError
            /\ exists server w' n others,
                 servers_get (resource_id (self c)) (world c) = (inr server, w')
                 /\ Server.networks server = (n, []) :: others)).
Proof.
  split; [apply FnGetAtt_unknown|]. split; [|split].
  - intros -> v Hv. unfold Instance.FnGetAtt. run. by rewrite Hv.
  - intros Hkey. rewrite (FnGetAtt_address c key Hkey). split; [|split].
    + intros a Hip. unfold Instance._ipaddress. run.
      by repeat (rewrite Hip; simpl).
    + intros Hip w' Hget. rewrite (ipaddress_lookup c Hip), Hget. reflexivity.
    + intros Hip server w' Hget. rewrite (ipaddress_lookup c Hip), Hget.
      split; [by intros ->|]. by intros n a rest others ->.
  - unfold Instance.declared_attributes. intros Hkey e c'.
    apply elem_of_cons in Hkey as [->|Hkey].
    + unfold Instance.FnGetAtt. run.
      destruct (properties (self c) "AvailabilityZone") as [e'|v]; simpl;
        [|discriminate].
      intros [= -> <-]. by left.
    + rewrite (FnGetAtt_address c key Hkey).
      destruct (ipaddress (self c)) as [a|] eqn:Hip.
      { unfold Instance._ipaddress. run. repeat (rewrite Hip; simpl).
        discriminate. }
      rewrite (ipaddress_lookup c Hip).
      destruct (servers_get (resource_id (self c)) (world c))
        as [[e'|server] w'] eqn:Hget; simpl.
      * destruct (is_NotFound e') eqn:Hnf; [discriminate|].
        intros [= -> <-]. right; left. by eauto.
      * destruct (Server.networks server) as [|[n [|a rest]] others] eqn:Hnet;
          try discriminate.
        intros [= <- <-]. right; right. by eauto 10.
Qed.

End AttributeFacts.

(** ** The resource view *)

Section DictFacts.

Lemma foldl_insert_keeps (ps : list (string * value)) (k : string) (v : value) :
  (forall v', (k, v') ∈ ps -> v' = v) ->
  forall m : gmap string value,
    m !! k = Some v ->
    foldl (fun m kv => <[kv.1 := kv.2]> m) m ps !! k = Some v.
Proof.
  induction ps as [|[k1 v1] ps IH]; intros Huniq m Hm; simpl; [exact Hm|].
  apply IH.
  - intros v' Hin. apply Huniq. by apply list_elem_of_further.
  - destruct (decide (k1 = k)) as [->|Hne].
    + rewrite (Huniq v1) by apply list_elem_of_here. apply lookup_insert_eq.
    + by rewrite lookup_insert_ne.
Qed.

(** A key that all pairs bind to one value is bound to it in the dict. *)
Lemma dict_of_pairs_unique (ps : list (string * value)) (k : string) (v : value) :
  (k, v) ∈ ps ->
  (forall v', (k, v') ∈ ps -> v' = v) ->
  Py.dict_of_pairs ps !! k = Some v.
Proof.
  unfold Py.dict_of_pairs. generalize (∅ : gmap string value).
  induction ps as [|[k1 v1] ps IH]; intros m Hin Huniq; simpl.
  - by apply not_elem_of_nil in Hin.
  - apply elem_of_cons in Hin as [[= <- <-]|Hin].
    + apply foldl_insert_keeps; [|apply lookup_insert_eq].
      intros v' Hin'. apply Huniq. by apply list_elem_of_further.
    + apply IH; [exact Hin|].
      intros v' Hin'. apply Huniq. by apply list_elem_of_further.
Qed.

Lemma foldl_insert_lookup (ps : list (string * value)) (k : string) (v : value) :
  forall m : gmap string value,
    foldl (fun m kv => <[kv.1 := kv.2]> m) m ps !! k = Some v ->
    (k, v) ∈ ps \/ m !! k = Some v.
Proof.
  induction ps as [|[k1 v1] ps IH]; intros m Hm; simpl in *; [by right|].
  apply IH in Hm as [Hin|Hm]; [left; by apply list_elem_of_further|].
  destruct (decide (k1 = k)) as [->|Hne].
  - rewrite lookup_insert_eq in Hm. injection Hm as ->.
    left. apply list_elem_of_here.
  - rewrite lookup_insert_ne in Hm by exact Hne. by right.
Qed.

(** What the dict binds comes from one of the pairs. *)
Lemma dict_of_pairs_lookup (ps : list (string * value)) (k : string) (v : value) :
  Py.dict_of_pairs ps !! k = Some v -> (k, v) ∈ ps.
Proof.
  intros Hm. apply foldl_insert_lookup in Hm as [Hin|Hm]; [exact Hin|].
  by rewrite lookup_empty in Hm.
Qed.

End DictFacts.

Section FormatFacts.
Variables RES_ID RES_STACK_NAME RES_STACK_ID RES_METADATA : string.
Variables Request Identifier : Type.
Variable ResourceIdentifier : value -> exn + Identifier.
Variable identity_stack : Identifier -> Identifier.
Variable make_link : Request -> Identifier -> option string -> value.

Local Notation chain_transform :=
  (Resources.chain_transform RES_ID RES_STACK_NAME RES_STACK_ID RES_METADATA
     Request Identifier ResourceIdentifier identity_stack make_link).
Local Notation format_resource :=
  (Resources.format_resource RES_ID RES_STACK_NAME RES_STACK_ID RES_METADATA
     Request Identifier ResourceIdentifier identity_stack make_link).
Local Notation links req identity :=
  (VList [make_link req identity None;
          make_link req (identity_stack identity) (Some "stack")]).
Local Notation raw k :=
  (k = RES_ID \/ k = RES_STACK_NAME \/ k = RES_STACK_ID \/ k = RES_METADATA).

Lemma eqb_cases (a b : string) :
  (a = b /\ String.eqb a b = true) \/ (a <> b /\ String.eqb a b = false).
Proof.
  destruct (String.eqb a b) eqn:E.
  - left. by apply String.eqb_eq in E.
  - right. by apply String.eqb_neq in E.
Qed.

(** Every pair of the chain is an item that is passed on, under a key that
    is none of the four, or the links made from the identity. *)
Lemma chain_transform_pairs (req : Request) (items : list (string * value)) :
  forall ps, chain_transform req [] items = inr ps ->
  forall k v, (k, v) ∈ ps ->
    ((k, v) ∈ items /\ ~ raw k)
    \/ (k = "links" /\ exists v0 identity,
          (RES_ID, v0) ∈ items /\ ResourceIdentifier v0 = inr identity
          /\ v = links req identity).
Proof.
  induction items as [|[k1 v1] items IH]; intros ps Hps k v Hin; simpl in Hps.
  - injection Hps as <-. by apply not_elem_of_nil in Hin.
  - destruct (Resources.transform _ _ _ _ _ _ _ _ _ req [] k1 v1)
      as [e|qs] eqn:Ht; [discriminate|].
    destruct (chain_transform req [] items) as [e|rs] eqn:Hc; [discriminate|].
    injection Hps as <-. apply elem_of_app in Hin as [Hin|Hin].
    + unfold Resources.transform in Ht. simpl in Ht.
      destruct (eqb_cases k1 RES_ID) as [[-> E1]|[N1 E1]]; rewrite E1 in Ht.
      { destruct (ResourceIdentifier v1) as [e|identity] eqn:Hid;
          [discriminate|].
        injection Ht as <-. apply list_elem_of_singleton in Hin as [= -> ->].
        right. split; [reflexivity|]. exists v1, identity.
        split; [apply list_elem_of_here | by split]. }
      destruct (eqb_cases k1 RES_STACK_NAME) as [[-> E2]|[N2 E2]];
        rewrite E2 in Ht; simpl in Ht.
      { injection Ht as <-. by apply not_elem_of_nil in Hin. }
      destruct (eqb_cases k1 RES_STACK_ID) as [[-> E3]|[N3 E3]];
        rewrite E3 in Ht; simpl in Ht.
      { injection Ht as <-. by apply not_elem_of_nil in Hin. }
      destruct (eqb_cases k1 RES_METADATA) as [[-> E4]|[N4 E4]];
        rewrite E4 in Ht; simpl in Ht.
      { injection Ht as <-. by apply not_elem_of_nil in Hin. }
      injection Ht as <-. apply list_elem_of_singleton in Hin as [= -> ->].
      left. split; [apply list_elem_of_here | tauto].
    + destruct (IH rs eq_refl k v Hin) as [[Hi Hraw]|[-> (v0 & i & Hi & Hid & ->)]].
      * left. split; [by apply list_elem_of_further | exact Hraw].
      * right. split; [reflexivity|]. exists v0, i.
        split; [by apply list_elem_of_further | by split].
Qed.

(** The chain is complete when the identities among the items are
    well-formed; then it holds the links of each identity and every item
    whose key is none of the four. *)
Lemma chain_transform_complete (req : Request) (items : list (string * value)) :
  (forall v0, (RES_ID, v0) ∈ items -> exists i, ResourceIdentifier v0 = inr i) ->
  exists ps, chain_transform req [] items = inr ps
    /\ (forall v0 i, (RES_ID, v0) ∈ items -> ResourceIdentifier v0 = inr i ->
          ("links", links req i) ∈ ps)
    /\ (forall k v, (k, v) ∈ items -> ~ raw k -> (k, v) ∈ ps).
Proof.
  induction items as [|[k1 v1] items IH]; intros Hids; simpl.
  - exists []. split; [reflexivity|].
    split; [intros v0 i Hin | intros k v Hin]; by apply not_elem_of_nil in Hin.
  - destruct IH as (rs & -> & Hlinks & Hpass).
    { intros v0 Hin. apply Hids. by apply list_elem_of_further. }
    unfold Resources.transform. simpl.
    destruct (eqb_cases k1 RES_ID) as [[-> E1]|[N1 E1]]; rewrite E1.
    { destruct (Hids v1) as [i Hi]; [apply list_elem_of_here|]. rewrite Hi.
      eexists. split; [reflexivity|]. split.
      - intros v0 i' Hin Hi'. apply elem_of_cons in Hin as [[= ->]|Hin].
        + rewrite Hi in Hi'. injection Hi' as <-. apply list_elem_of_here.
        + apply list_elem_of_further. by eapply Hlinks.
      - intros k v Hin Hraw. apply elem_of_cons in Hin as [[= -> ->]|Hin];
          [tauto|]. apply list_elem_of_further. by apply Hpass. }
    assert (Hrest : forall qs,
      (forall k v, (k, v) ∈ [(k1, v1)] -> ~ raw k -> (k, v) ∈ qs) ->
      (forall v0 i, (RES_ID, v0) ∈ (k1, v1) :: items ->
         ResourceIdentifier v0 = inr i -> ("links", links req i) ∈ qs ++ rs)
      /\ (forall k v, (k, v) ∈ (k1, v1) :: items -> ~ raw k -> (k, v) ∈ qs ++ rs)).
    { intros qs Hqs. split.
      - intros v0 i Hin Hi. apply elem_of_cons in Hin as [[= <-]|Hin];
          [done|]. apply elem_of_app. right. by eapply Hlinks.
      - intros k v Hin Hraw. apply elem_of_app.
        apply elem_of_cons in Hin as [[= -> ->]|Hin].
        + left. apply Hqs; [apply list_elem_of_here | exact Hraw].
        + right. by apply Hpass. }
    destruct (eqb_cases k1 RES_STACK_NAME) as [[-> E2]|[N2 E2]]; rewrite E2;
      simpl.
    { exists ([] ++ rs). split; [reflexivity|]. apply Hrest.
      intros k v [= -> ->]%list_elem_of_singleton Hraw. destruct Hraw. auto. }
    destruct (eqb_cases k1 RES_STACK_ID) as [[-> E3]|[N3 E3]]; rewrite E3;
      simpl.
    { exists ([] ++ rs). split; [reflexivity|]. apply Hrest.
      intros k v [= -> ->]%list_elem_of_singleton Hraw. destruct Hraw. auto. }
    destruct (eqb_cases k1 RES_METADATA) as [[-> E4]|[N4 E4]]; rewrite E4;
      simpl.
    { exists ([] ++ rs). split; [reflexivity|]. apply Hrest.
      intros k v [= -> ->]%list_elem_of_singleton Hraw. destruct Hraw. auto. }
    exists ([(k1, v1)] ++ rs). split; [reflexivity|]. apply Hrest.
    by intros k v Hin _.
Qed.

(** C9.  For a resource record that carries a well-formed identity (and has
    no member called links of its own), the view holds, under links, the
    link of the resource and the link, with relationship stack, of the
    identity that [stack()] gives for the owning stack.  The view has no
    stack-name, stack-id or metadata member, and every other member of the
    record is in the view as it was. *)
Theorem format_resource_view (req : Request) (stack : gmap string value)
    (v0 : value) (identity : Identifier) :
  stack !! RES_ID = Some v0 ->
  ResourceIdentifier v0 = inr identity ->
  stack !! "links" = None ->
  RES_STACK_NAME <> "links" -> RES_STACK_ID <> "links" ->
  RES_METADATA <> "links" ->
  exists view,
    format_resource req stack [] = inr view
    /\ view !! "links" = Some (links req identity)
    /\ view !! RES_STACK_NAME = None
    /\ view !! RES_STACK_ID = None
    /\ view !! RES_METADATA = None
    /\ (forall k v, ~ raw k -> stack !! k = Some v -> view !! k = Some v).
Proof.
  intros Hid Hident Hnolinks Hname Hsid Hmeta.
  unfold Resources.format_resource, Resources.format_resource_items.
  destruct (chain_transform_complete req (map_to_list stack))
    as (ps & Hps & Hlinks & Hpass).
  { intros v1 Hin. apply elem_of_map_to_list in Hin.
    rewrite Hid in Hin. injection Hin as <-. by exists identity. }
  rewrite Hps. exists (Py.dict_of_pairs ps).
  pose proof (chain_transform_pairs req (map_to_list stack) ps Hps) as Hfrom.
  assert (Hres : RES_ID <> "links") by (intros E; congruence).
  assert (Hnone : forall k, raw k -> Py.dict_of_pairs ps !! k = None).
  { intros k Hraw.
    destruct (Py.dict_of_pairs ps !! k) as [v|] eqn:Hk; [|reflexivity].
    apply dict_of_pairs_lookup in Hk.
    destruct (Hfrom k v Hk) as [[_ Hn]|[-> _]]; [tauto|].
    destruct Hraw as [?|[?|[?|?]]]; congruence. }
  split; [reflexivity|]. split; [|split; [|split; [|split]]].
  - apply dict_of_pairs_unique.
    + apply (Hlinks v0 identity); [|exact Hident].
      by apply elem_of_map_to_list.
    + intros v' Hin.
      destruct (Hfrom "links" v' Hin) as [[Hi _]|[_ (v1 & i & Hi & Hid1 & ->)]].
      * apply elem_of_map_to_list in Hi. congruence.
      * apply elem_of_map_to_list in Hi. rewrite Hid in Hi.
        injection Hi as <-. rewrite Hident in Hid1. by injection Hid1 as <-.
  - apply Hnone. tauto.
  - apply Hnone. tauto.
  - apply Hnone. tauto.
  - intros k v Hraw Hk. apply dict_of_pairs_unique.
    + apply Hpass; [by apply elem_of_map_to_list | exact Hraw].
    + intros v' Hin.
      destruct (Hfrom k v' Hin) as [[Hi _]|[-> _]].
      * apply elem_of_map_to_list in Hi. congruence.
      * congruence.
Qed.

End FormatFacts.

(** ** The template of a request *)

Section TemplateFacts.
Variable template_format_parse : value -> exn + value.
Variable urlfetch_get : value -> exn + value.
Variable engine : Stacks.engine_call -> exn + list (string * value).
Variable remote_error : exn -> exn + value.
Variable make_url : list (string * value) -> string.

Local Notation template := (Stacks.template template_format_parse urlfetch_get).
Local Notation format_parse := (Stacks.format_parse template_format_parse).
Local Notation create :=
  (Stacks.create template_format_parse urlfetch_get engine remote_error make_url).
Local Notation update :=
  (Stacks.update template_format_parse urlfetch_get engine remote_error).
Local Notation validate_template :=
  (Stacks.validate_template template_format_parse urlfetch_get engine remote_error).

Lemma format_parse_succeeds (data : value) (tmpl : value) :
  format_parse data "Template" = inr tmpl <-> template_format_parse data = inr tmpl.
Proof.
  unfold Stacks.format_parse.
  destruct (template_format_parse data) as [[]|]; split; congruence.
Qed.

(** With an inline template the URL member plays no part. *)
Lemma template_ignores_url (data : gmap string value) (t : value) :
  data !! Stacks.PARAM_TEMPLATE = Some t ->
  template data = template (delete Stacks.PARAM_TEMPLATE_URL data).
Proof.
  intros Ht. unfold Stacks.template.
  rewrite lookup_delete_ne by discriminate. by rewrite Ht.
Qed.

(** C1, as the code has it.  A request with neither member is rejected
    with the bad-request error "No template specified".  With an inline
    template the URL member is not looked at: the result is what it is
    without that member, and a dict is returned as it is.  The accessor
    succeeds exactly when the inline template is a dict or parses, or when
    there is no inline template, the URL member is there, its content can
    be fetched and parses.  Whenever the accessor raises, create, update and
    validate_template make no call on the engine, and a bad-request error
    of the accessor is what update and validate_template raise; create
    raises it too, or the bad-request error for a missing stack name. *)
Theorem template_inline_or_url (data : gmap string value) (identity : value) :
  (data !! Stacks.PARAM_TEMPLATE = None ->
   data !! Stacks.PARAM_TEMPLATE_URL = None ->
   template data = inl (HTTPBadRequest (VStr "No template specified")))
  /\ (forall t, data !! Stacks.PARAM_TEMPLATE = Some t ->
        template data = template (delete Stacks.PARAM_TEMPLATE_URL data)
        /\ (Py.is_dict t = true -> template data = inr t))
  /\ ((exists tmpl, template data = inr tmpl) <->
      (exists t, data !! Stacks.PARAM_TEMPLATE = Some t
                 /\ (Py.is_dict t = true
                     \/ exists tmpl, template_format_parse t = inr tmpl))
      \/ (data !! Stacks.PARAM_TEMPLATE = None
          /\ exists url fetched tmpl,
               data !! Stacks.PARAM_TEMPLATE_URL = Some url
               /\ urlfetch_get url = inr fetched
               /\ template_format_parse fetched = inr tmpl))
  /\ (forall e, template data = inl e ->
        (create data).1 = []
        /\ (update identity data).1 = []
        /\ (validate_template data).1 = []
        /\ (forall reason, e = HTTPBadRequest reason ->
             update identity data = ([], inl e)
             /\ validate_template data = ([], inl e)
             /\ (create data = ([], inl e)
                 \/ create data
                    = ([], inl (HTTPBadRequest (VStr "No stack name specified")))))).
Proof.
  split; [|split; [|split]].
  - intros Ht Hu. unfold Stacks.template. by rewrite Ht, Hu.
  - intros t Ht. split; [by eapply template_ignores_url|].
    intros Hdict. unfold Stacks.template. by rewrite Ht, Hdict.
  - unfold Stacks.template. split.
    + intros [tmpl Hok].
      destruct (data !! Stacks.PARAM_TEMPLATE) as [t|] eqn:Ht.
      * left. exists t. split; [reflexivity|].
        destruct (Py.is_dict t); [by left|]. right. exists tmpl.
        by apply format_parse_succeeds.
      * right. split; [reflexivity|].
        destruct (data !! Stacks.PARAM_TEMPLATE_URL) as [url|];
          [|discriminate].
        destruct (urlfetch_get url) as [[]|fetched] eqn:Hf; try discriminate.
        exists url, fetched, tmpl. split; [reflexivity|].
        split; [exact Hf|]. by apply format_parse_succeeds.
    + intros [(t & -> & [Hdict|[tmpl Hp]])|(-> & url & fetched & tmpl & -> & Hf & Hp)].
      * rewrite Hdict. by exists t.
      * destruct (Py.is_dict t); [by exists t|]. exists tmpl.
        by apply format_parse_succeeds.
      * rewrite Hf. exists tmpl. by apply format_parse_succeeds.
  - intros e He.
    unfold Stacks.create, Stacks.update, Stacks.validate_template,
      Stacks.create_attempt, Stacks.update_attempt,
      Stacks.validate_template_attempt.
    rewrite He. unfold Stacks.stack_name.
    destruct (data !! Stacks.PARAM_STACK_NAME); simpl;
      (do 3 (split; [reflexivity|]); intros reason ->; simpl; auto).
Qed.

End TemplateFacts.

(** ** The properties at work *)

Section Runs.
Import Sample Fixtures.

(** C1: a body with both members is accepted, and the engine is called
    with the inline template. *)
Lemma template_both_supplied_accepted :
  is_Some (both_body !! Stacks.PARAM_TEMPLATE)
  /\ is_Some (both_body !! Stacks.PARAM_TEMPLATE_URL)
  /\ Stacks.template parse fetch both_body = inr (VDict [("Resources", VDict [])])
  /\ (Stacks.create parse fetch engine remote_error make_url both_body).1
     = [Stacks.create_stack (VStr "wordpress") (VDict [("Resources", VDict [])])
          (VDict []) (Stacks.args both_body)].
Proof.
  split; [by eexists|]. split; [by eexists|]. split; reflexivity.
Qed.

Lemma template_inline_or_url_witness :
  Stacks.template parse fetch both_body = inr (VDict [("Resources", VDict [])])
  /\ Stacks.template parse fetch bare_body
     = inl (HTTPBadRequest (VStr "No template specified"))
  /\ Stacks.update parse fetch engine remote_error (VStr "wordpress/1") bare_body
     = ([], inl (HTTPBadRequest (VStr "No template specified")))
  /\ (Stacks.create parse fetch engine remote_error make_url bare_body).1 = [].
Proof.
  pose proof (template_inline_or_url parse fetch engine remote_error make_url
                both_body VNone) as (_ & Hinline & _).
  pose proof (template_inline_or_url parse fetch engine remote_error make_url
                bare_body (VStr "wordpress/1")) as (Hneither & _ & _ & Hraise).
  split; [|split; [|split]].
  - exact (proj2 (Hinline (VDict [("Resources", VDict [])]) eq_refl) eq_refl).
  - exact (Hneither eq_refl eq_refl).
  - exact (proj1 (proj2 (proj2 (proj2 (Hraise _ (Hneither eq_refl eq_refl))))
                    _ eq_refl)).
  - exact (proj1 (Hraise _ (Hneither eq_refl eq_refl))).
Defined.

(** C2: an update with the snippet the resource already has reports a
    replacement. *)
Lemma handle_update_unchanged_reports_replace :
  changed_keys (t running_webserver) webserver_snippet = []
  /\ (Instance.handle_update webserver_snippet
        (start running_webserver running_cloud)).1
     = Return Instance.UPDATE_REPLACE.
Proof. split; reflexivity. Qed.

Lemma handle_update_empty_diff_witness :
  Instance.handle_update webserver_snippet (start running_webserver running_cloud)
  = (Return Instance.UPDATE_REPLACE, start running_webserver running_cloud).
Proof.
  apply (handle_update_empty_diff (start running_webserver running_cloud)
           webserver_snippet).
  reflexivity.
Defined.

Lemma handle_create_records_id_witness :
  resource_id (self (Instance.handle_create 10 (start webserver failing_cloud)).2)
  = Some "srv-teststack.WebServer"
  /\ (Instance.handle_create 10 (start webserver failing_cloud)).1
     = Raise (Error "nova reported unexpected instance[WebServer] status[ERROR]").
Proof.
  split; [|reflexivity].
  edestruct (handle_create_records_id 10 (start webserver failing_cloud))
    as [_ Hid]; [vm_compute; reflexivity | vm_compute; reflexivity | exact Hid].
Defined.

Lemma handle_update_metadata_or_replace_witness :
  (Instance.handle_update metadata_changed_snippet
     (start running_webserver running_cloud)).1
  = Return Instance.UPDATE_COMPLETE
  /\ metadata running_webserver = VDict [("a", VInt 1)]
  /\ metadata (self (Instance.handle_update metadata_changed_snippet
                       (start running_webserver running_cloud)).2)
     = VDict [("a", VInt 2)]
  /\ resource_id (self (Instance.handle_update metadata_changed_snippet
                          (start running_webserver running_cloud)).2)
     = Some "srv-1"
  /\ world (Instance.handle_update metadata_changed_snippet
              (start running_webserver running_cloud)).2
     = running_cloud
  /\ calls (Instance.handle_update metadata_changed_snippet
              (start running_webserver running_cloud)).2
     = []
  /\ Instance.handle_update image_changed_snippet
       (start running_webserver running_cloud)
     = (Return Instance.UPDATE_REPLACE, start running_webserver running_cloud).
Proof.
  destruct (handle_update_metadata_or_replace
              (start running_webserver running_cloud) metadata_changed_snippet)
    as (_ & Hstore & _).
  destruct (Hstore [("Metadata", VDict [("a", VInt 2)])] eq_refl eq_refl)
    as (Hrun & _ & Hnew & _ & _ & Hid & _).
  split; [by rewrite Hrun|]. split; [reflexivity|].
  split; [exact (Hnew (VDict [("a", VInt 2)]) eq_refl)|].
  split; [exact Hid|].
  split; [by rewrite Hrun|]. split; [by rewrite Hrun|].
  eapply (handle_update_metadata_or_replace
            (start running_webserver running_cloud) image_changed_snippet);
    reflexivity.
Defined.

Lemma handle_delete_unset_is_noop_witness :
  Instance.handle_delete 5 (start webserver running_cloud)
  = (Return tt, start webserver running_cloud)
  /\ Instance.handle_delete 0
       (Instance.handle_delete 5 (start running_webserver running_cloud)).2
     = (Return tt,
        (Instance.handle_delete 5 (start running_webserver running_cloud)).2).
Proof.
  split.
  - apply (handle_delete_unset_is_noop (start webserver running_cloud)).
    reflexivity.
  - eapply (handle_delete_unset_is_noop (start running_webserver running_cloud))
      with (fuel := 5%nat).
    reflexivity.
Defined.

Lemma handle_delete_set_witness :
  (exists w cs,
     Instance.handle_delete 3 (start running_webserver running_cloud)
     = (Return tt, Ctx webserver w cs))
  /\ Instance.handle_delete 0 (start running_webserver empty_cloud)
     = (Return tt, Ctx webserver empty_cloud [servers_get_call (Some "srv-1")]).
Proof.
  split.
  - eexists _, _.
    eapply (proj1 (proj2 (handle_delete_set
                            (start running_webserver running_cloud) "srv-1"
                            eq_refl))).
    + reflexivity.
    + reflexivity.
    + eapply Polling.absent_later; [reflexivity | reflexivity |].
      eapply Polling.absent_later; [reflexivity | reflexivity |].
      eapply Polling.absent_now. reflexivity.
    + simpl. lia.
  - eapply (proj1 (handle_delete_set (start running_webserver empty_cloud)
                     "srv-1" eq_refl)).
    reflexivity.
Defined.

(** C6.  A delete whose deletion request is answered "not found": the
    lookup has found the server, and the server is gone when
    [server.delete()] is called.  [handle_delete] absorbs the "not found"
    of the lookup and that of the refresh, but not this one: the delete
    raises NotFound after the two requests and the resource_id stays set,
    where the same delete, asked once the server is known to be gone,
    returns with the resource_id unset. *)
Theorem handle_delete_request_not_found :
  servers_get (Some "srv-1") contended_cloud
  = (inr active_server, vacated_cloud)
  /\ server_delete active_server vacated_cloud
     = (inl NotFound, vacated_cloud)
  /\ (forall fuel,
        Instance.handle_delete fuel (Ctx running_webserver contended_cloud [])
        = (Raise NotFound,
           Ctx running_webserver vacated_cloud
               [servers_get_call (Some "srv-1"); server_delete_call "srv-1"]))
  /\ (forall fuel,
        resource_id
          (self (Instance.handle_delete fuel
                   (Ctx running_webserver contended_cloud [])).2)
        = Some "srv-1")
  /\ (forall fuel,
        Instance.handle_delete fuel (Ctx running_webserver vacated_cloud [])
        = (Return tt,
           Ctx (with_resource_id running_webserver None) vacated_cloud
               [servers_get_call (Some "srv-1")])).
Proof.
  assert (Hraise : forall fuel,
    Instance.handle_delete fuel (Ctx running_webserver contended_cloud [])
    = (Raise NotFound,
       Ctx running_webserver vacated_cloud
           [servers_get_call (Some "srv-1"); server_delete_call "srv-1"])).
  { intros fuel.
    exact (handle_delete_request_raises
             (Ctx running_webserver contended_cloud []) "srv-1"
             active_server vacated_cloud vacated_cloud NotFound
             eq_refl eq_refl eq_refl fuel). }
  split; [reflexivity|]. split; [reflexivity|]. split; [exact Hraise|].
  split; [intros fuel; by rewrite Hraise|].
  intros fuel. reflexivity.
Qed.

Lemma validate_schema_then_keypair_witness :
  Instance.validate (start imageless empty_cloud)
  = (Return (VStr "Property ImageId not assigned"), start imageless empty_cloud)
  /\ Instance.validate (start stranger empty_cloud)
     = (Return (VDict [("Error",
                        VStr "Provided KeyName is not registered with nova")]),
        Ctx stranger empty_cloud [keypairs_list_call]).
Proof.
  split.
  - exact (proj1 (validate_schema_then_keypair (start imageless empty_cloud))
             eq_refl).
  - eapply (proj1 (proj2 (validate_schema_then_keypair
                            (start stranger empty_cloud))));
      [reflexivity | reflexivity | reflexivity |].
    intros k Hk. apply list_elem_of_singleton in Hk as ->. reflexivity.
Defined.

(** C8: a declared key, and a lookup that fails for another reason than
    "not found". *)
Lemma FnGetAtt_declared_key_raises :
  "PublicIp" ∈ Instance.declared_attributes
  /\ Instance.FnGetAtt "PublicIp" (start running_webserver unreachable_cloud)
     = (Raise (OtherException "ClientException"),
        Ctx running_webserver unreachable_cloud
            [servers_get_call (Some "srv-1")]).
Proof.
  split; [|reflexivity].
  unfold Instance.declared_attributes.
  apply list_elem_of_further, list_elem_of_here.
Qed.

Lemma FnGetAtt_declared_or_unknown_witness :
  Instance.FnGetAtt "Flavor" (start running_webserver running_cloud)
  = (Raise (InvalidTemplateAttribute "WebServer" "Flavor"),
     start running_webserver running_cloud)
  /\ Instance.FnGetAtt "AvailabilityZone" (start running_webserver running_cloud)
     = (Return "nova", start running_webserver running_cloud)
  /\ Instance.FnGetAtt "PublicIp" (start running_webserver running_cloud)
     = (Return "10.0.0.2",
        Ctx (with_ipaddress running_webserver (Some "10.0.0.2")) running_cloud
            [servers_get_call (Some "srv-1")])
  /\ Instance.FnGetAtt "PrivateIp" (start running_webserver empty_cloud)
     = (Return "0.0.0.0",
        Ctx running_webserver empty_cloud [servers_get_call (Some "srv-1")]).
Proof.
  assert (Hpublic :
    "PublicIp" ∈ ["PublicIp"; "PrivateIp"; "PublicDnsName"; "PrivateDnsName"])
    by apply list_elem_of_here.
  assert (Hprivate :
    "PrivateIp" ∈ ["PublicIp"; "PrivateIp"; "PublicDnsName"; "PrivateDnsName"])
    by apply list_elem_of_further, list_elem_of_here.
  split; [|split; [|split]].
  - apply (proj1 (FnGetAtt_declared_or_unknown
                    (start running_webserver running_cloud) "Flavor")).
    unfold Instance.declared_attributes.
    repeat (apply not_elem_of_cons; split; [discriminate|]).
    apply not_elem_of_nil.
  - exact (proj1 (proj2 (FnGetAtt_declared_or_unknown
                           (start running_webserver running_cloud)
                           "AvailabilityZone")) eq_refl (VStr "nova") eq_refl).
  - destruct (proj1 (proj2 (proj2 (FnGetAtt_declared_or_unknown
                (start running_webserver running_cloud) "PublicIp"))) Hpublic)
      as (_ & _ & Hfound).
    exact (proj2 (Hfound eq_refl active_server running_cloud eq_refl)
             "private" "10.0.0.2" [] [] eq_refl).
  - destruct (proj1 (proj2 (proj2 (FnGetAtt_declared_or_unknown
                (start running_webserver empty_cloud) "PrivateIp"))) Hprivate)
      as (_ & Hgone & _).
    exact (Hgone eq_refl empty_cloud eq_refl).
Defined.

Lemma format_resource_view_witness :
  exists view,
    Resources.format_resource "resource_identity" "stack_name" "stack_identity"
      "metadata" unit identity resource_identifier stack_of link tt
      webserver_record []
    = inr view
    /\ view !! "links"
       = Some (VList
                 [VDict [("href", VStr "/t1/stacks/wordpress/1/resources/WebServer");
                         ("rel", VStr "self")];
                  VDict [("href", VStr "/t1/stacks/wordpress/1");
                         ("rel", VStr "stack")]])
    /\ view !! "stack_name" = None
    /\ view !! "stack_identity" = None
    /\ view !! "metadata" = None.
Proof.
  destruct (format_resource_view "resource_identity" "stack_name"
              "stack_identity" "metadata" unit identity resource_identifier
              stack_of link tt webserver_record
              (VDict [("tenant", VStr "t1"); ("stack_name", VStr "wordpress");
                      ("stack_id", VStr "1");
                      ("resource_name", VStr "WebServer")])
              {| tenant := "t1"; stack_name := "wordpress"; stack_id := "1";
                 resource_name := Some "WebServer" |})
    as (view & Hview & Hlinks & Hname & Hid & Hmeta & _);
    [reflexivity | reflexivity | reflexivity | discriminate | discriminate
    | discriminate |].
  exists view. repeat split; assumption.
Defined.

Lemma alarm_unknown_instance_witness :
  Restarter.alarm [running_webserver; restarter] (start restarter running_cloud)
  = (Return tt, start restarter running_cloud).
Proof.
  apply (alarm_unknown_instance [running_webserver; restarter]
           (start restarter running_cloud) (VStr "srv-gone")).
  - reflexivity.
  - intros r Hr.
    apply elem_of_cons in Hr as [->|Hr]; [reflexivity|].
    apply list_elem_of_singleton in Hr as ->. reflexivity.
Defined.

End Runs.

(** * Further properties of the handlers *)

(** ** Restarter: the resource that is restarted *)

Section RestartFacts.
Context {W : Type} `{World W} `{Base}.

Lemma find_resource_first (before after : list resource) (victim : resource)
    (v : value) :
  (forall r, r ∈ before -> Py.eqb (Restarter.id_value (resource_id r)) v = false) ->
  Py.eqb (Restarter.id_value (resource_id victim)) v = true ->
  Restarter._find_resource (before ++ victim :: after) v = Some victim.
Proof.
  induction before as [|r before IH]; intros Hno Hyes; simpl.
  - by rewrite Hyes.
  - rewrite (Hno r) by apply list_elem_of_here.
    apply IH; [|exact Hyes].
    intros r' Hr'. apply Hno. by apply list_elem_of_further.
Qed.

(** X1.  When some resource of the stack carries the configured InstanceId,
    [alarm] asks the stack to restart the first such resource, by its name,
    and makes no other call; what [restart_resource] raises is raised. *)
Theorem alarm_restarts_first_match (before after : list resource)
    (victim : resource) (c : ctx W) (instance_id : value) :
  properties (self c) "InstanceId" = inr instance_id ->
  (forall r, r ∈ before ->
     Py.eqb (Restarter.id_value (resource_id r)) instance_id = false) ->
  Py.eqb (Restarter.id_value (resource_id victim)) instance_id = true ->
  Restarter.alarm (before ++ victim :: after) c
  = ((match (restart_resource (name victim) (world c)).1 with
      | inl e => Raise e
      | inr _ => Return tt
      end),
     Ctx (self c) (restart_resource (name victim) (world c)).2
         (calls c ++ [restart_resource_call (name victim)])).
Proof.
  intros Hprop Hno Hyes. unfold Restarter.alarm. run. rewrite Hprop. simpl.
  rewrite (find_resource_first before after victim instance_id Hno Hyes).
  run_calls.
  by destruct (restart_resource (name victim) (world c)) as [[e|[]] w'].
Qed.

End RestartFacts.

(** ** Instance: the user data *)

Section UserdataFacts.
Context {W : Type} `{World W} `{Base}.

(** X2.  [_build_userdata] makes no call and assigns nothing but the MIME
    string.  Once it has returned a non-empty MIME string, every later call
    returns that same string and changes nothing, whatever user data it is
    given. *)
Theorem build_userdata_cached (c : ctx W) (userdata : value) :
  world (Instance._build_userdata userdata c).2 = world c
  /\ calls (Instance._build_userdata userdata c).2 = calls c
  /\ (exists m, (Instance._build_userdata userdata c).1 = Return m
                /\ self (Instance._build_userdata userdata c).2
                   = with_mime_string (self c) (Some m))
  /\ (forall m, (Instance._build_userdata userdata c).1 = Return m ->
        m <> "" ->
        forall userdata',
          Instance._build_userdata userdata'
            (Instance._build_userdata userdata c).2
          = (Return m, (Instance._build_userdata userdata c).2)).
Proof.
  unfold Instance._build_userdata. run.
  destruct (mime_string (self c)) as [m0|] eqn:Hm.
  - destruct (String.eqb m0 "") eqn:Hempty; simpl.
    + repeat split; [by eexists|].
      intros m [= <-] Hne userdata'. simpl.
      apply String.eqb_neq in Hne. by rewrite Hne.
    + repeat split.
      * exists m0. split; [reflexivity|].
        destruct c as [[] ? ?]. simpl in *. by rewrite Hm.
      * intros m [= <-] Hne userdata'. by rewrite Hm, Hempty.
  - repeat split; [by eexists|].
    intros m [= <-] Hne userdata'. simpl.
    apply String.eqb_neq in Hne. by rewrite Hne.
Qed.

End UserdataFacts.

(** ** Instance: what precedes the creation call *)

Section PreludeFacts.
Context {W : Type} `{World W} `{Base}.

(** A computation is quiet when it leaves the resource_id alone and makes
    no mutating call. *)
Local Notation quiet m :=
  (forall c : ctx W,
     resource_id (self (m c).2) = resource_id (self c)
     /\ exists cs, calls (m c).2 = calls c ++ cs
                   /\ Forall (fun k => mutating k = false) cs).

Lemma quiet_here (c : ctx W) :
  resource_id (self c) = resource_id (self c)
  /\ exists cs, calls c = calls c ++ cs
                /\ Forall (fun k => mutating k = false) cs.
Proof. split; [reflexivity|]. exists []. by rewrite app_nil_r. Qed.

Lemma quiet_ret {A} (a : A) : quiet (mret a : M W A).
Proof. intros c. apply quiet_here. Qed.

Lemma quiet_raise {A} (e : exn) : quiet (raise e : M W A).
Proof. intros c. apply quiet_here. Qed.

Lemma quiet_lift {A} (r : exn + A) : quiet (lift r : M W A).
Proof. intros c. destruct r; apply quiet_here. Qed.

Lemma quiet_get_self : quiet (get_self : M W resource).
Proof. intros c. apply quiet_here. Qed.

Lemma quiet_bind {A B} (m : M W A) (f : A -> M W B) :
  quiet m -> (forall a, quiet (f a)) -> quiet (m ≫= f).
Proof.
  intros Hm Hf c. destruct (Hm c) as [Hid (cs & Hcs & Hall)].
  unfold mbind, M_bind.
  destruct (m c) as [[a|e|] c1]; simpl in *; try (split; [exact Hid | by eauto]).
  destruct (Hf a c1) as [Hid' (cs' & Hcs' & Hall')].
  split; [congruence|]. exists (cs ++ cs'). split.
  - rewrite Hcs', Hcs. by rewrite app_assoc.
  - by apply Forall_app.
Qed.

Lemma quiet_perform {A} (k : call) (op : W -> (exn + A) * W) :
  mutating k = false -> quiet (perform k op).
Proof.
  intros Hk c. unfold perform. destruct (op (world c)) as [r w]. simpl.
  split; [reflexivity|]. exists [k]. split; [reflexivity|].
  by repeat constructor.
Qed.

Lemma quiet_build_userdata (userdata : value) :
  quiet (Instance._build_userdata userdata).
Proof.
  intros c. unfold Instance._build_userdata. run.
  destruct (mime_string (self c)) as [m|]; [destruct (String.eqb m "")|];
    simpl; (split; [reflexivity|]; exists []; by rewrite app_nil_r).
Qed.

Lemma quiet_create_arguments : quiet Instance.create_arguments.
Proof.
  unfold Instance.create_arguments.
  apply quiet_bind; [apply quiet_get_self | intros self0].
  apply quiet_bind; [apply quiet_lift | intros sgs].
  apply quiet_bind.
  { destruct sgs; try apply quiet_ret;
      (apply quiet_bind; [apply quiet_lift | intros elements];
       apply quiet_bind; [apply quiet_lift | intros names]; apply quiet_ret). }
  intros security_groups.
  apply quiet_bind; [apply quiet_lift | intros ud].
  apply quiet_bind; [apply quiet_lift | intros flavor].
  apply quiet_bind; [apply quiet_lift | intros key_name].
  apply quiet_bind; [by apply quiet_perform | intros keypairs].
  destruct (negb _); [apply quiet_raise|].
  apply quiet_bind; [apply quiet_lift | intros image_name].
  apply quiet_bind; [by apply quiet_perform | intros image_list].
  destruct (Instance.id_by_name _ _ image_name image_list); [|apply quiet_raise].
  apply quiet_bind; [by apply quiet_perform | intros flavor_list].
  apply quiet_bind; [apply quiet_lift | intros tags_p].
  apply quiet_bind; [apply quiet_lift | intros tags].
  apply quiet_bind; [apply quiet_lift | intros hints_p].
  apply quiet_bind; [apply quiet_lift | intros hints].
  apply quiet_bind; [apply quiet_build_userdata | intros server_userdata].
  apply quiet_bind; [apply quiet_get_self | intros self'].
  apply quiet_ret.
Qed.

(** X3.  Before the creation call [handle_create] only reads: it leaves the
    resource_id as it was and none of its calls is a mutating one.  When it
    raises there, or finds no flavor of the given name, [handle_create]
    ends with that exception (an unbound [flavor_id] in the second case),
    in the same context: nothing has been asked of nova's servers. *)
Theorem handle_create_fails_before_creation (c : ctx W) :
  (resource_id (self (Instance.create_arguments c).2) = resource_id (self c)
   /\ exists cs, calls (Instance.create_arguments c).2 = calls c ++ cs
                 /\ Forall (fun k => mutating k = false) cs)
  /\ (forall e c1, Instance.create_arguments c = (Raise e, c1) ->
        forall fuel, Instance.handle_create fuel c = (Raise e, c1))
  /\ (forall args c1, Instance.create_arguments c = (Return (args, None), c1) ->
        forall fuel, Instance.handle_create fuel c
                     = (Raise (UnboundLocalError "flavor_id"), c1)).
Proof.
  split; [apply quiet_create_arguments|]. split.
  - intros e c1 Hargs fuel. unfold Instance.handle_create.
    unfold mbind at 1. unfold M_bind at 1. by rewrite Hargs.
  - intros args c1 Hargs fuel. unfold Instance.handle_create.
    unfold mbind at 1. unfold M_bind at 1. rewrite Hargs.
    unfold Instance.create_server. run. reflexivity.
Qed.

End PreludeFacts.

(** ** Instance: the wait for the build *)

Section BuildFacts.
Context {W : Type} `{World W} `{Base}.
Import Building.

(** Enough fuel lets the waiting loop see the build end. *)
Lemma wait_build_built (s s' : Server.t) (w w' : W) (cs : list call) :
  built_after s w cs s' w' ->
  forall (fuel : nat) (r : resource) (l : list call),
    length cs <= 2 * fuel ->
    Instance.wait_build fuel s (Ctx r w l) = (Return s', Ctx r w' (l ++ cs)).
Proof.
  induction 1 as [s w Hst | s s1 w w1 w2 cs s' w' Hst Hget Hsleep Hb IH];
    intros fuel r l Hfuel; simpl in Hfuel.
  - apply String.eqb_neq in Hst.
    destruct fuel; simpl; rewrite Hst; by rewrite app_nil_r.
  - destruct fuel as [|fuel]; [lia|]. simpl.
    apply String.eqb_eq in Hst. rewrite Hst. run. run_calls.
    rewrite Hget. simpl. rewrite Hsleep. simpl.
    rewrite IH by lia. by rewrite <- !app_assoc.
Qed.

(** The waiting loop returns only a server whose build has ended. *)
Lemma wait_build_returns (fuel : nat) :
  forall (s s' : Server.t) (c c' : ctx W),
    Instance.wait_build fuel s c = (Return s', c') ->
    self c' = self c /\
    exists cs, built_after s (world c) cs s' (world c')
               /\ calls c' = calls c ++ cs.
Proof.
  induction fuel as [|fuel IH]; intros s s' c c' Hrun; simpl in Hrun;
    destruct (String.eqb (Server.status s) "BUILD") eqn:Hst.
  - run. discriminate.
  - run. injection Hrun as <- <-. split; [reflexivity|]. exists [].
    split; [|by rewrite app_nil_r].
    apply built_now. by apply String.eqb_neq.
  - run. run_calls.
    destruct (server_get s (world c)) as [[e|s1] w1] eqn:Hget; simpl in Hrun;
      [discriminate|].
    destruct (eventlet_sleep 1000 w1) as [[e|[]] w2] eqn:Hsleep;
      simpl in Hrun; [discriminate|].
    apply IH in Hrun as [Hself (cs & Hb & Hcalls)]. simpl in *.
    split; [exact Hself|].
    exists (server_get_call (Server.id s) :: sleep_call 1000 :: cs).
    split; [|rewrite Hcalls; by rewrite <- !app_assoc].
    eapply built_later; eauto. by apply String.eqb_eq.
  - run. injection Hrun as <- <-. split; [reflexivity|]. exists [].
    split; [|by rewrite app_nil_r].
    apply built_now. by apply String.eqb_neq.
Qed.

(** X4.  After nova has answered the creation call with a server,
    [handle_create] refreshes the server, sleeping one second after each
    refresh, for as long as its status is BUILD.  When the build ends in
    ACTIVE the address of the server is taken; when it ends in any other
    status [handle_create] raises an error that names the resource and the
    status.  Either way the id of the server is recorded.  And
    [handle_create] returns in no other way than after a build that ended
    in ACTIVE. *)
Theorem handle_create_waits_for_build (c : ctx W) :
  (forall c1 args flavor_id server w2 cs server' w',
     Instance.create_arguments c = (Return (args, Some flavor_id), c1) ->
     servers_create args (world c1) = (inr server, w2) ->
     built_after server w2 cs server' w' ->
     forall fuel, length cs <= 2 * fuel ->
       Instance.handle_create fuel c
       = (if String.eqb (Server.status server') "ACTIVE"
          then Instance._set_ipaddress (Server.networks server')
          else raise (Error ("nova reported unexpected instance["
                               +:+ name (self c1) +:+ "] status["
                               +:+ Server.status server' +:+ "]")))
           (Ctx (with_resource_id (self c1) (Some (Server.id server))) w'
                (calls c1 ++ servers_create_call args :: cs)))
  /\ (forall fuel c', Instance.handle_create fuel c = (Return tt, c') ->
        exists c1 args flavor_id server w2 cs server',
          Instance.create_arguments c = (Return (args, Some flavor_id), c1)
          /\ servers_create args (world c1) = (inr server, w2)
          /\ built_after server w2 cs server' (world c')
          /\ Server.status server' = "ACTIVE"
          /\ resource_id (self c') = Some (Server.id server)).
Proof.
  split.
  - intros c1 args flavor_id server w2 cs server' w' Hargs Hcreate Hbuilt
      fuel Hfuel.
    unfold Instance.handle_create.
    unfold mbind at 1. unfold M_bind at 1. rewrite Hargs.
    unfold Instance.create_server, resource_id_set. run. run_calls.
    rewrite Hcreate. simpl. unfold Instance.wait_active. run.
    rewrite (wait_build_built _ _ _ _ _ Hbuilt) by exact Hfuel. simpl.
    rewrite <- app_assoc. simpl.
    by destruct (String.eqb (Server.status server') "ACTIVE").
  - intros fuel c'. unfold Instance.handle_create.
    unfold mbind at 1. unfold M_bind at 1.
    destruct (Instance.create_arguments c) as [[[args [flavor_id|]]|e|] c1]
      eqn:Hargs; try discriminate.
    unfold Instance.create_server, resource_id_set. run. run_calls.
    destruct (servers_create args (world c1)) as [[e|server] w2] eqn:Hcreate;
      simpl; [discriminate|].
    unfold Instance.wait_active. run.
    destruct (Instance.wait_build fuel server _) as [[server'|e|] c2]
      eqn:Hwait; try discriminate.
    apply wait_build_returns in Hwait as [Hself (cs & Hb & _)].
    simpl in *.
    destruct (String.eqb (Server.status server') "ACTIVE") eqn:Hst;
      [|discriminate].
    intros Hset.
    exists c1, args, flavor_id, server, w2, cs, server'.
    pose proof (set_ipaddress_resource_id (Server.networks server') c2) as Hid.
    rewrite Hset in Hid. simpl in Hid.
    assert (Hworld : world c' = world c2).
    { revert Hset. unfold Instance._set_ipaddress.
      destruct (Server.networks server') as [|[n [|a rest]] others]; run;
        try discriminate; by intros [= <-]. }
    rewrite Hworld, Hid, Hself.
    repeat split; try done. by apply String.eqb_eq.
Qed.

End BuildFacts.

(** ** Instance: the cached address *)

Section AddressFacts.
Context {W : Type} `{World W} `{Base}.

Lemma ipaddress_cached (c : ctx W) (a : string) :
  ipaddress (self c) = Some a ->
  Instance._ipaddress c
  = (Return (if String.eqb a "" then "0.0.0.0" else a), c).
Proof.
  intros Hip. unfold Instance._ipaddress. run.
  by repeat (rewrite Hip; simpl).
Qed.

(** What a lookup that returns leaves in the cache is what it returned. *)
Lemma ipaddress_returns (c c' : ctx W) (v : string) :
  Instance._ipaddress c = (Return v, c') ->
  forall a, ipaddress (self c') = Some a ->
    v = (if String.eqb a "" then "0.0.0.0" else a).
Proof.
  destruct (ipaddress (self c)) as [a0|] eqn:Hip.
  - rewrite (ipaddress_cached c a0 Hip). intros [= <- <-] a Ha.
    rewrite Hip in Ha. by injection Ha as ->.
  - rewrite (ipaddress_lookup c Hip).
    destruct (servers_get (resource_id (self c)) (world c)) as [[e|server] w'];
      simpl.
    + destruct (is_NotFound e); [|discriminate].
      intros [= <- <-] a Ha. simpl in Ha. congruence.
    + destruct (Server.networks server) as [|[n [|a0 rest]] others];
        try discriminate; intros [= <- <-] a Ha; simpl in Ha;
        first [congruence | by injection Ha as <-].
Qed.

(** X5.  The four address attributes are one lookup: in the same context
    they give the same result.  When one of them has returned and has left
    an address cached on the resource, every later request, for any of the
    four, returns the same value, asks nova nothing and changes nothing. *)
Theorem FnGetAtt_address_cached (c : ctx W) (key key' : string) :
  key ∈ ["PublicIp"; "PrivateIp"; "PublicDnsName"; "PrivateDnsName"] ->
  key' ∈ ["PublicIp"; "PrivateIp"; "PublicDnsName"; "PrivateDnsName"] ->
  Instance.FnGetAtt key c = Instance.FnGetAtt key' c
  /\ (forall v c1 a,
        Instance.FnGetAtt key c = (Return v, c1) ->
        ipaddress (self c1) = Some a ->
        Instance.FnGetAtt key' c1 = (Return v, c1)).
Proof.
  intros Hkey Hkey'.
  rewrite (FnGetAtt_address c key Hkey), (FnGetAtt_address c key' Hkey').
  split; [reflexivity|].
  intros v c1 a Hrun Hip. rewrite (FnGetAtt_address c1 key' Hkey').
  rewrite (ipaddress_cached c1 a Hip).
  destruct (Instance._ipaddress c) as [[v0|e|] c0] eqn:Hlookup;
    try discriminate.
  injection Hrun as <- <-.
  by rewrite (ipaddress_returns c c0 v0 Hlookup a Hip).
Qed.

End AddressFacts.

(** ** Instance: the result of an update *)

Section UpdateResultFacts.
Context {W : Type} `{World W} `{Base}.

Local Notation new_metadata json_snippet :=
  (default (VDict []) (Py.items_get "Metadata" json_snippet)).

(** The loop over the changed keys: it returns, it touches nothing but the
    metadata, and it says UPDATE_COMPLETE exactly when it met Metadata and
    nothing else (or met nothing and was started with it). *)
Lemma update_loop_result (json_snippet : list (string * value))
    (keys : list string) :
  forall (status : Instance.update_result) (c : ctx W),
    exists result,
      Instance.update_loop json_snippet keys status c
      = (Return result,
         Ctx (match keys with
              | k :: _ =>
                  if String.eqb k "Metadata"
                  then with_metadata (self c) (new_metadata json_snippet)
                  else self c
              | [] => self c
              end) (world c) (calls c))
      /\ (result = Instance.UPDATE_COMPLETE <->
          (Forall (fun k => k = "Metadata") keys
           /\ (keys = [] -> status = Instance.UPDATE_COMPLETE))).
Proof.
  induction keys as [|k keys IH]; intros status c; simpl.
  - exists status. split; [by destruct c|].
    split; [by intros -> | intros [_ Hst]; by apply Hst].
  - destruct (String.eqb k "Metadata") eqn:Hk.
    + run.
      destruct (IH Instance.UPDATE_COMPLETE
                  (Ctx (with_metadata (self c) (new_metadata json_snippet))
                       (world c) (calls c))) as (result & Hrun & Hres).
      exists result. split.
      * rewrite Hrun. simpl. f_equal. f_equal.
        destruct keys as [|k' keys']; [reflexivity|].
        by destruct (String.eqb k' "Metadata").
      * rewrite Hres. apply String.eqb_eq in Hk as ->. split.
        -- intros [Hall _]. split; [by constructor | discriminate].
        -- intros [Hall _]. split; [by inversion Hall | reflexivity].
    + exists Instance.UPDATE_REPLACE. split; [by destruct c|].
      split; [discriminate|]. intros [Hall _].
      apply String.eqb_neq in Hk. by inversion Hall.
Qed.

(** X6.  [handle_update] makes no call and assigns nothing but the
    metadata of the resource.  Given the difference that the base class
    computes, it returns, and its result is UPDATE_COMPLETE exactly when the
    difference has at least one key and all its keys are Metadata; the
    resource then carries the Metadata of the new snippet ([{}] when the
    snippet has none). *)
Theorem handle_update_result (c : ctx W) (json_snippet : list (string * value)) :
  world (Instance.handle_update json_snippet c).2 = world c
  /\ calls (Instance.handle_update json_snippet c).2 = calls c
  /\ (self (Instance.handle_update json_snippet c).2 = self c
      \/ self (Instance.handle_update json_snippet c).2
         = with_metadata (self c) (new_metadata json_snippet))
  /\ (forall diff, update_template_diff (self c) json_snippet = inr diff ->
        exists result,
          (Instance.handle_update json_snippet c).1 = Return result
          /\ (result = Instance.UPDATE_COMPLETE <->
              diff <> [] /\ Forall (fun k => k = "Metadata") diff.*1)
          /\ (result = Instance.UPDATE_COMPLETE ->
              metadata (self (Instance.handle_update json_snippet c).2)
              = new_metadata json_snippet)).
Proof.
  unfold Instance.handle_update. run.
  destruct (update_template_diff (self c) json_snippet) as [e|diff] eqn:Hdiff.
  - repeat split; try by left.
    + by destruct e.
    + by destruct e.
    + destruct e; by left.
    + discriminate.
  - destruct (update_loop_result json_snippet diff.*1 Instance.UPDATE_REPLACE c)
      as (result & Hrun & Hres).
    rewrite Hrun. simpl. repeat split.
    + destruct diff.*1 as [|k ?]; [by left|].
      destruct (String.eqb k "Metadata"); [by right | by left].
    + intros diff' [= <-]. exists result. split; [reflexivity|]. split.
      * rewrite Hres. split.
        -- intros [Hall Hnil]. split; [|exact Hall].
           intros ->. by specialize (Hnil eq_refl).
        -- intros [Hne Hall]. split; [exact Hall|].
           intros Hnil. destruct diff; [done | discriminate].
      * intros Hc. apply Hres in Hc as [Hall Hnil].
        destruct diff.*1 as [|k ?]; [by specialize (Hnil eq_refl)|].
        inversion Hall as [|? ? -> _]. reflexivity.
Qed.

End UpdateResultFacts.

(** ** Instance: a validation that passes *)

Section ValidatePassFacts.
Context {W : Type} `{World W} `{Base}.

Lemma existsb_keypair_true (keypairs : list Keypair.t) (key_name : value)
    (k : Keypair.t) :
  k ∈ keypairs -> Py.eqb (VStr (Keypair.name k)) key_name = true ->
  existsb (fun k => Py.eqb (VStr (Keypair.name k)) key_name) keypairs = true.
Proof.
  intros Hin Hk. apply existsb_exists. exists k.
  split; [by apply list_elem_of_In | exact Hk].
Qed.

(** X7.  When the schema validation reports nothing, [validate] passes
    (returns None) in two cases: when reading KeyName raises ValueError,
    and then nova is not asked anything; and when nova lists a key pair of
    the name that KeyName gives, after that one call.  What the listing of
    the key pairs raises is raised by [validate]. *)
Theorem validate_passes (c : ctx W) :
  Py.truthy (super_validate (self c)) = false ->
  (forall msg, properties (self c) "KeyName" = inl (ValueError msg) ->
     Instance.validate c = (Return VNone, c))
  /\ (forall key_name keypairs w' k,
        properties (self c) "KeyName" = inr key_name ->
        keypairs_list (world c) = (inr keypairs, w') ->
        k ∈ keypairs -> Py.eqb (VStr (Keypair.name k)) key_name = true ->
        Instance.validate c
        = (Return VNone, Ctx (self c) w' (calls c ++ [keypairs_list_call])))
  /\ (forall key_name e w',
        properties (self c) "KeyName" = inr key_name ->
        keypairs_list (world c) = (inl e, w') ->
        Instance.validate c
        = (Raise e, Ctx (self c) w' (calls c ++ [keypairs_list_call]))).
Proof.
  intros Hok. split; [|split].
  - intros msg Hkey. unfold Instance.validate. run. by rewrite Hok, Hkey.
  - intros key_name keypairs w' k Hkey Hlist Hin Hk.
    pose proof (existsb_keypair_true keypairs key_name k Hin Hk) as Hex.
    unfold Instance.validate. run. rewrite Hok, Hkey. simpl.
    run_calls. rewrite Hlist. simpl. by rewrite Hex.
  - intros key_name e w' Hkey Hlist.
    unfold Instance.validate. run. rewrite Hok, Hkey. simpl.
    run_calls. by rewrite Hlist.
Qed.

End ValidatePassFacts.

(** ** Instance: a delete that does not return *)

Section DeleteFailureFacts.
Context {W : Type} `{World W} `{Base}.

Lemma wait_deleted_self (fuel : nat) :
  forall (server : Server.t) (c : ctx W),
    self (Instance.wait_deleted fuel server c).2 = self c.
Proof.
  induction fuel as [|fuel IH]; intros server c; simpl; [reflexivity|].
  run. run_calls.
  destruct (server_get server (world c)) as [[e|server'] w1]; simpl.
  - by destruct (is_NotFound e).
  - destruct (eventlet_sleep 200 w1) as [[e|[]] w2]; simpl; [reflexivity|].
    by rewrite IH.
Qed.

(** X8.  Only a delete that returns clears the resource_id: when
    [handle_delete] raises, or is still waiting for the server to
    disappear, the resource is as it was before, so the delete can be asked
    again with the same id. *)
Theorem handle_delete_failure_keeps_resource (fuel : nat) (c : ctx W) :
  (Instance.handle_delete fuel c).1 <> Return tt ->
  self (Instance.handle_delete fuel c).2 = self c.
Proof.
  unfold Instance.handle_delete. run.
  destruct (resource_id (self c)) as [rid|]; [|done].
  run_calls.
  destruct (servers_get (Some rid) (world c)) as [[e|server] w1]; simpl.
  - destruct (is_NotFound e); simpl; done.
  - destruct (server_delete server w1) as [[e|[]] w2]; simpl; [done|].
    pose proof (wait_deleted_self fuel server
                  (Ctx (self c) w2
                     ((calls c ++ [servers_get_call (Some rid)]) ++
                      [server_delete_call (Server.id server)]))) as Hself.
    destruct (Instance.wait_deleted fuel server _) as [[[]|e|] c1];
      simpl in *; done.
Qed.

End DeleteFailureFacts.

(** ** Instance: images, flavors and tags *)

Section LookupFacts.

(** X9.  The loop that looks an image (or a flavor) up by its name has no
    [break]: among several objects of the name it is the last one whose id
    is taken, and no id is found exactly when no object has the name. *)
Theorem id_by_name_last_match {A} (obj_name obj_id : A -> string)
    (wanted : value) (l : list A) :
  (forall before o after,
     l = before ++ o :: after ->
     Py.eqb (VStr (obj_name o)) wanted = true ->
     (forall o', o' ∈ after -> Py.eqb (VStr (obj_name o')) wanted = false) ->
     Instance.id_by_name obj_name obj_id wanted l = Some (obj_id o))
  /\ (Instance.id_by_name obj_name obj_id wanted l = None <->
      forall o, o ∈ l -> Py.eqb (VStr (obj_name o)) wanted = false).
Proof.
  unfold Instance.id_by_name.
  assert (Hskip : forall (after : list A) (found : option string),
    (forall o', o' ∈ after -> Py.eqb (VStr (obj_name o')) wanted = false) ->
    foldl (fun found o =>
             if Py.eqb (VStr (obj_name o)) wanted then Some (obj_id o) else found)
          found after = found).
  { induction after as [|o after IH]; intros found Hno; cbn [foldl]; [reflexivity|].
    rewrite (Hno o) by apply list_elem_of_here.
    apply IH. intros o' Ho'. apply Hno. by apply list_elem_of_further. }
  split.
  - intros before o after -> Hyes Hno.
    rewrite foldl_app. cbn [foldl]. rewrite Hyes. by apply Hskip.
  - split.
    + intros Hnone. induction l as [|o l IH] using rev_ind.
      * intros o Ho. by apply not_elem_of_nil in Ho.
      * rewrite foldl_app in Hnone. cbn [foldl] in Hnone.
        destruct (Py.eqb (VStr (obj_name o)) wanted) eqn:Ho; [discriminate|].
        intros o' Ho'. apply elem_of_app in Ho' as [Ho'|Ho'].
        -- by apply IH.
        -- by apply list_elem_of_singleton in Ho' as ->.
    + intros Hno. by apply Hskip.
Qed.

Local Notation tag tm k v :=
  (Iter.subscript tm "Key" = inr (VStr k) /\ Iter.subscript tm "Value" = inr v).
Local Notation string_keyed d :=
  (Forall (fun kv : value * value => exists s, kv.1 = VStr s) d%list
   /\ NoDup (d%list).*1).

Lemma loop_app (l1 l2 : list value) :
  forall d0,
    Iter.key_value_loop (l1 ++ l2) d0
    = match Iter.key_value_loop l1 d0 with
      | inl e => inl e
      | inr d => Iter.key_value_loop l2 d
      end.
Proof.
  induction l1 as [|tm l1 IH]; intros d0; simpl; [reflexivity|].
  destruct (Iter.subscript tm "Value") as [e|v]; [reflexivity|].
  destruct (Iter.subscript tm "Key") as [e|k]; [reflexivity|].
  destruct (Iter.hashable k); [apply IH | reflexivity].
Qed.

(** An assignment under a string key, in a dictionary with string keys. *)
Lemma setitem_string_key (k : string) (v : value) (d : list (value * value)) :
  string_keyed d ->
  string_keyed (Iter.setitem (VStr k) v d)
  /\ (forall k' v', (VStr k', v') ∈ Iter.setitem (VStr k) v d <->
        (k' = k /\ v' = v) \/ (k' <> k /\ (VStr k', v') ∈ d)).
Proof.
  induction d as [|[k1 v1] d IH]; intros [Hkeys Hnodup]; simpl.
  - split; [split; [repeat constructor; by eexists | repeat constructor;
                     apply not_elem_of_nil]|].
    intros k' v'. rewrite list_elem_of_singleton. split.
    + intros [= -> ->]. by left.
    + intros [[-> ->]|[_ Hin]]; [reflexivity | by apply not_elem_of_nil in Hin].
  - inversion Hkeys as [|? ? [s Hs] Hkeys']; subst. simpl in Hs. subst k1.
    simpl in Hnodup. apply NoDup_cons in Hnodup as [Hfresh Hnodup].
    destruct (IH (conj Hkeys' Hnodup)) as [[Hkeys1 Hnodup1] Hmem].
    simpl. destruct (eqb_cases s k) as [[-> E]|[Hne E]]; rewrite E.
    + split; [split|].
      * constructor; [by eexists | exact Hkeys'].
      * simpl. by apply NoDup_cons.
      * intros k' v'. rewrite !elem_of_cons. split.
        -- intros [[= -> ->]|Hin]; [by left|]. right. split; [|by right].
           intros ->. apply Hfresh. apply list_elem_of_fmap.
           by exists (VStr k, v').
        -- intros [[-> ->]|[Hne' [[= ->]|Hin]]]; [by left | done | by right].
    + split; [split|].
      * constructor; [by eexists | exact Hkeys1].
      * simpl. apply NoDup_cons. split; [|exact Hnodup1].
        intros Hin. apply list_elem_of_fmap in Hin as ([k2 v2] & Hk2 & Hin).
        simpl in Hk2. subst k2. apply Hmem in Hin as [[-> _]|[_ Hin]]; [done|].
        apply Hfresh. apply list_elem_of_fmap. by exists (VStr s, v2).
      * intros k' v'. rewrite !elem_of_cons, Hmem. split.
        -- intros [[= -> ->]|[[-> ->]|[Hne' Hin]]];
             [right; split; [done | by left] | by left
             | right; split; [done | by right]].
        -- intros [[-> ->]|[Hne' [[= -> ->]|Hin]]];
             [right; by left | by left | right; right; by split].
Qed.

(** The loop over well-formed tags: it returns a dictionary with string
    keys, in which the keys that no tag carries are bound as before. *)
Lemma key_value_loop_string_keys (l : list value) :
  Forall (fun tm => exists k v, tag tm k v) l ->
  forall d0, string_keyed d0 ->
    exists d, Iter.key_value_loop l d0 = inr d
              /\ string_keyed d
              /\ (forall k v,
                    (forall tm v', tm ∈ l -> ~ tag tm k v') ->
                    ((VStr k, v) ∈ d <-> (VStr k, v) ∈ d0)).
Proof.
  induction 1 as [|tm l (k1 & v1 & Hk1 & Hv1) _ IH]; intros d0 Hd0; simpl.
  - exists d0. split; [reflexivity|]. split; [exact Hd0|]. by intros k v _.
  - rewrite Hv1, Hk1. simpl.
    destruct (setitem_string_key k1 v1 d0 Hd0) as [Hd1 Hmem].
    destruct (IH _ Hd1) as (d & Hrun & Hd & Hkeep).
    exists d. split; [exact Hrun|]. split; [exact Hd|].
    intros k v Hno. rewrite Hkeep, Hmem.
    + split; [intros [[-> ->]|[_ Hin]]; [|exact Hin] | ].
      * exfalso. by apply (Hno tm v1 (list_elem_of_here _ _)).
      * intros Hin. right. split; [|exact Hin]. intros ->.
        by apply (Hno tm v1 (list_elem_of_here _ _)).
    + intros tm' v' Hin. apply Hno. by apply list_elem_of_further.
Qed.

(** The loop over well-formed tags returns, whatever the dictionary it
    starts from. *)
Lemma key_value_loop_returns (l : list value) :
  Forall (fun tm => exists k v, tag tm k v) l ->
  forall d0, exists d, Iter.key_value_loop l d0 = inr d.
Proof.
  induction 1 as [|tm l (k1 & v1 & Hk1 & Hv1) _ IH]; intros d0; simpl.
  - by exists d0.
  - rewrite Hv1, Hk1. simpl. apply IH.
Qed.

(** X10.  The dictionary built from Tags (or NovaSchedulerHints) is None,
    not an empty one, when the property is None, empty or otherwise falsy.
    For a list of tags with string keys it is a dictionary in which a key
    is bound once, to the value of the last tag that carries the key.  The
    first tag that is not well formed ends the construction with an
    exception, and [tm['Value']] is read before [tm['Key']]: what reading
    Value raises is raised, also when reading Key would raise too; with a
    Value, what reading Key raises is raised; with both, a key that cannot
    be hashed raises a TypeError.  Whatever comes before such a tag, the
    loop returns no dictionary. *)
Theorem key_value_dict_last_tag :
  (forall p, Py.truthy p = false -> Iter.key_value_dict p = inr None)
  /\ (forall l1 tm l2 k v,
        Forall (fun tm' => exists k' v', tag tm' k' v') (l1 ++ tm :: l2) ->
        tag tm k v ->
        (forall tm' v', tm' ∈ l2 -> ~ tag tm' k v') ->
        exists d, Iter.key_value_dict (VList (l1 ++ tm :: l2)) = inr (Some d)
                  /\ (VStr k, v) ∈ d
                  /\ (forall v', (VStr k, v') ∈ d -> v' = v))
  /\ (forall l1 tm l2 e,
        Forall (fun tm' => exists k' v', tag tm' k' v') l1 ->
        (Iter.subscript tm "Value" = inl e
         \/ (exists v, Iter.subscript tm "Value" = inr v
                       /\ Iter.subscript tm "Key" = inl e)
         \/ (exists v k, Iter.subscript tm "Value" = inr v
                         /\ Iter.subscript tm "Key" = inr k
                         /\ Iter.hashable k = false /\ e = TypeError)) ->
        (forall d0, Iter.key_value_loop (l1 ++ tm :: l2) d0 = inl e)
        /\ Iter.key_value_dict (VList (l1 ++ tm :: l2)) = inl e)
  /\ (forall l1 tm l2 d0 e,
        (Iter.subscript tm "Value" = inl e
         \/ (exists v, Iter.subscript tm "Value" = inr v
                       /\ Iter.subscript tm "Key" = inl e)
         \/ (exists v k, Iter.subscript tm "Value" = inr v
                         /\ Iter.subscript tm "Key" = inr k
                         /\ Iter.hashable k = false)) ->
        forall d, Iter.key_value_loop (l1 ++ tm :: l2) d0 <> inr d).
Proof.
  assert (Hhere : forall tm l2 d0 e,
    (Iter.subscript tm "Value" = inl e
     \/ (exists v, Iter.subscript tm "Value" = inr v
                   /\ Iter.subscript tm "Key" = inl e)
     \/ (exists v k, Iter.subscript tm "Value" = inr v
                     /\ Iter.subscript tm "Key" = inr k
                     /\ Iter.hashable k = false /\ e = TypeError)) ->
    Iter.key_value_loop (tm :: l2) d0 = inl e).
  { intros tm l2 d0 e [Hv|[(v & Hv & Hk)|(v & k & Hv & Hk & Hh & ->)]]; simpl.
    - by rewrite Hv.
    - by rewrite Hv, Hk.
    - by rewrite Hv, Hk, Hh. }
  split; [|split; [|split]].
  - intros p Hp. unfold Iter.key_value_dict. by rewrite Hp.
  - intros l1 tm l2 k v Hwf [Hk Hv] Hlast.
    apply Forall_app in Hwf as [Hwf1 Hwf2].
    apply Forall_cons in Hwf2 as [_ Hwf2].
    assert (Hempty : string_keyed ([] : list (value * value)))
      by (split; constructor).
    destruct (key_value_loop_string_keys l1 Hwf1 [] Hempty)
      as (d1 & Hrun1 & Hd1 & _).
    destruct (setitem_string_key k v d1 Hd1) as [Hd2 Hmem].
    destruct (key_value_loop_string_keys l2 Hwf2 _ Hd2)
      as (d & Hrun2 & [Hkeys Hnodup] & Hkeep).
    exists d. split; [|split].
    + unfold Iter.key_value_dict.
      assert (Py.truthy (VList (l1 ++ tm :: l2)) = true) as ->
        by (by destruct l1).
      simpl. rewrite loop_app, Hrun1. simpl. rewrite Hv, Hk. simpl.
      by rewrite Hrun2.
    + apply Hkeep; [exact Hlast|]. apply Hmem. by left.
    + intros v' Hin. apply Hkeep in Hin; [|exact Hlast].
      apply Hmem in Hin as [[_ ->]|[Hne _]]; done.
  - intros l1 tm l2 e Hwf Hbad.
    assert (Hloop : forall d0, Iter.key_value_loop (l1 ++ tm :: l2) d0 = inl e).
    { intros d0. rewrite loop_app.
      destruct (key_value_loop_returns l1 Hwf d0) as [d1 ->].
      by apply Hhere. }
    split; [exact Hloop|].
    unfold Iter.key_value_dict.
    assert (Py.truthy (VList (l1 ++ tm :: l2)) = true) as ->
      by (by destruct l1).
    simpl. by rewrite Hloop.
  - intros l1 tm l2 d0 e Hbad. revert d0.
    induction l1 as [|tm1 l1 IH]; intros d0 d.
    + simpl app.
      destruct Hbad as [Hv|[(v & Hv & Hk)|(v & k & Hv & Hk & Hh)]].
      * rewrite (Hhere tm l2 d0 e); [discriminate | by left].
      * rewrite (Hhere tm l2 d0 e); [discriminate | right; left; by exists v].
      * rewrite (Hhere tm l2 d0 TypeError); [discriminate|].
        right; right. by exists v, k.
    + simpl.
      destruct (Iter.subscript tm1 "Value") as [e1|v]; [discriminate|].
      destruct (Iter.subscript tm1 "Key") as [e1|k]; [discriminate|].
      destruct (Iter.hashable k); [apply IH | discriminate].
Qed.

End LookupFacts.

(** * Further properties of the ReST layer *)

(** ** What create and update hand to the engine *)

Section EngineArgumentFacts.
Variable template_format_parse : value -> exn + value.
Variable urlfetch_get : value -> exn + value.
Variable engine : Stacks.engine_call -> exn + list (string * value).
Variable remote_error : exn -> exn + value.
Variable make_url : list (string * value) -> string.

Local Notation template := (Stacks.template template_format_parse urlfetch_get).
Local Notation create :=
  (Stacks.create template_format_parse urlfetch_get engine remote_error make_url).
Local Notation update :=
  (Stacks.update template_format_parse urlfetch_get engine remote_error).

Lemma args_lookup (data : gmap string value) (k : string) (v : value) :
  Stacks.args data !! k = Some v <-> data !! k = Some v /\ k ∉ Stacks.PARAMS.
Proof. unfold Stacks.args. by rewrite map_lookup_filter_Some. Qed.

(** X11.  With a stack name and a template, [create] calls the engine
    once: with that name, that template, the parameters member of the body
    ([{}] when it has none) and, as further arguments, exactly the members
    of the body other than stack_name, template, template_url and
    parameters.  [update] does the same with the identity it is given. *)
Theorem create_engine_arguments (body : gmap string value)
    (name tmpl identity : value) :
  body !! Stacks.PARAM_STACK_NAME = Some name ->
  template body = inr tmpl ->
  exists further,
    (create body).1
    = [Stacks.create_stack name tmpl
         (default (VDict []) (body !! Stacks.PARAM_USER_PARAMS)) further]
    /\ (update identity body).1
       = [Stacks.update_stack identity tmpl
            (default (VDict []) (body !! Stacks.PARAM_USER_PARAMS)) further]
    /\ (forall k v, further !! k = Some v <->
          body !! k = Some v
          /\ k ∉ ["stack_name"; "template"; "template_url"; "parameters"]).
Proof.
  intros Hname Htmpl. exists (Stacks.args body). split; [|split].
  - unfold Stacks.create, Stacks.create_attempt, Stacks.stack_name.
    by rewrite Hname, Htmpl.
  - unfold Stacks.update, Stacks.update_attempt. by rewrite Htmpl.
  - apply args_lookup.
Qed.

(** X12.  [create] looks for the stack name before it touches the
    template: a body without a stack name is rejected for that, whatever
    its template members are.  Neither [create] nor [update] ever returns
    a body of its own: what they return is what [util.remote_error]
    returned for a remote error, and every other outcome is an exception
    (201 Created and 202 Accepted among them).  They call the engine at
    most once. *)
Theorem create_never_returns (body : gmap string value) (identity : value) :
  (body !! Stacks.PARAM_STACK_NAME = None ->
   create body = ([], inl (HTTPBadRequest (VStr "No stack name specified"))))
  /\ (forall v, (create body).2 = inr v ->
        exists d, remote_error (RemoteError d) = inr v)
  /\ (forall v, (update identity body).2 = inr v ->
        exists d, remote_error (RemoteError d) = inr v)
  /\ length (create body).1 <= 1
  /\ length (update identity body).1 <= 1.
Proof.
  assert (Hexcept : forall (r : exn + list (string * value)) orelse v,
    (forall a, exists e, orelse a = inl e) ->
    Stacks.except_remote_error remote_error r orelse = inr v ->
    exists d, remote_error (RemoteError d) = inr v).
  { intros r orelse v Hraise. unfold Stacks.except_remote_error.
    destruct r as [e|a].
    - destruct e; try discriminate. intros Hv. by eexists.
    - destruct (Hraise a) as [e ->]. discriminate. }
  split; [|split; [|split; [|split]]].
  - intros Hname. unfold Stacks.create, Stacks.create_attempt, Stacks.stack_name.
    by rewrite Hname.
  - intros v. unfold Stacks.create. simpl. apply Hexcept.
    intros result. destruct (Py.items_get "Description" result); by eexists.
  - intros v. unfold Stacks.update. simpl. apply Hexcept.
    intros res. destruct (Py.items_get "Description" res); by eexists.
  - unfold Stacks.create, Stacks.create_attempt. simpl.
    destruct (Stacks.stack_name body); simpl; [lia|].
    destruct (template body); simpl; lia.
  - unfold Stacks.update, Stacks.update_attempt. simpl.
    destruct (template body); simpl; lia.
Qed.

End EngineArgumentFacts.

(** ** Comprehensions *)

Section ComprehensionFacts.
Context {A B : Type}.

(** A comprehension returns exactly when each element gives its result. *)
Lemma comprehension_returns (f : A -> exn + B) (l : list A) (ys : list B) :
  Iter.comprehension f l = inr ys <-> Forall2 (fun x y => f x = inr y) l ys.
Proof.
  revert ys. induction l as [|x l IH]; intros ys; simpl.
  - split; [intros [= <-]; constructor | by inversion 1].
  - destruct (f x) as [e|y] eqn:Hx.
    + split; [discriminate|]. inversion 1; congruence.
    + destruct (Iter.comprehension f l) as [e|ys'] eqn:Hl.
      * split; [discriminate|]. inversion 1 as [|? ? ? ys'' ? Hrest]; subst.
        apply IH in Hrest. discriminate.
      * split.
        -- intros [= <-]. constructor; [exact Hx | by apply IH].
        -- inversion 1 as [|? y' ? ys'' Hy Hrest]; subst.
           apply IH in Hrest. congruence.
Qed.

(** It raises exactly what its first failing element raises. *)
Lemma comprehension_raises (f : A -> exn + B) (l : list A) (e : exn) :
  Iter.comprehension f l = inl e <->
  exists l1 x l2, l = l1 ++ x :: l2
                  /\ Forall (fun x' => exists y, f x' = inr y) l1
                  /\ f x = inl e.
Proof.
  induction l as [|x l IH]; simpl.
  - split; [discriminate|]. intros (l1 & x & l2 & Hl & _). by destruct l1.
  - destruct (f x) as [e'|y] eqn:Hx.
    + split.
      * intros [= ->]. by exists [], x, l.
      * intros ([|x1 l1] & x' & l2 & Hl & Hok & Hbad); simpl in Hl.
        -- injection Hl as <- <-. congruence.
        -- injection Hl as <- ->. inversion Hok as [|? ? [y Hy] _]; congruence.
    + destruct (Iter.comprehension f l) as [e'|ys] eqn:Hl.
      * split.
        -- intros [= ->]. destruct (proj1 IH eq_refl) as (l1 & x' & l2 & -> & Hok & Hbad).
           exists (x :: l1), x', l2. split; [reflexivity|].
           split; [constructor; by eauto | exact Hbad].
        -- intros ([|x1 l1] & x' & l2 & Hl' & Hok & Hbad); simpl in Hl'.
           ++ injection Hl' as <- <-. congruence.
           ++ injection Hl' as <- ->. inversion Hok; subst.
              apply IH. by exists l1, x', l2.
      * split; [discriminate|].
        intros ([|x1 l1] & x' & l2 & Hl' & Hok & Hbad); simpl in Hl'.
        -- injection Hl' as <- <-. congruence.
        -- injection Hl' as <- ->. inversion Hok; subst.
           assert (inr ys = inl e) by (apply IH; by exists l1, x', l2).
           discriminate.
Qed.

End ComprehensionFacts.

(** ** The stack view *)

Section StackViewFacts.
Variable STACK_ID : string.
Variable Request : Type.
Variable make_link : Request -> value -> option string -> value.

Local Notation transform := (StackController.transform STACK_ID Request make_link).
Local Notation chain_transform :=
  (StackController.chain_transform STACK_ID Request make_link).
Local Notation format_stack :=
  (StackController.format_stack STACK_ID Request make_link).
Local Notation include_key := StackController.include_key.

(** Every pair of the chain is an included item under another key than
    the identity, or the id or the links made from an included identity. *)
Lemma stack_chain_pairs (req : Request) (keys : list string)
    (items : list (string * value)) :
  forall ps, chain_transform req keys items = inr ps ->
  forall k v, (k, v) ∈ ps ->
    ((k, v) ∈ items /\ k <> STACK_ID /\ include_key keys k = true)
    \/ (exists idv, (STACK_ID, idv) ∈ items /\ include_key keys STACK_ID = true
          /\ ((k = "id" /\ Iter.subscript idv "stack_id" = inr v)
              \/ (k = "links" /\ v = VList [make_link req idv None]))).
Proof.
  induction items as [|[k1 v1] items IH]; intros ps Hps k v Hin; simpl in Hps.
  - injection Hps as <-. by apply not_elem_of_nil in Hin.
  - destruct (transform req keys k1 v1) as [e|qs] eqn:Ht; [discriminate|].
    destruct (chain_transform req keys items) as [e|rs] eqn:Hc; [discriminate|].
    injection Hps as <-. apply elem_of_app in Hin as [Hin|Hin].
    + unfold StackController.transform in Ht.
      destruct (include_key keys k1) eqn:Hinc; simpl in Ht.
      2:{ injection Ht as <-. by apply not_elem_of_nil in Hin. }
      destruct (eqb_cases k1 STACK_ID) as [[-> E1]|[N1 E1]]; rewrite E1 in Ht.
      * destruct (Iter.subscript v1 "stack_id") as [e|i] eqn:Hi; [discriminate|].
        injection Ht as <-. right. exists v1.
        split; [apply list_elem_of_here|]. split; [exact Hinc|].
        apply elem_of_cons in Hin as [[= -> ->]|Hin]; [by left|].
        apply list_elem_of_singleton in Hin as [= -> ->]. by right.
      * injection Ht as <-. apply list_elem_of_singleton in Hin as [= -> ->].
        left. split; [apply list_elem_of_here | by split].
    + destruct (IH rs eq_refl k v Hin) as [(Hi & Hne & Hinc)|(idv & Hi & Hrest)].
      * left. split; [by apply list_elem_of_further | by split].
      * right. exists idv. split; [by apply list_elem_of_further | exact Hrest].
Qed.

(** The chain is complete unless an included identity has no stack_id;
    then the chain raises what the subscript raises. *)
Lemma stack_chain_complete (req : Request) (keys : list string)
    (items : list (string * value)) :
  (forall idv idv', (STACK_ID, idv) ∈ items -> (STACK_ID, idv') ∈ items ->
     idv = idv') ->
  match chain_transform req keys items with
  | inl e =>
      exists idv, (STACK_ID, idv) ∈ items /\ include_key keys STACK_ID = true
                  /\ Iter.subscript idv "stack_id" = inl e
  | inr ps =>
      (forall idv i, (STACK_ID, idv) ∈ items -> include_key keys STACK_ID = true ->
         Iter.subscript idv "stack_id" = inr i ->
         ("id", i) ∈ ps /\ ("links", VList [make_link req idv None]) ∈ ps)
      /\ (forall k v, (k, v) ∈ items -> k <> STACK_ID ->
            include_key keys k = true -> (k, v) ∈ ps)
      /\ (forall idv, (STACK_ID, idv) ∈ items -> include_key keys STACK_ID = true ->
            exists i, Iter.subscript idv "stack_id" = inr i)
  end.
Proof.
  induction items as [|[k1 v1] items IH]; intros Huniq; simpl.
  - repeat split; intros; by apply not_elem_of_nil in H.
  - assert (Huniq' : forall idv idv', (STACK_ID, idv) ∈ items ->
              (STACK_ID, idv') ∈ items -> idv = idv').
    { intros idv idv' Hi Hi'. apply Huniq; by apply list_elem_of_further. }
    specialize (IH Huniq').
    unfold StackController.transform.
    destruct (include_key keys k1) eqn:Hinc; simpl.
    + destruct (eqb_cases k1 STACK_ID) as [[-> E1]|[N1 E1]]; rewrite E1.
      * destruct (Iter.subscript v1 "stack_id") as [e|i] eqn:Hi.
        { exists v1. split; [apply list_elem_of_here | by split]. }
        destruct (chain_transform req keys items) as [e|rs].
        { destruct IH as (idv & Hin & _ & Hsub).
          assert (idv = v1) as ->
            by (apply Huniq; [by apply list_elem_of_further | apply list_elem_of_here]).
          congruence. }
        destruct IH as (Hids & Hpass & Hok). split; [|split].
        -- intros idv i' Hin _ Hi'.
           assert (idv = v1) as ->
             by (apply Huniq; [exact Hin | apply list_elem_of_here]).
           rewrite Hi in Hi'. injection Hi' as <-.
           split; [apply list_elem_of_here|].
           apply list_elem_of_further, list_elem_of_here.
        -- intros k v Hin Hne Hk. apply elem_of_cons in Hin as [[= -> ->]|Hin];
             [done|]. do 2 apply list_elem_of_further. by apply Hpass.
        -- intros idv Hin _.
           assert (idv = v1) as ->
             by (apply Huniq; [exact Hin | apply list_elem_of_here]).
           by exists i.
      * destruct (chain_transform req keys items) as [e|rs].
        { destruct IH as (idv & Hin & Hrest). exists idv.
          split; [by apply list_elem_of_further | exact Hrest]. }
        destruct IH as (Hids & Hpass & Hok). split; [|split].
        -- intros idv i Hin Hk Hi. apply elem_of_cons in Hin as [[= <-]|Hin];
             [done|]. destruct (Hids idv i Hin Hk Hi).
           split; by apply list_elem_of_further.
        -- intros k v Hin Hne Hk. apply elem_of_cons in Hin as [[= -> ->]|Hin];
             [apply list_elem_of_here|]. apply list_elem_of_further. by apply Hpass.
        -- intros idv Hin Hk. apply elem_of_cons in Hin as [[= <-]|Hin];
             [done|]. by apply Hok.
    + destruct (chain_transform req keys items) as [e|rs].
      { destruct IH as (idv & Hin & Hrest). exists idv.
        split; [by apply list_elem_of_further | exact Hrest]. }
      destruct IH as (Hids & Hpass & Hok). split; [|split].
      * intros idv i Hin Hk Hi. apply elem_of_cons in Hin as [[= <- <-]|Hin];
          [congruence|]. by apply Hids.
      * intros k v Hin Hne Hk. apply elem_of_cons in Hin as [[= -> ->]|Hin];
          [congruence|]. by apply Hpass.
      * intros idv Hin Hk. apply elem_of_cons in Hin as [[= <- <-]|Hin];
          [congruence|]. by apply Hok.
Qed.

Lemma map_to_list_functional (m : gmap string value) (k : string) (v v' : value) :
  (k, v) ∈ map_to_list m -> (k, v') ∈ map_to_list m -> v = v'.
Proof. rewrite !elem_of_map_to_list. congruence. Qed.

(** X13.  Every member of a stack view is a member of the stack record
    that the key filter lets through and that is not the identity, or the
    id or the links made from the record's identity.  The view fails as a
    whole exactly when the identity is let through and holds no stack_id,
    with the error of that subscript.  When the identity is let through and
    holds a stack_id, and the record has no members called id and links of
    its own, the view holds that stack_id under id and the link of the
    identity under links. *)
Theorem format_stack_members (req : Request) (stack : gmap string value)
    (keys : list string) :
  (forall view, format_stack req stack keys = inr view ->
     forall k v, view !! k = Some v ->
       (stack !! k = Some v /\ k <> STACK_ID /\ include_key keys k = true)
       \/ (exists idv, stack !! STACK_ID = Some idv
             /\ include_key keys STACK_ID = true
             /\ ((k = "id" /\ Iter.subscript idv "stack_id" = inr v)
                 \/ (k = "links" /\ v = VList [make_link req idv None]))))
  /\ (forall e, format_stack req stack keys = inl e <->
        exists idv, stack !! STACK_ID = Some idv
                    /\ include_key keys STACK_ID = true
                    /\ Iter.subscript idv "stack_id" = inl e)
  /\ (forall idv i,
        stack !! STACK_ID = Some idv -> include_key keys STACK_ID = true ->
        Iter.subscript idv "stack_id" = inr i ->
        stack !! "id" = None -> stack !! "links" = None ->
        exists view, format_stack req stack keys = inr view
                     /\ view !! "id" = Some i
                     /\ view !! "links" = Some (VList [make_link req idv None])).
Proof.
  unfold StackController.format_stack.
  pose proof (stack_chain_complete req keys (map_to_list stack)
                (fun idv idv' => map_to_list_functional stack STACK_ID idv idv'))
    as Hcomplete.
  pose proof (stack_chain_pairs req keys (map_to_list stack)) as Hpairs.
  destruct (chain_transform req keys (map_to_list stack)) as [e0|ps].
  - destruct Hcomplete as (idv0 & Hin0%elem_of_map_to_list & Hinc0 & Hsub0).
    split; [discriminate|]. split.
    + intros e. split.
      * intros [= <-]. by exists idv0.
      * intros (idv & Hid & _ & Hsub). congruence.
    + intros idv i Hid _ Hsub. congruence.
  - destruct Hcomplete as (Hids & Hpass & Hok). split; [|split].
    + intros view [= <-] k v Hk. apply dict_of_pairs_lookup in Hk.
      destruct (Hpairs ps eq_refl k v Hk) as [(Hi & Hne & Hinc)|(idv & Hi & Hrest)].
      * left. by apply elem_of_map_to_list in Hi.
      * right. exists idv. by apply elem_of_map_to_list in Hi.
    + intros e. split; [discriminate|].
      intros (idv & Hid%elem_of_map_to_list & Hinc & Hsub).
      destruct (Hok idv Hid Hinc) as [i Hi]. congruence.
    + intros idv i Hid Hinc Hsub Hnoid Hnolinks.
      apply elem_of_map_to_list in Hid.
      destruct (Hids idv i Hid Hinc Hsub) as [Hidp Hlinksp].
      eexists. split; [reflexivity|].
      assert (Hown : forall k v', (k = "id" \/ k = "links") -> (k, v') ∈ ps ->
                (k = "id" -> v' = i)
                /\ (k = "links" -> v' = VList [make_link req idv None])).
      { intros k v' Hk Hin.
        destruct (Hpairs ps eq_refl k v' Hin)
          as [(Hi%elem_of_map_to_list & _)|(idv' & Hi & _ & Hcase)].
        - destruct Hk as [->| ->]; congruence.
        - assert (idv' = idv) as -> by (by eapply map_to_list_functional).
          destruct Hcase as [[-> Hs]|[-> ->]]; split; congruence. }
      split; apply dict_of_pairs_unique; try assumption.
      * intros v' Hin. by apply (Hown "id" v' (or_introl eq_refl) Hin).
      * intros v' Hin. by apply (Hown "links" v' (or_intror eq_refl) Hin).
Qed.

End StackViewFacts.

(** ** The resource view under a key filter, and the listings *)

Section ResourceViewFacts.
Variables RES_ID RES_STACK_NAME RES_STACK_ID RES_METADATA : string.
Variables Request Identifier : Type.
Variable ResourceIdentifier : value -> exn + Identifier.
Variable identity_stack : Identifier -> Identifier.
Variable make_link : Request -> Identifier -> option string -> value.

Local Notation chain_transform :=
  (Resources.chain_transform RES_ID RES_STACK_NAME RES_STACK_ID RES_METADATA
     Request Identifier ResourceIdentifier identity_stack make_link).
Local Notation format_resource :=
  (Resources.format_resource RES_ID RES_STACK_NAME RES_STACK_ID RES_METADATA
     Request Identifier ResourceIdentifier identity_stack make_link).
Local Notation include_key := Resources.include_key.
Local Notation links req identity :=
  (VList [make_link req identity None;
          make_link req (identity_stack identity) (Some "stack")]).
Local Notation raw k :=
  (k = RES_ID \/ k = RES_STACK_NAME \/ k = RES_STACK_ID \/ k = RES_METADATA).

(** The pairs of the chain, and its failure, under any key filter. *)
Lemma resource_chain_outcome (req : Request) (keys : list string)
    (items : list (string * value)) :
  (forall v0 v0', (RES_ID, v0) ∈ items -> (RES_ID, v0') ∈ items -> v0 = v0') ->
  match chain_transform req keys items with
  | inl e =>
      exists v0, (RES_ID, v0) ∈ items /\ include_key keys RES_ID = true
                 /\ ResourceIdentifier v0 = inl e
  | inr ps =>
      (forall k v, (k, v) ∈ ps ->
         ((k, v) ∈ items /\ ~ raw k /\ include_key keys k = true)
         \/ (k = "links" /\ include_key keys RES_ID = true
             /\ exists v0 identity,
                  (RES_ID, v0) ∈ items /\ ResourceIdentifier v0 = inr identity
                  /\ v = links req identity))
      /\ (forall v0, (RES_ID, v0) ∈ items -> include_key keys RES_ID = true ->
            exists identity, ResourceIdentifier v0 = inr identity)
  end.
Proof.
  induction items as [|[k1 v1] items IH]; intros Huniq; simpl.
  - split; [intros k v Hin | intros v0 Hin]; by apply not_elem_of_nil in Hin.
  - assert (Huniq' : forall v0 v0', (RES_ID, v0) ∈ items ->
              (RES_ID, v0') ∈ items -> v0 = v0').
    { intros v0 v0' Hi Hi'. apply Huniq; by apply list_elem_of_further. }
    specialize (IH Huniq').
    assert (Hskip : match chain_transform req keys items with
      | inl e => exists v0, (RES_ID, v0) ∈ (k1, v1) :: items
                   /\ include_key keys RES_ID = true
                   /\ ResourceIdentifier v0 = inl e
      | inr ps =>
        forall qs,
          (forall k v, (k, v) ∈ qs ->
             (k, v) = (k1, v1) /\ ~ raw k /\ include_key keys k = true) ->
          (k1 = RES_ID -> include_key keys RES_ID = false) ->
          (forall k v, (k, v) ∈ qs ++ ps ->
             ((k, v) ∈ (k1, v1) :: items /\ ~ raw k /\ include_key keys k = true)
             \/ (k = "links" /\ include_key keys RES_ID = true
                 /\ exists v0 identity,
                      (RES_ID, v0) ∈ (k1, v1) :: items
                      /\ ResourceIdentifier v0 = inr identity
                      /\ v = links req identity))
          /\ (forall v0, (RES_ID, v0) ∈ (k1, v1) :: items ->
                include_key keys RES_ID = true ->
                exists identity, ResourceIdentifier v0 = inr identity)
      end).
    { destruct (chain_transform req keys items) as [e|ps].
      - destruct IH as (v0 & Hin & Hrest). exists v0.
        split; [by apply list_elem_of_further | exact Hrest].
      - destruct IH as [Hpairs Hok]. intros qs Hqs Hno. split.
        + intros k v Hin. apply elem_of_app in Hin as [Hin|Hin].
          * destruct (Hqs k v Hin) as ([= -> ->] & Hraw & Hinc).
            left. split; [apply list_elem_of_here | by split].
          * destruct (Hpairs k v Hin)
              as [(Hi & Hrest)|(-> & Hinc & v0 & i & Hi & Hrest)].
            -- left. split; [by apply list_elem_of_further | exact Hrest].
            -- right. split; [reflexivity|]. split; [exact Hinc|].
               exists v0, i. split; [by apply list_elem_of_further | exact Hrest].
        + intros v0 Hin Hinc. apply elem_of_cons in Hin as [[= <- <-]|Hin].
          * rewrite Hno in Hinc by reflexivity. discriminate.
          * by apply Hok. }
    unfold Resources.transform.
    destruct (include_key keys k1) eqn:Hinc; simpl.
    2:{ destruct (chain_transform req keys items) as [e|ps]; [exact Hskip|].
        apply (Hskip []); [|by intros ->].
        intros k v Hin. by apply not_elem_of_nil in Hin. }
    destruct (eqb_cases k1 RES_ID) as [[-> E1]|[N1 E1]]; rewrite E1.
    { destruct (ResourceIdentifier v1) as [e|i] eqn:Hi.
      { exists v1. split; [apply list_elem_of_here | by split]. }
      destruct (chain_transform req keys items) as [e|ps].
      { destruct IH as (v0 & Hin & _ & Hbad).
        assert (v0 = v1) as ->
          by (apply Huniq; [by apply list_elem_of_further | apply list_elem_of_here]).
        congruence. }
      destruct IH as [Hpairs Hok]. split.
      - intros k v Hin. apply elem_of_cons in Hin as [[= -> ->]|Hin].
        + right. split; [reflexivity|]. split; [exact Hinc|].
          exists v1, i. split; [apply list_elem_of_here | by split].
        + destruct (Hpairs k v Hin)
            as [(Hi' & Hrest)|(-> & Hinc' & v0 & i' & Hi' & Hrest)].
          * left. split; [by apply list_elem_of_further | exact Hrest].
          * right. split; [reflexivity|]. split; [exact Hinc|].
            exists v0, i'. split; [by apply list_elem_of_further | exact Hrest].
      - intros v0 Hin _.
        assert (v0 = v1) as ->
          by (apply Huniq; [exact Hin | apply list_elem_of_here]).
        by exists i. }
    destruct (eqb_cases k1 RES_STACK_NAME) as [[-> E2]|[N2 E2]]; rewrite E2;
      simpl.
    { destruct (chain_transform req keys items) as [e|ps]; [exact Hskip|].
      apply (Hskip []); [|done].
      intros k v Hin. by apply not_elem_of_nil in Hin. }
    destruct (eqb_cases k1 RES_STACK_ID) as [[-> E3]|[N3 E3]]; rewrite E3;
      simpl.
    { destruct (chain_transform req keys items) as [e|ps]; [exact Hskip|].
      apply (Hskip []); [|done].
      intros k v Hin. by apply not_elem_of_nil in Hin. }
    destruct (eqb_cases k1 RES_METADATA) as [[-> E4]|[N4 E4]]; rewrite E4;
      simpl.
    { destruct (chain_transform req keys items) as [e|ps]; [exact Hskip|].
      apply (Hskip []); [|done].
      intros k v Hin. by apply not_elem_of_nil in Hin. }
    destruct (chain_transform req keys items) as [e|ps]; [exact Hskip|].
    apply (Hskip [(k1, v1)]); [|done].
    intros k v [= -> ->]%list_elem_of_singleton.
    split; [reflexivity|]. split; [tauto | exact Hinc].
Qed.

(** X14.  Under any key filter, every member of a resource view is a
    member of the record that the filter lets through and whose key is none
    of the four (identity, stack name, stack id, metadata), or it is the
    links made from the record's identity, which the filter let through.
    The view fails as a whole exactly when the identity is let through and
    is malformed, with the error of the identifier. *)
Theorem format_resource_members (req : Request) (stack : gmap string value)
    (keys : list string) :
  (forall view, format_resource req stack keys = inr view ->
     forall k v, view !! k = Some v ->
       (stack !! k = Some v /\ ~ raw k /\ include_key keys k = true)
       \/ (k = "links" /\ include_key keys RES_ID = true
           /\ exists v0 identity,
                stack !! RES_ID = Some v0 /\ ResourceIdentifier v0 = inr identity
                /\ v = links req identity))
  /\ (forall e, format_resource req stack keys = inl e <->
        exists v0, stack !! RES_ID = Some v0 /\ include_key keys RES_ID = true
                   /\ ResourceIdentifier v0 = inl e).
Proof.
  unfold Resources.format_resource, Resources.format_resource_items.
  pose proof (resource_chain_outcome req keys (map_to_list stack)
                (fun v0 v0' => map_to_list_functional stack RES_ID v0 v0'))
    as Hout.
  destruct (chain_transform req keys (map_to_list stack)) as [e0|ps].
  - destruct Hout as (v0 & Hin%elem_of_map_to_list & Hinc & Hbad).
    split; [discriminate|]. intros e. split.
    + intros [= <-]. by exists v0.
    + intros (v0' & Hid & _ & Hbad'). congruence.
  - destruct Hout as [Hpairs Hok]. split.
    + intros view [= <-] k v Hk. apply dict_of_pairs_lookup in Hk.
      destruct (Hpairs k v Hk)
        as [(Hi%elem_of_map_to_list & Hrest)|(-> & Hinc & v0 & i & Hi%elem_of_map_to_list & Hrest)].
      * by left.
      * right. split; [reflexivity|]. split; [exact Hinc|]. by exists v0, i.
    + intros e. split; [discriminate|].
      intros (v0 & Hid%elem_of_map_to_list & Hinc & Hbad).
      destruct (Hok v0 Hid Hinc) as [i Hi]. congruence.
Qed.

End ResourceViewFacts.

Section ResourceListingFacts.
Variables RES_ID RES_STACK_NAME RES_STACK_ID RES_METADATA : string.
Variables Request Identifier : Type.
Variable ResourceIdentifier : value -> exn + Identifier.
Variable identity_stack : Identifier -> Identifier.
Variable make_link : Request -> Identifier -> option string -> value.
Variable remote_error : exn -> exn + value.

Local Notation format_resource :=
  (ResourceController.format_resource RES_ID RES_STACK_NAME RES_STACK_ID
     RES_METADATA Request Identifier ResourceIdentifier identity_stack make_link).
Local Notation raw k :=
  (k = RES_ID \/ k = RES_STACK_NAME \/ k = RES_STACK_ID \/ k = RES_METADATA).

(** A view has no member under one of the four keys, but for links. *)
Lemma resource_view_no_raw (req : Request) (res view : gmap string value)
    (k : string) :
  format_resource req res = inr view -> raw k -> k <> "links" ->
  view !! k = None.
Proof.
  unfold ResourceController.format_resource, Resources.format_resource,
    Resources.format_resource_items.
  pose proof (resource_chain_outcome RES_ID RES_STACK_NAME RES_STACK_ID
                RES_METADATA Request Identifier ResourceIdentifier
                identity_stack make_link req [] (map_to_list res)
                (fun v0 v0' => map_to_list_functional res RES_ID v0 v0'))
    as Hout.
  destruct (Resources.chain_transform _ _ _ _ _ _ _ _ _ req [] (map_to_list res))
    as [e|ps]; [discriminate|].
  destruct Hout as [Hpairs _]. intros [= <-] Hraw Hne.
  destruct (Py.dict_of_pairs ps !! k) as [v|] eqn:Hk; [|reflexivity].
  apply dict_of_pairs_lookup in Hk.
  destruct (Hpairs k v Hk) as [(_ & Hn & _)|(-> & _)]; [tauto | done].
Qed.

Section Index.
Variable engine_list_stack_resources : value -> exn + list (gmap string value).

Local Notation index :=
  (ResourceController.index RES_ID RES_STACK_NAME RES_STACK_ID RES_METADATA
     Request Identifier ResourceIdentifier identity_stack make_link
     engine_list_stack_resources remote_error).

(** X15.  The listing of the resources of a stack holds one view per
    record of the engine, in the order of the records, and none of the
    views has a stack-name, stack-id or metadata member.  The listing fails
    as a whole when one record cannot be formatted: it raises what the
    first such record raises. *)
Theorem resource_index_views (req : Request) (identity : value)
    (res_list : list (gmap string value)) :
  engine_list_stack_resources identity = inr res_list ->
  RES_STACK_NAME <> "links" -> RES_STACK_ID <> "links" ->
  RES_METADATA <> "links" ->
  (forall body, (index req identity).2 = inr body ->
     exists views,
       body = VDict [("resources",
                      VList (map ResourceController.dict_value views))]
       /\ Forall2 (fun res view => format_resource req res = inr view)
                  res_list views
       /\ Forall (fun view : gmap string value =>
                    view !! RES_STACK_NAME = None
                    /\ view !! RES_STACK_ID = None
                    /\ view !! RES_METADATA = None) views)
  /\ (forall e, (index req identity).2 = inl e <->
        exists before res after,
          res_list = before ++ res :: after
          /\ Forall (fun r => exists view, format_resource req r = inr view) before
          /\ format_resource req res = inl e).
Proof.
  intros Hengine Hname Hsid Hmeta. unfold ResourceController.index. simpl.
  rewrite Hengine. unfold ResourceController.format_all.
  pose proof (comprehension_returns (format_resource req) res_list) as Hret.
  pose proof (comprehension_raises (format_resource req) res_list) as Hraise.
  destruct (Iter.comprehension (format_resource req) res_list) as [e0|views].
  - split; [discriminate|]. intros e. rewrite <- Hraise.
    split; congruence.
  - split.
    + intros body [= <-]. exists views. split; [reflexivity|].
      pose proof (proj1 (Hret views) eq_refl) as Hall. split; [exact Hall|].
      clear Hret Hraise Hengine.
      induction Hall as [|res view ? ? Hview _ IH]; [constructor|].
      constructor; [|exact IH].
      repeat split; eapply resource_view_no_raw; eauto.
    + intros e. rewrite <- Hraise. split; discriminate.
Qed.

End Index.

Section Show.
Variable engine_describe_stack_resource : value -> value -> exn + gmap string value.

Local Notation show :=
  (ResourceController.show RES_ID RES_STACK_NAME RES_STACK_ID RES_METADATA
     Request Identifier ResourceIdentifier identity_stack make_link
     engine_describe_stack_resource remote_error).
Local Notation metadata :=
  (ResourceController.metadata RES_METADATA Request
     engine_describe_stack_resource remote_error).

(** X16.  For one record of the engine, [show] and [metadata] make the
    same single call.  [metadata] returns the metadata member of the
    record and nothing else, and raises a key error when the record has
    none; the view that [show] returns has no metadata member. *)
Theorem show_hides_metadata (req : Request) (identity resource_name : value)
    (res : gmap string value) :
  engine_describe_stack_resource identity resource_name = inr res ->
  RES_METADATA <> "links" ->
  (show req identity resource_name).1 = (metadata req identity resource_name).1
  /\ (metadata req identity resource_name).2
     = match res !! RES_METADATA with
       | Some m => inr (VDict [(RES_METADATA, m)])
       | None => inl (KeyError RES_METADATA)
       end
  /\ (forall body, (show req identity resource_name).2 = inr body ->
        exists view, body = VDict [("resource", ResourceController.dict_value view)]
                     /\ format_resource req res = inr view
                     /\ view !! RES_METADATA = None).
Proof.
  intros Hengine Hmeta.
  unfold ResourceController.show, ResourceController.metadata. simpl.
  rewrite Hengine. split; [reflexivity|]. split; [reflexivity|].
  destruct (format_resource req res) as [e|view] eqn:Hview; [discriminate|].
  intros body [= <-]. exists view. split; [reflexivity|]. split; [reflexivity|].
  eapply resource_view_no_raw; eauto.
Qed.

End Show.

End ResourceListingFacts.

Section StackListingFacts.
Variables STACK_ID STACK_NAME STACK_DESCRIPTION STACK_STATUS STACK_STATUS_DATA
  STACK_CREATION_TIME STACK_DELETION_TIME STACK_UPDATED_TIME : string.
Variable Request : Type.
Variable make_link : Request -> value -> option string -> value.
Variable remote_error : exn -> StackController.raised + value.
Variable engine_list_stacks : exn + list (gmap string value).

Local Notation summary_keys :=
  (StackController.summary_keys STACK_ID STACK_NAME STACK_DESCRIPTION
     STACK_STATUS STACK_STATUS_DATA STACK_CREATION_TIME STACK_DELETION_TIME
     STACK_UPDATED_TIME).
Local Notation index :=
  (StackController.index STACK_ID STACK_NAME STACK_DESCRIPTION
     STACK_STATUS STACK_STATUS_DATA STACK_CREATION_TIME STACK_DELETION_TIME
     STACK_UPDATED_TIME Request make_link remote_error engine_list_stacks).
Local Notation format_stack :=
  (StackController.format_stack STACK_ID Request make_link).

Lemma summary_view_keys (req : Request) (stack view : gmap string value)
    (k : string) :
  format_stack req stack summary_keys = inr view ->
  is_Some (view !! k) ->
  (k ∈ summary_keys /\ k <> STACK_ID) \/ k = "id" \/ k = "links".
Proof.
  unfold StackController.format_stack.
  pose proof (stack_chain_pairs STACK_ID Request make_link req summary_keys
                (map_to_list stack)) as Hpairs.
  destruct (StackController.chain_transform _ _ _ req summary_keys
              (map_to_list stack)) as [e|ps]; [discriminate|].
  intros [= <-] [v Hk]. apply dict_of_pairs_lookup in Hk.
  destruct (Hpairs ps eq_refl k v Hk)
    as [(_ & Hne & Hinc)|(idv & _ & _ & [[-> _]|[-> _]])]; [|tauto|tauto].
  left. split; [|exact Hne].
  unfold StackController.include_key, StackController.summary_keys in *.
  by apply bool_decide_eq_true in Hinc.
Qed.

(** X17.  The listing of the stacks holds one summary per stack of the
    engine, in their order.  A summary has no members but id, links and
    the summary keys other than the identity: whatever else the engine
    put in a stack record (parameters, outputs, and the like) is not
    listed. *)
Theorem stack_index_summaries (req : Request)
    (stacks : list (gmap string value)) :
  engine_list_stacks = inr stacks ->
  forall body, (index req).2 = inr body ->
    exists views,
      body = VDict [("stacks", VList (map ResourceController.dict_value views))]
      /\ Forall2 (fun s view => format_stack req s summary_keys = inr view)
                 stacks views
      /\ Forall (fun view : gmap string value =>
                   forall k, is_Some (view !! k) ->
                     (k ∈ summary_keys /\ k <> STACK_ID)
                     \/ k = "id" \/ k = "links") views.
Proof.
  intros Hengine body. unfold StackController.index. simpl. rewrite Hengine.
  unfold StackController.summaries.
  pose proof (comprehension_returns
                (fun s => format_stack req s summary_keys) stacks) as Hret.
  destruct (Iter.comprehension _ stacks) as [e0|views]; [discriminate|].
  intros [= <-]. exists views. split; [reflexivity|].
  pose proof (proj1 (Hret views) eq_refl) as Hall. split; [exact Hall|].
  clear Hret Hengine. induction Hall as [|s view ? ? Hview _ IH]; [constructor|].
  constructor; [|exact IH].
  intros k Hk. by eapply summary_view_keys.
Qed.

End StackListingFacts.

Section StackShowFacts.
Variables STACK_ID STACK_NAME STACK_DESCRIPTION STACK_STATUS STACK_STATUS_DATA
  STACK_CREATION_TIME STACK_DELETION_TIME STACK_UPDATED_TIME : string.
Variable Request : Type.
Variable make_link : Request -> value -> option string -> value.
Variable remote_error : exn -> StackController.raised + value.
Variable engine_show_stack : value -> exn + list (gmap string value).

Local Notation show :=
  (StackController.show STACK_ID Request make_link remote_error
     engine_show_stack).
Local Notation format_stack :=
  (StackController.format_stack STACK_ID Request make_link).

(** Without a key filter the view keeps every member of the record but the
    identity (and but members called id or links, which the identity may
    override). *)
Lemma stack_view_keeps (req : Request) (stack view : gmap string value)
    (k : string) (v : value) :
  format_stack req stack [] = inr view ->
  stack !! k = Some v -> k <> STACK_ID -> k <> "id" -> k <> "links" ->
  view !! k = Some v.
Proof.
  unfold StackController.format_stack.
  pose proof (stack_chain_complete STACK_ID Request make_link req []
                (map_to_list stack)
                (fun idv idv' => map_to_list_functional stack STACK_ID idv idv'))
    as Hcomplete.
  pose proof (stack_chain_pairs STACK_ID Request make_link req []
                (map_to_list stack)) as Hpairs.
  destruct (StackController.chain_transform _ _ _ req [] (map_to_list stack))
    as [e|ps]; [discriminate|].
  destruct Hcomplete as (_ & Hpass & _).
  intros [= <-] Hk Hne Hid Hlinks. apply dict_of_pairs_unique.
  - apply Hpass; [by apply elem_of_map_to_list | exact Hne | reflexivity].
  - intros v' Hin.
    destruct (Hpairs ps eq_refl k v' Hin)
      as [(Hi%elem_of_map_to_list & _)|(idv & _ & _ & [[-> _]|[-> _]])];
      [congruence | done | done].
Qed.

(** X18.  [show] answers an empty list of the engine with a 500 response.
    Otherwise it shows the first stack of the list and no other, without a
    key filter: every member of that stack record, the identity apart, is
    in the view as it was (members called id or links apart, which the
    view takes from the identity). *)
Theorem show_first_stack (req : Request) (identity : value) :
  (engine_show_stack identity = inr [] ->
   show req identity
   = ([StackController.show_stack identity],
      inl (StackController.HTTPInternalServerError None)))
  /\ (forall stack others body,
        engine_show_stack identity = inr (stack :: others) ->
        (show req identity).2 = inr body ->
        exists view,
          body = VDict [("stack", ResourceController.dict_value view)]
          /\ format_stack req stack [] = inr view
          /\ (forall k v, stack !! k = Some v ->
                k <> STACK_ID -> k <> "id" -> k <> "links" ->
                view !! k = Some v)).
Proof.
  split.
  - intros Hengine. unfold StackController.show. by rewrite Hengine.
  - intros stack others body Hengine. unfold StackController.show. simpl.
    rewrite Hengine.
    destruct (format_stack req stack []) as [e|view] eqn:Hview; [discriminate|].
    intros [= <-]. exists view. split; [reflexivity|]. split; [reflexivity|].
    intros k v. by apply (stack_view_keeps req stack view k v Hview).
Qed.

End StackShowFacts.

(** ** The further properties at work *)

Section MoreRuns.
Import Sample Fixtures.

Lemma alarm_restarts_first_match_witness :
  Restarter.alarm [webserver; running_webserver; twin] (start watchdog running_cloud)
  = (Return tt,
     Ctx watchdog
         {| cloud_keypairs := cloud_keypairs running_cloud;
            cloud_images := cloud_images running_cloud;
            cloud_flavors := cloud_flavors running_cloud;
            cloud_servers := cloud_servers running_cloud;
            countdown := 0; built_status := "ACTIVE"; outage := false;
            restarted := ["WebServer"] |}
         [restart_resource_call "WebServer"]).
Proof.
  refine (alarm_restarts_first_match [webserver] [twin] running_webserver
            (start watchdog running_cloud) (VStr "srv-1") eq_refl _ eq_refl).
  intros r Hr. apply list_elem_of_singleton in Hr as ->. reflexivity.
Defined.

Lemma build_userdata_cached_witness :
  Instance._build_userdata (VStr "other")
    (Instance._build_userdata (VStr "first") (start webserver empty_cloud)).2
  = (Return "Content-Type: multipart/mixed first",
     (Instance._build_userdata (VStr "first") (start webserver empty_cloud)).2).
Proof.
  apply (proj2 (proj2 (proj2 (build_userdata_cached
                                (start webserver empty_cloud) (VStr "first"))))).
  - reflexivity.
  - discriminate.
Defined.

Lemma handle_create_fails_before_creation_witness :
  Instance.handle_create 5 (start stranger empty_cloud)
  = (Raise (UserKeyPairMissing (VStr "nokey")),
     Ctx stranger empty_cloud [keypairs_list_call])
  /\ (Instance.handle_create 5 (start oversized empty_cloud)).1
     = Raise (UnboundLocalError "flavor_id")
  /\ resource_id (self (Instance.handle_create 5 (start oversized empty_cloud)).2)
     = None
  /\ Instance.handle_create 5 (start mistagged empty_cloud)
     = (Raise (KeyError "Value"),
        Ctx mistagged empty_cloud
            [keypairs_list_call; images_list_call; flavors_list_call]).
Proof.
  assert (Hargs : exists args c1,
    Instance.create_arguments (start oversized empty_cloud)
    = (Return (args, None), c1) /\ resource_id (self c1) = None).
  { do 2 eexists. split; vm_compute; reflexivity. }
  destruct Hargs as (args & c1 & Hargs & Hid).
  rewrite (proj2 (proj2 (handle_create_fails_before_creation
                           (start oversized empty_cloud))) args c1 Hargs 5).
  split; [|split; [reflexivity | split; [exact Hid|]]].
  - apply (proj1 (proj2 (handle_create_fails_before_creation
                           (start stranger empty_cloud)))).
    reflexivity.
  - apply (proj1 (proj2 (handle_create_fails_before_creation
                           (start mistagged empty_cloud)))).
    reflexivity.
Defined.

Lemma handle_create_waits_for_build_witness :
  (Instance.handle_create 3 (start webserver empty_cloud)).1 = Return tt
  /\ ipaddress (self (Instance.handle_create 3 (start webserver empty_cloud)).2)
     = Some "10.0.0.2"
  /\ (Instance.handle_create 2 (start webserver failing_cloud)).1
     = Raise (Error "nova reported unexpected instance[WebServer] status[ERROR]").
Proof.
  assert (Hactive : exists c1 args flavor_id server w2 cs server' w',
    Instance.create_arguments (start webserver empty_cloud)
    = (Return (args, Some flavor_id), c1)
    /\ servers_create args (world c1) = (inr server, w2)
    /\ Building.built_after server w2 cs server' w'
    /\ length cs <= 2 * 3
    /\ Server.status server' = "ACTIVE"
    /\ Server.networks server' = [("private", ["10.0.0.2"])]).
  { do 8 eexists. split; [vm_compute; reflexivity|].
    split; [vm_compute; reflexivity|]. split.
    - eapply Building.built_later; [reflexivity | reflexivity | reflexivity |].
      eapply Building.built_later; [reflexivity | reflexivity | reflexivity |].
      eapply Building.built_later; [reflexivity | reflexivity | reflexivity |].
      eapply Building.built_now. discriminate.
    - split; [simpl; lia|]. split; reflexivity. }
  assert (Herror : exists c1 args flavor_id server w2 cs server' w',
    Instance.create_arguments (start webserver failing_cloud)
    = (Return (args, Some flavor_id), c1)
    /\ servers_create args (world c1) = (inr server, w2)
    /\ Building.built_after server w2 cs server' w'
    /\ length cs <= 2 * 2
    /\ Server.status server' = "ERROR"
    /\ name (self c1) = "WebServer").
  { do 8 eexists. split; [vm_compute; reflexivity|].
    split; [vm_compute; reflexivity|]. split.
    - eapply Building.built_later; [reflexivity | reflexivity | reflexivity |].
      eapply Building.built_later; [reflexivity | reflexivity | reflexivity |].
      eapply Building.built_now. discriminate.
    - split; [simpl; lia|]. split; reflexivity. }
  destruct Hactive
    as (c1 & args & fl & server & w2 & cs & server' & w' & H1 & H2 & H3 & H4 & H5 & H6).
  destruct Herror
    as (d1 & dargs & dfl & dserver & dw2 & dcs & dserver' & dw' & E1 & E2 & E3 & E4 & E5 & E6).
  rewrite (proj1 (handle_create_waits_for_build (start webserver empty_cloud))
             c1 args fl server w2 cs server' w' H1 H2 H3 3 H4).
  rewrite (proj1 (handle_create_waits_for_build (start webserver failing_cloud))
             d1 dargs dfl dserver dw2 dcs dserver' dw' E1 E2 E3 2 E4).
  rewrite H5, H6, E5, E6. simpl. repeat split.
Defined.

Lemma FnGetAtt_address_cached_witness :
  Instance.FnGetAtt "PrivateDnsName"
    (Instance.FnGetAtt "PublicIp" (start running_webserver running_cloud)).2
  = (Return "10.0.0.2",
     (Instance.FnGetAtt "PublicIp" (start running_webserver running_cloud)).2).
Proof.
  eapply (proj2 (FnGetAtt_address_cached (start running_webserver running_cloud)
                   "PublicIp" "PrivateDnsName" _ _)).
  - reflexivity.
  - reflexivity.
  Unshelve.
  + apply list_elem_of_here.
  + do 3 apply list_elem_of_further. apply list_elem_of_here.
Defined.

Lemma handle_update_result_witness :
  exists result,
    (Instance.handle_update metadata_changed_snippet
       (start running_webserver running_cloud)).1 = Return result
    /\ (result = Instance.UPDATE_COMPLETE <->
        [("Metadata", VDict [("a", VInt 2)])] <> []
        /\ Forall (fun k => k = "Metadata") ["Metadata"]).
Proof.
  assert (Hdiff : update_template_diff
                    (self (start running_webserver running_cloud))
                    metadata_changed_snippet
                  = inr [("Metadata", VDict [("a", VInt 2)])])
    by (vm_compute; reflexivity).
  destruct (proj2 (proj2 (proj2 (handle_update_result
                                   (start running_webserver running_cloud)
                                   metadata_changed_snippet)))
              [("Metadata", VDict [("a", VInt 2)])] Hdiff)
    as (result & Hrun & Hres & _).
  exists result. by split.
Defined.

Lemma validate_passes_witness :
  Instance.validate (start webserver empty_cloud)
  = (Return VNone, Ctx webserver empty_cloud [keypairs_list_call]).
Proof.
  pose proof (validate_passes (start webserver empty_cloud)) as Hpass.
  eapply (proj1 (proj2 (Hpass eq_refl))).
  - reflexivity.
  - reflexivity.
  - apply list_elem_of_here.
  - reflexivity.
Defined.

Lemma handle_delete_failure_keeps_resource_witness :
  (Instance.handle_delete 5 (start running_webserver unreachable_cloud)).1
  = Raise (OtherException "ClientException")
  /\ self (Instance.handle_delete 5 (start running_webserver unreachable_cloud)).2
     = running_webserver
  /\ self (Instance.handle_delete 1 (start running_webserver running_cloud)).2
     = running_webserver.
Proof.
  split; [reflexivity|]. split.
  - apply (handle_delete_failure_keeps_resource 5
             (start running_webserver unreachable_cloud)). discriminate.
  - apply (handle_delete_failure_keeps_resource 1
             (start running_webserver running_cloud)). discriminate.
Defined.

Lemma id_by_name_last_match_witness :
  Instance.id_by_name Image.name Image.id (VStr "F17-x86_64") two_images
  = Some "img-3"
  /\ Instance.id_by_name Image.name Image.id (VStr "F19-x86_64") two_images
     = None.
Proof.
  split.
  - apply (proj1 (id_by_name_last_match Image.name Image.id (VStr "F17-x86_64")
                    two_images)
             [ {| Image.name := "F17-x86_64"; Image.id := "img-1" |};
               {| Image.name := "F18-x86_64"; Image.id := "img-2" |} ]
             {| Image.name := "F17-x86_64"; Image.id := "img-3" |} []).
    + reflexivity.
    + reflexivity.
    + intros o Ho. by apply not_elem_of_nil in Ho.
  - apply (proj2 (id_by_name_last_match Image.name Image.id (VStr "F19-x86_64")
                    two_images)).
    intros o Ho. unfold two_images in Ho.
    repeat (apply elem_of_cons in Ho as [->|Ho]; [reflexivity|]).
    by apply not_elem_of_nil in Ho.
Defined.

Lemma key_value_dict_last_tag_witness :
  Iter.key_value_dict (VList []) = inr None
  /\ (exists d, Iter.key_value_dict retagged = inr (Some d)
                /\ (VStr "role", VStr "db") ∈ d
                /\ (forall v', (VStr "role", v') ∈ d -> v' = VStr "db"))
  /\ Iter.key_value_dict (VList empty_tag) = inl (KeyError "Value")
  /\ Iter.key_value_dict (VList broken_tags) = inl (KeyError "Key")
  /\ Iter.key_value_dict (VList text_tag) = inl TypeError
  /\ Iter.key_value_dict (VList list_keyed_tag) = inl TypeError
  /\ Iter.key_value_loop broken_tags [] <> inr [(VStr "role", VStr "web")].
Proof.
  assert (Hrole : Forall (fun tm' => exists k' v',
                    Iter.subscript tm' "Key" = inr (VStr k')
                    /\ Iter.subscript tm' "Value" = inr v')
                    [VDict [("Key", VStr "role"); ("Value", VStr "web")]])
    by (repeat constructor; by do 2 eexists).
  split; [|split; [|split; [|split; [|split; [|split]]]]].
  - apply (proj1 key_value_dict_last_tag). reflexivity.
  - apply (proj1 (proj2 key_value_dict_last_tag)
             [VDict [("Key", VStr "role"); ("Value", VStr "web")]]
             (VDict [("Key", VStr "role"); ("Value", VStr "db")])
             [VDict [("Key", VStr "tier"); ("Value", VStr "front")]]
             "role" (VStr "db")).
    + repeat constructor; by do 2 eexists.
    + by split.
    + intros tm' v' Hin [Hk _].
      apply list_elem_of_singleton in Hin as ->. discriminate.
  - apply (proj1 (proj2 (proj2 key_value_dict_last_tag))
             [VDict [("Key", VStr "role"); ("Value", VStr "web")]]
             (VDict []) [] (KeyError "Value") Hrole).
    left. reflexivity.
  - apply (proj1 (proj2 (proj2 key_value_dict_last_tag))
             [VDict [("Key", VStr "role"); ("Value", VStr "web")]]
             (VDict [("Value", VStr "front")]) [] (KeyError "Key") Hrole).
    right. left. by exists (VStr "front").
  - apply (proj1 (proj2 (proj2 key_value_dict_last_tag))
             [VDict [("Key", VStr "role"); ("Value", VStr "web")]]
             (VStr "tier=front") [] TypeError Hrole).
    left. reflexivity.
  - apply (proj1 (proj2 (proj2 key_value_dict_last_tag))
             [VDict [("Key", VStr "role"); ("Value", VStr "web")]]
             (VDict [("Key", VList [VStr "tier"]); ("Value", VStr "front")]) []
             TypeError Hrole).
    right. right. by exists (VStr "front"), (VList [VStr "tier"]).
  - apply (proj2 (proj2 (proj2 key_value_dict_last_tag))
             [VDict [("Key", VStr "role"); ("Value", VStr "web")]]
             (VDict [("Value", VStr "front")]) [] [] (KeyError "Key")).
    right. left. by exists (VStr "front").
Defined.

End MoreRuns.

Section MoreViews.
Import Sample Fixtures.

Lemma create_engine_arguments_witness :
  exists further,
    (Stacks.create parse fetch engine remote_error make_url full_body).1
    = [Stacks.create_stack (VStr "wordpress") (VDict [("Resources", VDict [])])
         (VDict [("KeyName", VStr "mykey")]) further]
    /\ further !! "timeout_mins" = Some (VInt 30)
    /\ further !! "template" = None.
Proof.
  destruct (create_engine_arguments parse fetch engine remote_error make_url
              full_body (VStr "wordpress") (VDict [("Resources", VDict [])])
              VNone eq_refl eq_refl)
    as (further & Hcreate & _ & Hfurther).
  exists further. split; [exact Hcreate|]. split.
  - apply Hfurther. split; [reflexivity|].
    repeat (apply not_elem_of_cons; split; [discriminate|]).
    apply not_elem_of_nil.
  - destruct (further !! "template") as [v|] eqn:Hv; [|reflexivity].
    apply Hfurther in Hv as [_ Hout]. exfalso. apply Hout.
    apply list_elem_of_further, list_elem_of_here.
Defined.

Lemma create_never_returns_witness :
  Stacks.create parse fetch engine remote_error make_url nameless_body
  = ([], inl (HTTPBadRequest (VStr "No stack name specified"))).
Proof.
  apply (proj1 (create_never_returns parse fetch engine remote_error make_url
                  nameless_body VNone)).
  reflexivity.
Defined.

Lemma format_stack_members_witness :
  exists view,
    StackController.format_stack "stack_identity" unit stack_link tt
      stack_record ["stack_identity"; "stack_name"]
    = inr view
    /\ view !! "id" = Some (VStr "1")
    /\ view !! "links"
       = Some (VList [VDict [("href", VStr "/stacks/wordpress/1");
                             ("rel", VStr "self")]]).
Proof.
  apply (proj2 (proj2 (format_stack_members "stack_identity" unit stack_link tt
                         stack_record ["stack_identity"; "stack_name"]))
           stack_identity (VStr "1")); reflexivity.
Defined.

Lemma format_resource_members_witness :
  Resources.format_resource "resource_identity" "stack_name" "stack_identity"
    "metadata" unit identity resource_identifier stack_of link tt
    (<["resource_identity" := VStr "malformed"]> webserver_record)
    ["resource_identity"]
  = inl TypeError.
Proof.
  apply (proj2 (format_resource_members "resource_identity" "stack_name"
                  "stack_identity" "metadata" unit identity resource_identifier
                  stack_of link tt
                  (<["resource_identity" := VStr "malformed"]> webserver_record)
                  ["resource_identity"])).
  exists (VStr "malformed"). repeat split; reflexivity.
Defined.

Lemma resource_index_views_witness :
  exists views,
    Forall2 (fun res view =>
               ResourceController.format_resource "resource_identity"
                 "stack_name" "stack_identity" "metadata" unit identity
                 resource_identifier stack_of link tt res = inr view)
            [webserver_record; webserver_record] views
    /\ Forall (fun view : gmap string value =>
                 view !! "stack_name" = None /\ view !! "stack_identity" = None
                 /\ view !! "metadata" = None) views.
Proof.
  edestruct (proj1 (resource_index_views "resource_identity" "stack_name"
                      "stack_identity" "metadata" unit identity
                      resource_identifier stack_of link (fun e => inl e)
                      (fun _ => inr [webserver_record; webserver_record])
                      tt VNone
                      [webserver_record; webserver_record] eq_refl
                      ltac:(discriminate) ltac:(discriminate)
                      ltac:(discriminate)))
    as (views & _ & Hall & Hraw); [vm_compute; reflexivity|].
  exists views. by split.
Defined.

Lemma show_hides_metadata_witness :
  (ResourceController.metadata "metadata" unit
     (fun _ _ => inr webserver_record) (fun e => inl e) tt VNone
     (VStr "WebServer")).2
  = inr (VDict [("metadata", VDict [("a", VInt 1)])]).
Proof.
  exact (proj1 (proj2 (show_hides_metadata "resource_identity" "stack_name"
                         "stack_identity" "metadata" unit identity
                         resource_identifier stack_of link (fun e => inl e)
                         (fun _ _ => inr webserver_record)
                         tt VNone (VStr "WebServer") webserver_record eq_refl
                         ltac:(discriminate)))).
Defined.

Lemma stack_index_summaries_witness :
  exists views,
    Forall2 (fun s view =>
               StackController.format_stack "stack_identity" unit stack_link tt s
                 (StackController.summary_keys "stack_identity" "stack_name"
                    "description" "stack_status" "stack_status_reason"
                    "creation_time" "deletion_time" "updated_time")
               = inr view) [stack_record] views
    /\ Forall (fun view : gmap string value => view !! "parameters" = None) views.
Proof.
  edestruct (stack_index_summaries "stack_identity" "stack_name"
               "description" "stack_status" "stack_status_reason"
               "creation_time" "deletion_time" "updated_time" unit stack_link
               raise_remote (inr [stack_record]) tt [stack_record] eq_refl)
    as (views & _ & Hall & Hkeys); [vm_compute; reflexivity|].
  exists views. split; [exact Hall|].
  eapply Forall_impl; [exact Hkeys|]. intros view Hview. simpl in Hview.
  destruct (view !! "parameters") as [v|] eqn:Hv; [|reflexivity].
  exfalso. destruct (Hview "parameters") as [[Hin _]|[?|?]];
    [by rewrite Hv | | discriminate | discriminate].
  unfold StackController.summary_keys in Hin.
  repeat (apply elem_of_cons in Hin as [?|Hin]; [discriminate|]).
  by apply not_elem_of_nil in Hin.
Defined.

Lemma show_first_stack_witness :
  StackController.show "stack_identity" unit stack_link raise_remote
    (fun _ => inr []) tt stack_identity
  = ([StackController.show_stack stack_identity],
     inl (StackController.HTTPInternalServerError None)).
Proof.
  apply (proj1 (show_first_stack "stack_identity" unit stack_link raise_remote
                  (fun _ => inr []) tt stack_identity)).
  reflexivity.
Defined.

End MoreViews.

(** ** The errors of the template accessor *)

Section TemplateErrorFacts.
Variable template_format_parse : value -> exn + value.
Variable urlfetch_get : value -> exn + value.

Local Notation template := (Stacks.template template_format_parse urlfetch_get).

(** X19.  A ValueError of the parser becomes the bad request "Template not
    in valid format", for an inline template that is not a dict as for a
    fetched one; an IOError of the fetch becomes the bad request "Could not
    retrieve template: " followed by the text of the error, and nothing is
    parsed then.  Whatever else the accessor raises is the bad request for
    a missing template or an exception that the parser or the fetch
    raised. *)
Theorem template_errors (data : gmap string value) :
  (forall t msg, data !! Stacks.PARAM_TEMPLATE = Some t ->
     Py.is_dict t = false -> template_format_parse t = inl (ValueError msg) ->
     template data = inl (HTTPBadRequest (VStr "Template not in valid format")))
  /\ (forall url msg, data !! Stacks.PARAM_TEMPLATE = None ->
        data !! Stacks.PARAM_TEMPLATE_URL = Some url ->
        urlfetch_get url = inl (IOError msg) ->
        template data
        = inl (HTTPBadRequest (VStr ("Could not retrieve template: " +:+ msg))))
  /\ (forall url fetched msg, data !! Stacks.PARAM_TEMPLATE = None ->
        data !! Stacks.PARAM_TEMPLATE_URL = Some url ->
        urlfetch_get url = inr fetched ->
        template_format_parse fetched = inl (ValueError msg) ->
        template data = inl (HTTPBadRequest (VStr "Template not in valid format")))
  /\ (forall e, template data = inl e ->
        e = HTTPBadRequest (VStr "No template specified")
        \/ e = HTTPBadRequest (VStr "Template not in valid format")
        \/ (exists msg,
              e = HTTPBadRequest (VStr ("Could not retrieve template: " +:+ msg)))
        \/ (exists d, template_format_parse d = inl e)
        \/ (exists url, urlfetch_get url = inl e)).
Proof.
  unfold Stacks.template, Stacks.format_parse.
  split; [|split; [|split]].
  - intros t msg -> -> ->. reflexivity.
  - intros url msg -> -> ->. reflexivity.
  - intros url fetched msg -> -> -> ->. reflexivity.
  - intros e.
    assert (Hparse : forall d,
      match template_format_parse d with
      | inl (ValueError _) =>
          inl (HTTPBadRequest (VStr ("Template" +:+ " not in valid format")))
      | r => r
      end = inl e ->
      e = HTTPBadRequest (VStr "Template not in valid format")
      \/ (exists d, template_format_parse d = inl e)).
    { intros d. destruct (template_format_parse d) as [e'|tmpl] eqn:Hd;
        [|discriminate].
      destruct e'; intros [= <-]; try (right; by exists d). by left. }
    destruct (data !! Stacks.PARAM_TEMPLATE) as [t|].
    + destruct (Py.is_dict t); [discriminate|].
      intros [->|Hp]%Hparse; [right; by left | do 3 right; by left].
    + destruct (data !! Stacks.PARAM_TEMPLATE_URL) as [url|];
        [|intros [= <-]; by left].
      destruct (urlfetch_get url) as [e'|fetched] eqn:Hf.
      * destruct e'; intros [= <-];
          try (do 4 right; by exists url).
        do 2 right. left. by eexists.
      * intros [->|Hp]%Hparse; [right; by left | do 3 right; by left].
Qed.

End TemplateErrorFacts.

Section TemplateErrorRuns.
Import Sample Fixtures.

Lemma template_errors_witness :
  Stacks.template parse fetch
    {[ "template" := VStr "{not a template" ]}
  = inl (HTTPBadRequest (VStr "Template not in valid format"))
  /\ Stacks.template parse fetch
       {[ "template_url" := VStr "http://example.com/gone.template" ]}
     = inl (HTTPBadRequest (VStr "Could not retrieve template: unreachable")).
Proof.
  split.
  - apply (proj1 (template_errors parse fetch
                    {[ "template" := VStr "{not a template" ]})
             (VStr "{not a template") "malformed"); reflexivity.
  - apply (proj1 (proj2 (template_errors parse fetch
                    {[ "template_url" := VStr "http://example.com/gone.template" ]}))
             (VStr "http://example.com/gone.template") "unreachable");
      reflexivity.
Defined.

End TemplateErrorRuns.
